(** * Banana Editor: the batch generation orchestrator

    A shallow embedding of the core of [banana_editor_standalone.py]
    (class [BananaEditor]): the four image slots, the batch completion
    handlers, the scan of the save directory for recently written files and
    the sequential numbering of output files.

    Conventions of the embedding.
    - Python [str] is [string]; [bytes] is a list of bytes; Python [int]
      is [Z] where it can be negative (file numbers, slot indices given by a
      caller, clock readings) and [nat] for the counters that only count up
      from zero.
    - The attributes of the [BananaEditor] object that the modelled methods
      read or write are the fields of the record [BananaEditor]; a method
      that mutates [self] is a function returning the new record.
    - The file system is a finite map from directory paths to directory
      listings. A listing is an association list in the order in which the
      operating system enumerates it, because the stable sort of
      [_check_saved_files] breaks ties by that order.
    - [st_mtime] and [time.time()] are floats counting seconds; they are
      modelled as integers counting seconds. Only their order and the
      comparison of a difference with 300 are used.
    - Every call of [update_status] is recorded, newest first, in
      [status_log]; widget calls (progress bar, labels, buttons) have no
      effect on the modelled attributes and are left out. The temporary
      PNG file that the display of a result writes for the viewer is
      modelled: it is a file of the disk.
    - Exceptions are values: an index out of range in the slot list, a
      blob that PIL cannot open, a file written into a directory that does
      not exist. [auto_save_results] catches what its loop raises, as its
      [try] does. Failures of the operating system on a directory that
      exists (permissions, a file vanishing between [glob] and [stat]) are
      not modelled.
    - File names are strings of bytes compared byte by byte, as on a
      case-sensitive file system; where Python reads a name as text
      ([int]), the bytes are its UTF-8 encoding. The limit of 4300 digits
      that [int] puts on a text is not modelled. *)

From Stdlib Require Import ZArith Lia Ascii.
From stdpp Require Import base option list strings gmap pretty sorting.

Local Open Scope Z_scope.

(** ** Python strings *)

Module PyStr.

(** [str.split(sep)] for a one-character separator: every occurrence of
    [sep] cuts; empty pieces are kept. *)
Fixpoint split (sep : ascii) (s : string) : list string :=
  match s with
  | EmptyString => [EmptyString]
  | String c r =>
      if Ascii.eqb c sep then EmptyString :: split sep r
      else match split sep r with
           | h :: t => String c h :: t
           | [] => [String c EmptyString]
           end
  end.

(** Index of the last occurrence of [c] in [s] ([str.rfind]), if any. *)
Fixpoint rfind (c : ascii) (s : string) : option nat :=
  match s with
  | EmptyString => None
  | String d r =>
      match rfind c r with
      | Some i => Some (S i)
      | None => if Ascii.eqb d c then Some 0%nat else None
      end
  end.

(** [s[:n]] *)
Fixpoint prefix (n : nat) (s : string) : string :=
  match n, s with
  | S n', String c r => String c (prefix n' r)
  | _, _ => EmptyString
  end.

Definition digit_value (c : ascii) : option Z :=
  let n := nat_of_ascii c in
  if ((48 <=? n) && (n <=? 57))%nat then Some (Z.of_nat n - 48) else None.

(** Value of a string of decimal digits, most significant first;
    [None] when a character is not a digit. *)
Fixpoint digits (s : string) (acc : Z) : option Z :=
  match s with
  | EmptyString => Some acc
  | String c r =>
      match digit_value c with
      | Some d => digits r (10 * acc + d)
      | None => None
      end
  end.

(** [str.lower] on the letters A-Z. *)
Definition lower_char (c : ascii) : ascii :=
  let n := nat_of_ascii c in
  if ((65 <=? n) && (n <=? 90))%nat then ascii_of_nat (n + 32) else c.

Fixpoint lower (s : string) : string :=
  match s with
  | EmptyString => EmptyString
  | String c r => String (lower_char c) (lower r)
  end.

Fixpoint zeros (n : nat) : string :=
  match n with
  | O => EmptyString
  | S n' => String "0" (zeros n')
  end.

(** The format specification [03d]: sign-aware zero padding to a total
    width of three characters; longer numbers are not cut. *)
Definition fmt03d (n : Z) : string :=
  if n <? 0 then
    let d := pretty (Z.abs_N n) in
    String "-" (zeros (2 - String.length d) +:+ d)
  else
    let d := pretty (Z.to_N n) in
    zeros (3 - String.length d) +:+ d.

(** The digits of [fmt03d n], without the sign. *)
Definition fmt03d_body (n : Z) : string :=
  if n <? 0 then
    zeros (2 - String.length (pretty (Z.abs_N n))) +:+ pretty (Z.abs_N n)
  else zeros (3 - String.length (pretty (Z.to_N n))) +:+ pretty (Z.to_N n).

(** Whether every character of [s] passes the test [P]. *)
Fixpoint all_chars (P : ascii -> bool) (s : string) : bool :=
  match s with
  | EmptyString => true
  | String c r => P c && all_chars P r
  end.

(** [c != sep] *)
Definition differs (sep : ascii) (c : ascii) : bool :=
  negb (Ascii.eqb c sep).

(** A character that stands for itself in a glob pattern. *)
Definition is_literal (c : ascii) : bool := differs "*" c && differs "?" c.

Definition is_digit (c : ascii) : bool :=
  let n := nat_of_ascii c in ((48 <=? n) && (n <=? 57))%nat.

(** A letter a-z or a digit. *)
Definition is_lower_alnum (c : ascii) : bool :=
  let n := nat_of_ascii c in
  is_digit c || ((97 <=? n) && (n <=? 122))%nat.

(** *** [int]

    [int(s)] for a text [s], base 10, as CPython computes it. The text is
    first brought to ASCII: a code point below 127 stays, a white space
    above becomes a space, a decimal digit of any script becomes the
    ASCII digit of its value, and anything else makes the text invalid.
    Then the C parser runs: white space, one sign, digits that single
    underscores may group, white space. [None] stands for [ValueError].
    A [string] holds the UTF-8 bytes of the text. *)

Definition is_continuation (c : ascii) : bool :=
  let n := N_of_ascii c in ((128 <=? n) && (n <=? 191))%N.

(** The code points of the text that the bytes encode; [None] when the
    bytes are not UTF-8. (Python decodes a file name of that kind to a
    text with lone surrogates, which [int] refuses as it refuses every
    text that this function has no code points for.) *)
Fixpoint utf8_decode (s : string) : option (list N) :=
  match s with
  | EmptyString => Some []
  | String b0 r0 =>
      let n0 := N_of_ascii b0 in
      if (n0 <? 128)%N then cons n0 <$> utf8_decode r0
      else if ((194 <=? n0) && (n0 <=? 223))%N then
        match r0 with
        | String b1 r1 =>
            if is_continuation b1 then
              cons ((n0 - 192) * 64 + (N_of_ascii b1 - 128))%N
              <$> utf8_decode r1
            else None
        | EmptyString => None
        end
      else if ((224 <=? n0) && (n0 <=? 239))%N then
        match r0 with
        | String b1 (String b2 r2) =>
            let c :=
              (((n0 - 224) * 64 + (N_of_ascii b1 - 128)) * 64
               + (N_of_ascii b2 - 128))%N in
            if is_continuation b1 && is_continuation b2
               && (2048 <=? c)%N
               && negb ((55296 <=? c) && (c <=? 57343))%N
            then cons c <$> utf8_decode r2
            else None
        | _ => None
        end
      else if ((240 <=? n0) && (n0 <=? 244))%N then
        match r0 with
        | String b1 (String b2 (String b3 r3)) =>
            let c :=
              ((((n0 - 240) * 64 + (N_of_ascii b1 - 128)) * 64
                + (N_of_ascii b2 - 128)) * 64
               + (N_of_ascii b3 - 128))%N in
            if is_continuation b1 && is_continuation b2
               && is_continuation b3
               && (65536 <=? c)%N && (c <=? 1114111)%N
            then cons c <$> utf8_decode r3
            else None
        | _ => None
        end
      else None
  end.

(** [Py_UNICODE_ISSPACE] above 127. *)
Definition unicode_space (c : N) : bool :=
  ((c =? 133) || (c =? 160) || (c =? 5760)
   || (8192 <=? c) && (c <=? 8202)
   || (c =? 8232) || (c =? 8233) || (c =? 8239) || (c =? 8287)
   || (c =? 12288))%N.

(** The digits zero of the scripts of Unicode 14.0, the version of
    Python 3.11; the digits one to nine of a script follow its zero. *)
Definition decimal_zeros : list N :=
  [48; 1632; 1776; 1984; 2406; 2534; 2662; 2790; 2918; 3046; 3174; 3302;
   3430; 3558; 3664; 3792; 3872; 4160; 4240; 6112; 6160; 6470; 6608; 6784;
   6800; 6992; 7088; 7232; 7248; 42528; 43216; 43264; 43472; 43504; 43600;
   44016; 65296; 66720; 68912; 69734; 69872; 69942; 70096; 70384; 70736;
   70864; 71248; 71360; 71472; 71904; 72016; 72784; 73040; 73120; 92768;
   92864; 93008; 120782; 120792; 120802; 120812; 120822; 123200; 123632;
   125264; 130032]%N.

(** [Py_UNICODE_TODECIMAL] *)
Definition decimal (c : N) : option N :=
  (fun z => (c - z)%N)
  <$> List.find (fun z => ((z <=? c) && (c <? z + 10))%N) decimal_zeros.

Definition to_ascii (c : N) : option ascii :=
  if (c <? 127)%N then Some (ascii_of_N c)
  else if unicode_space c then Some " "%char
  else (fun d => ascii_of_N (48 + d)) <$> decimal c.

(** [_PyUnicode_TransformDecimalAndSpaceToASCII]; [None] where CPython
    puts a question mark, on which the parser fails. *)
Fixpoint to_ascii_string (cps : list N) : option string :=
  match cps with
  | [] => Some EmptyString
  | c :: r =>
      match to_ascii c, to_ascii_string r with
      | Some a, Some t => Some (String a t)
      | _, _ => None
      end
  end.

(** [Py_ISSPACE] *)
Definition c_space (c : ascii) : bool :=
  let n := nat_of_ascii c in
  ((9 <=? n) && (n <=? 13) || (n =? 32))%nat.

Fixpoint skip_spaces (s : string) : string :=
  match s with
  | String c r => if c_space c then skip_spaces r else s
  | EmptyString => EmptyString
  end.

(** The run of digits and underscores at the head of [s]: its value and
    what follows it. [prev] is the character before [s]; an underscore
    after an underscore, or at the end of the run, is an error. *)
Fixpoint digit_run (s : string) (prev : ascii) (acc : Z)
  : option (Z * string) :=
  match s with
  | String c r =>
      match digit_value c with
      | Some d => digit_run r c (10 * acc + d)
      | None =>
          if Ascii.eqb prev "_" then None
          else if Ascii.eqb c "_" then digit_run r c acc
          else Some (acc, s)
      end
  | EmptyString => if Ascii.eqb prev "_" then None else Some (acc, s)
  end.

(** [PyLong_FromString] in base 10, on the whole of [s]. *)
Definition parse_long (s : string) : option Z :=
  let t := skip_spaces s in
  let '(negative, body) :=
    match t with
    | String c r =>
        if Ascii.eqb c "+" then (false, r)
        else if Ascii.eqb c "-" then (true, r)
        else (false, t)
    | EmptyString => (false, t)
    end in
  match body with
  | String c _ =>
      if is_digit c then
        match digit_run body "0" 0 with
        | Some (n, rest) =>
            if all_chars c_space rest
            then Some (if negative then - n else n)
            else None
        | None => None
        end
      else None
  | EmptyString => None
  end.

Definition int (s : string) : option Z :=
  match utf8_decode s with
  | Some cps =>
      match to_ascii_string cps with
      | Some t => parse_long t
      | None => None
      end
  | None => None
  end.

(** Python truthiness of an optional string ([None] and [""] are false). *)
Definition truthy (o : option string) : bool :=
  match o with
  | Some (String _ _) => true
  | _ => false
  end.

End PyStr.


(** ** The file system and the clock *)

Definition bytes := list Byte.byte.

(** What [stat] and [open(..., "rb").read()] give for a file. *)
Record file := File { st_mtime : Z; content : bytes }.

(** A directory listing, in the order of enumeration. *)
Abbreviation directory := (list (string * file)).

(** A [pathlib.Path] made as [save_dir / filename]. *)
Record Path := MkPath { path_dir : string; path_name : string }.

#[global] Instance Path_eq_dec : EqDecision Path.
Proof. solve_decision. Defined.

Module Fs.

Fixpoint lookup_file (name : string) (d : directory) : option file :=
  match d with
  | [] => None
  | (n, f) :: r => if decide (n = name) then Some f else lookup_file name r
  end.

(** Writing a file of a directory: an existing entry is replaced where it
    stands, a new one is listed last. *)
Fixpoint put_file (name : string) (f : file) (d : directory) : directory :=
  match d with
  | [] => [(name, f)]
  | (n, g) :: r =>
      if decide (n = name) then (n, f) :: r else (n, g) :: put_file name f r
  end.

Definition stat (fs : gmap string directory) (p : Path) : option file :=
  fs !! path_dir p ≫= lookup_file (path_name p).

(** [Path.exists] *)
Definition exists_ (fs : gmap string directory) (p : Path) : bool :=
  bool_decide (is_Some (stat fs p)).

(** Creating or overwriting the file at [p]; [None] (an [OSError]) when
    its directory does not exist. *)
Definition write (fs : gmap string directory) (p : Path) (f : file)
  : option (gmap string directory) :=
  match fs !! path_dir p with
  | Some d => Some (<[path_dir p := put_file (path_name p) f d]> fs)
  | None => None
  end.

(** [Path.mkdir(exist_ok=True)] *)
Definition mkdir (fs : gmap string directory) (dir : string)
  : gmap string directory :=
  match fs !! dir with
  | Some _ => fs
  | None => <[dir := []]> fs
  end.

(** Matching of a file name against a glob pattern: [*] stands for any
    run of characters, [?] for one character, every other character for
    itself (the patterns of this program have no bracket class). *)
Fixpoint glob_match (pat : string) : string -> bool :=
  match pat with
  | EmptyString => fun name => bool_decide (name = EmptyString)
  | String c pat' =>
      if Ascii.eqb c "*" then
        fix star (name : string) : bool :=
          glob_match pat' name
          || match name with
             | EmptyString => false
             | String _ r => star r
             end
      else if Ascii.eqb c "?" then
        fun name =>
          match name with
          | EmptyString => false
          | String _ r => glob_match pat' r
          end
      else
        fun name =>
          match name with
          | EmptyString => false
          | String d r => Ascii.eqb c d && glob_match pat' r
          end
  end.

(** [list(dir.glob(pattern))]: the matching entries of the directory, each
    with what [stat] gives for it; nothing when [dir] does not exist. *)
Definition glob (fs : gmap string directory) (dir pattern : string)
  : list (string * file) :=
  match fs !! dir with
  | Some d => filter (fun e => glob_match pattern e.1 = true) d
  | None => []
  end.

(** [PurePath.stem]: the name without its last suffix. *)
Definition stem (name : string) : string :=
  match PyStr.rfind "." name with
  | Some i =>
      if ((0 <? i) && (i <? String.length name - 1))%nat
      then PyStr.prefix i name else name
  | None => name
  end.

End Fs.

Inductive month :=
  Jan | Feb | Mar | Apr | May | Jun | Jul | Aug | Sep | Oct | Nov | Dec.

(** One reading of the clock: the fields of [datetime.now()] that are used,
    and [time.time()]. *)
Record clock := Clock { now_day : nat; now_month : month; now_time : Z }.

(** [strftime("%b")] in the C locale. *)
Definition strftime_b (m : month) : string :=
  match m with
  | Jan => "Jan" | Feb => "Feb" | Mar => "Mar" | Apr => "Apr"
  | May => "May" | Jun => "Jun" | Jul => "Jul" | Aug => "Aug"
  | Sep => "Sep" | Oct => "Oct" | Nov => "Nov" | Dec => "Dec"
  end.

(** [f"{now.day}{now.strftime('%b').lower()}"] *)
Definition date_str_of (now : clock) : string :=
  pretty (now_day now) +:+ PyStr.lower (strftime_b (now_month now)).

(** ** Sequential numbering *)

(** [f"banana_{date_str}_*.png"] *)
Definition banana_pattern (date_str : string) : string :=
  "banana_" +:+ date_str +:+ "_*.png".

(** [f"banana_{date_str}_{n:03d}.png"] *)
Definition banana_filename (date_str : string) (n : Z) : string :=
  "banana_" +:+ date_str +:+ "_" +:+ PyStr.fmt03d n +:+ ".png".

(** The body of the loop over [existing_files]: the number of one file, or
    [None] when the iteration adds nothing to [numbers]. *)
Definition file_number (name : string) : option Z :=
  let name_parts := PyStr.split "_" (Fs.stem name) in
  if (3 <=? length name_parts)%nat then name_parts !! 2%nat ≫= PyStr.int
  else None.

(** [max] of a non-empty list of integers, its head given apart. *)
Definition max_of (n : Z) (ns : list Z) : Z := foldl Z.max n ns.

Definition get_next_file_number
    (fs : gmap string directory) (save_dir date_str : string) : Z :=
  let pattern := banana_pattern date_str in
  let existing_files := Fs.glob fs save_dir pattern in
  match existing_files with
  | [] => 1
  | _ =>
      let numbers := omap (fun e => file_number e.1) existing_files in
      match numbers with
      | n :: ns => max_of n ns + 1
      | [] => 1
      end
  end.


(** [n] is the number of a file of [save_dir] that matches the pattern of
    [date_str]. *)
Definition has_number (fs : gmap string directory)
    (save_dir date_str : string) (n : Z) : Prop :=
  exists (d : directory) (name : string) (f : file),
    fs !! save_dir = Some d
    /\ (name, f) ∈ d
    /\ Fs.glob_match (banana_pattern date_str) name = true
    /\ file_number name = Some n.

(** A directory holding one empty file for each of the given numbers. *)
Definition numbered_directory (date_str : string) (numbers : list Z)
  : directory :=
  (fun n => (banana_filename date_str n, File 0 [])) <$> numbers.

(** A file of one day, as the specification describes it: the prefix,
    the date bucket, anything, the extension. *)
Definition of_day (date_str name middle : string) : Prop :=
  name = "banana_" +:+ date_str +:+ "_" +:+ middle +:+ ".png".

(** The numeric segment of such a name: what stands between the date
    bucket and the next underscore, or the extension. *)
Definition numeric_segment (middle segment : string) : Prop :=
  PyStr.all_chars (PyStr.differs "_") segment = true
  /\ (middle = segment \/ exists more, middle = segment +:+ String "_" more).

(** [n] is the numeric segment, read by [int], of a file of the day in
    [save_dir]. *)
Definition parsed_number (fs : gmap string directory)
    (save_dir date_str : string) (n : Z) : Prop :=
  exists (d : directory) (name : string) (f : file) (middle segment : string),
    fs !! save_dir = Some d
    /\ (name, f) ∈ d
    /\ of_day date_str name middle
    /\ numeric_segment middle segment
    /\ PyStr.int segment = Some n.

(** A directory of files of two days and of other names. *)
Definition mixed_directory : directory :=
  [("banana_1sep_001.png", File 0 []);
   ("banana_2sep_009.png", File 0 []);
   ("apple_1sep_007.png", File 0 []);
   ("banana_1sep_005.png", File 0 []);
   ("banana_1sep_008.jpg", File 0 []);
   ("banana_1sep_003_copy.png", File 0 []);
   ("banana_1sep_draft.png", File 0 []);
   ("banana_1sep_1_0.png", File 0 [])].

(** ** The editor object *)

Inductive location := OriginalFolder | BananaFolder.

(** The messages passed to [update_status] by the modelled methods, with
    the numbers they are formatted with. *)
Inductive status_msg :=
| WorkerDone (completed total : nat)
    (** a worker finished: completed/total jobs done *)
| WorkerError (completed total : nat)
    (** a worker failed: completed/total jobs, with an error *)
| AutoSaved (count : nat) (where_ : location)
    (** [count] files saved automatically *)
| AutoSaveError
    (** the automatic save could not be done *)
| BatchSuccess (count : nat) (where_ : location)
    (** success: [count] images received and saved *)
| BatchMixed (success_count total : nat) (where_ : location)
    (** mixed results: success_count/total images, found saved on disk *)
| BatchFailed (error_count total : nat)
    (** generation failed: error_count/total workers failed *)
| MockShown (count : nat)
    (** generation failed, [count] error thumbnails are shown *)
| GridError.
    (** the grid of thumbnails could not be drawn to its end *)

#[global] Instance location_eq_dec : EqDecision location.
Proof. solve_decision. Defined.
#[global] Instance status_msg_eq_dec : EqDecision status_msg.
Proof. solve_decision. Defined.

(** What the module [tempfile] brings: the directory [gettempdir()], the
    names that its random sequence yields, in the order in which they are
    drawn, and the number [TMP_MAX] of names tried for one file. *)
Record tempfile := Tempfile {
  gettempdir : string;
  candidate_name : nat -> string;
  TMP_MAX : nat
}.

(** The attributes of the editor; [names_drawn] is the number of names
    drawn so far from the random sequence of [tempfile], a state of the
    process that the editor advances. *)
Record BananaEditor := Editor {
  image_paths : list (option string);
  selected_image_path : option string;
  save_on_original : bool;
  batch_results : list bytes;
  completed_workers : nat;
  total_workers : nat;
  results : list bytes;
  current_results : list bytes;
  status_log : list status_msg;
  disk : gmap string directory;
  temp_result_files : list Path;
  names_drawn : nat
}.

Definition set_image_paths (v : list (option string)) (w : BananaEditor) :=
  Editor v (selected_image_path w) (save_on_original w) (batch_results w)
    (completed_workers w) (total_workers w) (results w) (current_results w)
    (status_log w) (disk w) (temp_result_files w) (names_drawn w).
Definition set_selected_image_path (v : option string) (w : BananaEditor) :=
  Editor (image_paths w) v (save_on_original w) (batch_results w)
    (completed_workers w) (total_workers w) (results w) (current_results w)
    (status_log w) (disk w) (temp_result_files w) (names_drawn w).
Definition set_batch_results (v : list bytes) (w : BananaEditor) :=
  Editor (image_paths w) (selected_image_path w) (save_on_original w) v
    (completed_workers w) (total_workers w) (results w) (current_results w)
    (status_log w) (disk w) (temp_result_files w) (names_drawn w).
Definition set_completed_workers (v : nat) (w : BananaEditor) :=
  Editor (image_paths w) (selected_image_path w) (save_on_original w)
    (batch_results w) v (total_workers w) (results w) (current_results w)
    (status_log w) (disk w) (temp_result_files w) (names_drawn w).
Definition set_total_workers (v : nat) (w : BananaEditor) :=
  Editor (image_paths w) (selected_image_path w) (save_on_original w)
    (batch_results w) (completed_workers w) v (results w)
    (current_results w) (status_log w) (disk w) (temp_result_files w)
    (names_drawn w).
Definition set_results (v : list bytes) (w : BananaEditor) :=
  Editor (image_paths w) (selected_image_path w) (save_on_original w)
    (batch_results w) (completed_workers w) (total_workers w) v
    (current_results w) (status_log w) (disk w) (temp_result_files w)
    (names_drawn w).
Definition set_current_results (v : list bytes) (w : BananaEditor) :=
  Editor (image_paths w) (selected_image_path w) (save_on_original w)
    (batch_results w) (completed_workers w) (total_workers w) (results w) v
    (status_log w) (disk w) (temp_result_files w) (names_drawn w).
Definition set_disk (v : gmap string directory) (w : BananaEditor) :=
  Editor (image_paths w) (selected_image_path w) (save_on_original w)
    (batch_results w) (completed_workers w) (total_workers w) (results w)
    (current_results w) (status_log w) v (temp_result_files w)
    (names_drawn w).
Definition set_temp_result_files (v : list Path) (w : BananaEditor) :=
  Editor (image_paths w) (selected_image_path w) (save_on_original w)
    (batch_results w) (completed_workers w) (total_workers w) (results w)
    (current_results w) (status_log w) (disk w) v (names_drawn w).
Definition set_names_drawn (v : nat) (w : BananaEditor) :=
  Editor (image_paths w) (selected_image_path w) (save_on_original w)
    (batch_results w) (completed_workers w) (total_workers w) (results w)
    (current_results w) (status_log w) (disk w) (temp_result_files w) v.

Definition update_status (message : status_msg) (w : BananaEditor) :=
  Editor (image_paths w) (selected_image_path w) (save_on_original w)
    (batch_results w) (completed_workers w) (total_workers w) (results w)
    (current_results w) (message :: status_log w) (disk w)
    (temp_result_files w) (names_drawn w).

(** The exceptions that the modelled statements can raise. *)
Inductive exn := IndexError | OSError | UnidentifiedImageError.

Inductive outcome (A : Type) :=
| Return (a : A)
| Raise (e : exn).
Arguments Return {A} a.
Arguments Raise {A} e.

(** ** The image slots *)

Definition get_active_image_paths (w : BananaEditor) : list string :=
  omap id (image_paths w).

Definition get_image_count (w : BananaEditor) : nat :=
  length (get_active_image_paths w).

(** Of [update_image_info], the assignment to the legacy attribute
    [selected_image_path]; the rest sets a label. *)
Definition update_image_info (w : BananaEditor) : BananaEditor :=
  match get_active_image_paths w with
  | [] => set_selected_image_path None w
  | first :: _ => set_selected_image_path (Some first) w
  end.

(** [self.image_paths[i] = v]; an index out of range raises. *)
Definition assign_slot (i : nat) (v : option string) (w : BananaEditor)
  : outcome BananaEditor :=
  match image_paths w !! i with
  | Some _ => Return (set_image_paths (<[i := v]> (image_paths w)) w)
  | None => Raise IndexError
  end.

Definition remove_image_from_slot (slot_index : Z) (w : BananaEditor)
  : outcome BananaEditor :=
  if (0 <=? slot_index) && (slot_index <? 4) then
    match assign_slot (Z.to_nat slot_index) None w with
    | Return w' => Return (update_image_info w')
    | Raise e => Raise e
    end
  else Return w.

(** The loop [for i in range(4)] of [add_image_to_next_available_slot],
    over the indices still to visit. *)
Fixpoint add_image_scan (image_path : string) (indices : list nat)
    (w : BananaEditor) : outcome (bool * BananaEditor) :=
  match indices with
  | [] => Return (false, w)
  | i :: rest =>
      match image_paths w !! i with
      | None => Raise IndexError
      | Some None =>
          match assign_slot i (Some image_path) w with
          | Return w' => Return (true, update_image_info w')
          | Raise e => Raise e
          end
      | Some (Some _) => add_image_scan image_path rest w
      end
  end.

Definition add_image_to_next_available_slot (image_path : string)
    (w : BananaEditor) : outcome (bool * BananaEditor) :=
  add_image_scan image_path (seq 0 4) w.

(** The occupied slots of a list, each with its index counted from
    [base], in ascending order of index. *)
Fixpoint occupied_from (base : nat) (l : list (option string))
  : list (nat * string) :=
  match l with
  | [] => []
  | Some q :: r => (base, q) :: occupied_from (S base) r
  | None :: r => occupied_from (S base) r
  end.

(** [__init__], as far as the modelled attributes go. *)
Definition init (fs : gmap string directory) : BananaEditor :=
  Editor (replicate 4 None) None true [] 0 0 [] [] [] fs [] 0.


(** ** Scanning the save directory *)

(** The stable sort [saved_files.sort(key=st_mtime, reverse=True)], as an
    insertion sort: an element goes before the first one that is not
    newer, so that files of equal time keep their order. *)
Fixpoint insert_newest_first (x : string * file) (l : list (string * file))
  : list (string * file) :=
  match l with
  | [] => [x]
  | y :: r =>
      if st_mtime y.2 <=? st_mtime x.2 then x :: l
      else y :: insert_newest_first x r
  end.

Definition sort_newest_first (l : list (string * file))
  : list (string * file) :=
  foldr insert_newest_first [] l.

(** [current_time - st_mtime < 300] *)
Definition is_recent (current_time : Z) (e : string * file) : bool :=
  current_time - st_mtime e.2 <? 300.

(** [a] is listed before [b] only if it is not older. *)
Definition not_older (a b : string * file) : Prop :=
  st_mtime b.2 <= st_mtime a.2.

(** The scan as the specification words it: list the files of [directory]
    that match [pattern], keep those whose modification time is within
    [maxAge] of [now], sort them by modification time, newest first, and
    cut the list to [limit]. *)
Definition scan (fs : gmap string directory) (directory_ pattern : string)
    (now maxAge : Z) (limit : nat) : list Path :=
  let matching := Fs.glob fs directory_ pattern in
  let within := filter (fun e => now - st_mtime e.2 < maxAge) matching in
  (fun e => MkPath directory_ e.1) <$> take limit (sort_newest_first within).

Section Editor.

(** The two library functions the editor relies on for saving:
    [parent p] is the directory [Path(p).parent], and [png_of blob] is the
    PNG file that PIL writes for the image it decodes from [blob], or
    [None] when PIL cannot open [blob]. *)
Variable parent : string -> string.
Variable png_of : bytes -> option bytes.

(** The directory both [_check_saved_files] and [auto_save_results]
    work in when they go by the toggle, and whether it is the folder of
    the original. *)
Definition uses_original (w : BananaEditor) : bool :=
  save_on_original w && PyStr.truthy (selected_image_path w).

Definition original_dir (w : BananaEditor) : string :=
  parent (default EmptyString (selected_image_path w)).

Definition _check_saved_files (now : clock) (w : BananaEditor)
  : list Path :=
  let date_str := date_str_of now in
  let check_dir := if uses_original w then original_dir w else "banana" in
  match disk w !! check_dir with
  | None => []
  | Some _ =>
      let pattern := banana_pattern date_str in
      let saved_files :=
        sort_newest_first (Fs.glob (disk w) check_dir pattern) in
      let current_time := now_time now in
      let recent_files :=
        filter (fun e => is_recent current_time e = true)
               (take (total_workers w) saved_files) in
      (fun e => MkPath check_dir e.1) <$> recent_files
  end.

(** ** Saving *)

Definition valid_image_data (image_data : bytes) : bool :=
  match image_data with
  | [] => false
  | _ => (100 <? length image_data)%nat
  end.

(** The loop [while filepath.exists() and counter < 1000] for the file of
    number [base]: the value of [counter] when it ends. [budget] is the
    number of increments still allowed, [1000 - counter]. *)
Fixpoint collision_counter (budget : nat) (fs : gmap string directory)
    (save_dir date_str : string) (base counter : Z) : Z :=
  match budget with
  | O => counter
  | S budget' =>
      if Fs.exists_ fs
           (MkPath save_dir (banana_filename date_str (base + counter)))
      then collision_counter budget' fs save_dir date_str base (counter + 1)
      else counter
  end.

(** The loop [for i, image_data in enumerate(valid_results)], from index
    [i] on. An exception leaves the loop; the files written before it
    stay. *)
Fixpoint save_loop (now : clock) (save_dir date_str : string)
    (start_number i : Z) (valid_results : list bytes)
    (saved_files : list Path) (fs : gmap string directory)
  : gmap string directory * outcome (list Path) :=
  match valid_results with
  | [] => (fs, Return saved_files)
  | image_data :: rest =>
      match png_of image_data with
      | None => (fs, Raise UnidentifiedImageError)
      | Some png =>
          let counter :=
            collision_counter 1000 fs save_dir date_str (start_number + i) 0 in
          let filepath :=
            MkPath save_dir
              (banana_filename date_str (start_number + i + counter)) in
          match Fs.write fs filepath (File (now_time now) png) with
          | None => (fs, Raise OSError)
          | Some fs' =>
              save_loop now save_dir date_str start_number (i + 1) rest
                (saved_files ++ [filepath]) fs'
          end
      end
  end.

(** The PNG data of the blobs that come before the first one PIL cannot
    open: the artifacts the loop gets to. *)
Fixpoint readable_prefix (valid_results : list bytes) : list bytes :=
  match valid_results with
  | [] => []
  | image_data :: rest =>
      match png_of image_data with
      | Some png => png :: readable_prefix rest
      | None => []
      end
  end.

Definition auto_save_results (now : clock) (results_ : list bytes)
    (w : BananaEditor) : BananaEditor :=
  match results_ with
  | [] => w
  | _ =>
      let valid_results :=
        filter (fun d => valid_image_data d = true) results_ in
      match valid_results with
      | [] => w
      | _ =>
          let date_str := date_str_of now in
          let save_dir :=
            if uses_original w then original_dir w else "banana" in
          let location_text :=
            if uses_original w then OriginalFolder else BananaFolder in
          let fs :=
            if uses_original w then disk w else Fs.mkdir (disk w) "banana" in
          let start_number := get_next_file_number fs save_dir date_str in
          let '(fs', r) :=
            save_loop now save_dir date_str start_number 0 valid_results
              [] fs in
          match r with
          | Return saved_files =>
              update_status (AutoSaved (length saved_files) location_text)
                (set_disk fs' w)
          | Raise _ => update_status AutoSaveError (set_disk fs' w)
          end
      end
  end.

(** ** Showing results *)

(** [tmp] is the module [tempfile] and [rgb_png_of blob] the PNG data
    that PIL makes of the image it decodes from [blob] once an image of
    mode RGBA is converted to RGB, or [None] when PIL cannot open [blob]
    or cannot write it as PNG: what both the thumbnail and the temporary
    file of a result are made of. *)
Variable tmp : tempfile.
Variable rgb_png_of : bytes -> option bytes.

(** [tempfile.NamedTemporaryFile(suffix='.png', delete=False)] at time
    [now], from the [k]-th name of the sequence on: a name already taken
    is passed over, and the first free one is created as an empty file.
    The result is the number of the next name and, if a file was
    created, its path and the new disk; there is none when [budget] names
    were taken ([FileExistsError]) or the directory does not exist. *)
Fixpoint mkstemp (budget : nat) (now : clock) (fs : gmap string directory)
    (k : nat) : nat * option (Path * gmap string directory) :=
  match budget with
  | O => (k, None)
  | S budget' =>
      let file :=
        MkPath (gettempdir tmp) ("tmp" +:+ candidate_name tmp k +:+ ".png") in
      if Fs.exists_ fs file then mkstemp budget' now fs (S k)
      else
        (S k,
         (fun fs' => (file, fs')) <$> Fs.write fs file (File (now_time now) []))
  end.

(** [save_temp_result_image]: the path of the temporary file with the
    picture, or [None] when the [try] catches an exception; a file
    created before the exception stays, empty. *)
Definition save_temp_result_image (now : clock) (image_data : bytes)
    (w : BananaEditor) : option Path * BananaEditor :=
  let '(k, created) := mkstemp (TMP_MAX tmp) now (disk w) (names_drawn w) in
  let w := set_names_drawn k w in
  match created with
  | None => (None, w)
  | Some (temp_file, fs) =>
      let w := set_disk fs w in
      match rgb_png_of image_data with
      | None => (None, w)
      | Some png =>
          match Fs.write (disk w) temp_file (File (now_time now) png) with
          | None => (None, w)
          | Some fs' =>
              (Some temp_file,
               set_temp_result_files (temp_result_files w ++ [temp_file])
                 (set_disk fs' w))
          end
      end
  end.

(** [_display_single_result]: the picture is drawn and then saved for
    the viewer; an exception of the drawing is caught and printed. *)
Definition _display_single_result (now : clock) (image_data : bytes)
    (w : BananaEditor) : BananaEditor :=
  match rgb_png_of image_data with
  | None => w
  | Some _ => (save_temp_result_image now image_data w).2
  end.

(** The loop of [_display_grid_results] over the results given: each is
    drawn as a thumbnail and then saved for the viewer. [false] tells
    that a drawing raised, which ends the loop. *)
Fixpoint grid_loop (now : clock) (results_ : list bytes) (w : BananaEditor)
  : bool * BananaEditor :=
  match results_ with
  | [] => (true, w)
  | image_data :: rest =>
      match rgb_png_of image_data with
      | None => (false, w)
      | Some _ =>
          grid_loop now rest (save_temp_result_image now image_data w).2
      end
  end.

(** [_display_grid_results]: the first four results go to the grid. *)
Definition _display_grid_results (now : clock) (results_ : list bytes)
    (w : BananaEditor) : BananaEditor :=
  let '(drawn, w) := grid_loop now (take 4 results_) w in
  if drawn then w else update_status GridError w.

Definition display_results (now : clock) (results_ : list bytes)
    (w : BananaEditor) : BananaEditor :=
  match results_ with
  | [] => w
  | [image_data] =>
      _display_single_result now image_data (set_current_results results_ w)
  | _ => _display_grid_results now results_ (set_current_results results_ w)
  end.

(** Shows [total_workers] copies of [error.png] of the working directory,
    if that file is there. *)
Definition test_display_mock_results (now : clock) (w : BananaEditor)
  : BananaEditor :=
  match Fs.stat (disk w) (MkPath "." "error.png") with
  | None => w
  | Some f =>
      let mock_results := replicate (total_workers w) (content f) in
      match mock_results with
      | [] => w
      | _ =>
          update_status (MockShown (length mock_results))
            (display_results now mock_results w)
      end
  end.

(** Reads the files back; if one of them cannot be read, the mock
    thumbnails are shown instead. *)
Definition _display_saved_files_as_results (now : clock)
    (file_paths : list Path) (w : BananaEditor) : BananaEditor :=
  match mapM (Fs.stat (disk w)) file_paths with
  | Some files =>
      match content <$> files with
      | [] => w
      | results_bytes =>
          set_current_results results_bytes
            (display_results now results_bytes w)
      end
  | None => test_display_mock_results now w
  end.

(** ** The batch handlers *)

Definition on_all_batch_workers_complete (now : clock) (w : BananaEditor)
  : BananaEditor :=
  let w := set_results (batch_results w) w in
  let has_api_results :=
    match batch_results w with [] => false | _ => true end in
  let saved_files :=
    if PyStr.truthy (selected_image_path w) then _check_saved_files now w
    else [] in
  let w :=
    if has_api_results then
      let w := display_results now (batch_results w) w in
      let w := auto_save_results now (batch_results w) w in
      let location_ :=
        if save_on_original w && PyStr.truthy (selected_image_path w)
        then OriginalFolder else BananaFolder in
      update_status (BatchSuccess (length (batch_results w)) location_) w
    else
      match saved_files with
      | _ :: _ =>
          let w := _display_saved_files_as_results now saved_files w in
          let success_count := length saved_files in
          let location_ :=
            if save_on_original w then OriginalFolder else BananaFolder in
          update_status
            (BatchMixed success_count (total_workers w) location_) w
      | [] =>
          let error_count := total_workers w in
          let w := update_status (BatchFailed error_count (total_workers w)) w in
          if (1 <? total_workers w)%nat then test_display_mock_results now w
          else w
      end in
  set_total_workers 0 (set_completed_workers 0 (set_batch_results [] w)).

Definition on_batch_worker_complete (now : clock)
    (image_data_list : list bytes) (w : BananaEditor) : BananaEditor :=
  let w := set_completed_workers (completed_workers w + 1)%nat w in
  let w := set_batch_results (batch_results w ++ image_data_list) w in
  let w :=
    update_status (WorkerDone (completed_workers w) (total_workers w)) w in
  if (total_workers w <=? completed_workers w)%nat
  then on_all_batch_workers_complete now w else w.

Definition on_batch_worker_error (now : clock) (error_message : string)
    (w : BananaEditor) : BananaEditor :=
  let w := set_completed_workers (completed_workers w + 1)%nat w in
  let w :=
    update_status (WorkerError (completed_workers w) (total_workers w)) w in
  if (total_workers w <=? completed_workers w)%nat
  then on_all_batch_workers_complete now w else w.

(** The initialisation of the batch tracking done by both
    [start_text_to_image_generation] and [start_batch_image_editing]. *)
Definition start_batch (batch_count : nat) (w : BananaEditor)
  : BananaEditor :=
  set_total_workers batch_count
    (set_completed_workers 0 (set_batch_results [] w)).

(** What one worker delivers, once, when it ends. *)
Inductive signal :=
| Succeeded (image_data_list : list bytes)
| Failed (error_message : string).

Definition deliver (d : clock * signal) (w : BananaEditor) : BananaEditor :=
  match d.2 with
  | Succeeded image_data_list =>
      on_batch_worker_complete d.1 image_data_list w
  | Failed error_message => on_batch_worker_error d.1 error_message w
  end.

(** The handlers run one at a time, in the order of delivery. *)
Definition deliver_all (ds : list (clock * signal)) (w : BananaEditor)
  : BananaEditor :=
  foldl (fun w d => deliver d w) w ds.

End Editor.

(** ** Reading the log *)

(** The three messages with which [on_all_batch_workers_complete] reports
    how the batch ended. *)
Definition is_final (m : status_msg) : Prop :=
  match m with
  | BatchSuccess _ _ | BatchMixed _ _ _ | BatchFailed _ _ => True
  | _ => False
  end.

#[global] Instance is_final_dec (m : status_msg) : Decision (is_final m).
Proof. destruct m; simpl; apply _. Defined.

(** The batch-level reports of the log, newest first. *)
Definition final_reports (w : BananaEditor) : list status_msg :=
  filter is_final (status_log w).

(** How many times a batch was finalized: each run of
    [on_all_batch_workers_complete] makes one batch-level report. *)
Definition finalize_count (w : BananaEditor) : nat :=
  length (final_reports w).

(** The images one delivery brings, and their number. *)
Definition payload (d : clock * signal) : list bytes :=
  match d.2 with
  | Succeeded image_data_list => image_data_list
  | Failed _ => []
  end.

Definition accumulated (ds : list (clock * signal)) : list bytes :=
  mjoin (payload <$> ds).

Definition image_count (d : clock * signal) : nat := length (payload d).

Definition succeeded (d : clock * signal) : bool :=
  match d.2 with
  | Succeeded _ => true
  | Failed _ => false
  end.

(** The attributes that the display and save helpers leave alone, and the
    batch-level reports. *)
Definition batch_frame (w w' : BananaEditor) : Prop :=
  image_paths w' = image_paths w
  /\ selected_image_path w' = selected_image_path w
  /\ save_on_original w' = save_on_original w
  /\ batch_results w' = batch_results w
  /\ completed_workers w' = completed_workers w
  /\ total_workers w' = total_workers w
  /\ results w' = results w
  /\ final_reports w' = final_reports w.

(** [w'] is [w0] after the deliveries [ds] have been counted and their
    images appended, nothing else having changed. *)
Definition collected (w0 : BananaEditor) (ds : list (clock * signal))
    (w' : BananaEditor) : Prop :=
  completed_workers w' = (completed_workers w0 + length ds)%nat
  /\ total_workers w' = total_workers w0
  /\ batch_results w' = batch_results w0 ++ accumulated ds
  /\ final_reports w' = final_reports w0
  /\ results w' = results w0
  /\ disk w' = disk w0
  /\ selected_image_path w' = selected_image_path w0
  /\ save_on_original w' = save_on_original w0
  /\ image_paths w' = image_paths w0
  /\ current_results w' = current_results w0.

(** The terminal statuses of the specification. *)
Inductive batch_status := FullSuccess | PartialSuccess | TotalFailure.

#[global] Instance batch_status_eq_dec : EqDecision batch_status.
Proof. solve_decision. Defined.

(** The status that a batch-level report announces: the success message is
    full success, the mixed-results message is partial success, the failure
    message is total failure. *)
Definition status_of_report (m : status_msg) : option batch_status :=
  match m with
  | BatchSuccess _ _ => Some FullSuccess
  | BatchMixed _ _ _ => Some PartialSuccess
  | BatchFailed _ _ => Some TotalFailure
  | _ => None
  end.

(** The status the editor ends a batch with: that of its newest batch-level
    report. *)
Definition reported_status (w : BananaEditor) : option batch_status :=
  head (final_reports w) ≫= status_of_report.

(** The finalize decision as the specification words it, for the
    accumulated results, whether every worker succeeded, and what the scan
    of the save directory would return. *)
Definition spec_finalize_status (accumulated_results : list bytes)
    (all_succeeded : bool) (scanned : list Path) : batch_status :=
  match accumulated_results with
  | _ :: _ => if all_succeeded then FullSuccess else PartialSuccess
  | [] =>
      match scanned with
      | _ :: _ => PartialSuccess
      | [] => TotalFailure
      end
  end.

(** ** Reading the save step *)

(** The candidate path of number [n]. *)
Definition candidate (save_dir date_str : string) (n : Z) : Path :=
  MkPath save_dir (banana_filename date_str n).

(** The files that a save step without collision writes for the PNG data
    [pngs], numbered from [n] on. *)
Fixpoint numbered_files (now : clock) (date_str : string) (n : Z)
    (pngs : list bytes) : list (string * file) :=
  match pngs with
  | [] => []
  | png :: rest =>
      (banana_filename date_str n, File (now_time now) png)
      :: numbered_files now date_str (n + 1) rest
  end.

(** The allocation as the specification words it: check the candidate
    path, on a collision increment and retry, at most 1000 times; when
    every one of these candidates is taken, signal [NamingExhausted]
    ([None]). *)
Definition spec_allocate (fs : gmap string directory)
    (save_dir date_str : string) (offset : Z) : option Path :=
  snd <$> list_find (fun p => Fs.exists_ fs p = false)
            ((fun j => candidate save_dir date_str (offset + j))
               <$> seqZ 0 1001).

(** A save directory in which the numbers 1 to 1001 are taken. *)
Definition crowded_disk : gmap string directory :=
  {[ "banana" := numbered_directory "1sep" (seqZ 1 1001) ]}.

(** ** Concrete data for the examples *)

(** Instances of the library functions: every image lies in the folder
    [photos], and an image blob is written as it is. *)
Definition example_parent (p : string) : string := "photos".
Definition example_png_of (image_data : bytes) : option bytes :=
  Some image_data.
Definition example_rgb_png_of (image_data : bytes) : option bytes :=
  Some image_data.

(** An instance of [tempfile]: the temporary directory is [/tmp], the
    names drawn are the numbers 0, 1, 2, ... written with eight digits,
    and [TMP_MAX] is 238328, as on Linux. *)
Definition example_tempfile : tempfile :=
  Tempfile "/tmp"
    (fun k =>
       let d := pretty (N.of_nat k) in
       PyStr.zeros (8 - String.length d) +:+ d)
    (N.to_nat 238328).

(** A blob of [n] zero bytes. *)
Definition blob (n : nat) : bytes := replicate n Byte.x00.

(** The first of September, 1000 seconds after the epoch. *)
Definition noon : clock := Clock 1 Sep 1000.

(** A save directory with one file of the day written 10 seconds ago. *)
Definition disk_with_recent_file : gmap string directory :=
  {[ "banana" := [("banana_1sep_001.png", File 990 (blob 200))] ]}.

(** The same, with the error picture in the working directory and the
    directory of the temporary files. *)
Definition disk_with_error_png : gmap string directory :=
  {[ "banana" := [("banana_1sep_001.png", File 990 (blob 200))];
     "." := [("error.png", File 5 (blob 7))];
     "/tmp" := [] ]}.

(** Three workers: an image, a failure, an image. *)
Definition three_deliveries : list (clock * signal) :=
  [(noon, Succeeded [blob 200]); (noon, Failed "blocked");
   (noon, Succeeded [blob 300])].

Definition one_success_one_failure : list (clock * signal) :=
  [(noon, Succeeded [blob 200]); (noon, Failed "blocked")].

Definition two_failures : list (clock * signal) :=
  [(noon, Failed "blocked"); (noon, Failed "blocked")].

(** An editor whose four slots are occupied. *)
Definition four_slots : BananaEditor :=
  set_image_paths [Some "a.png"; Some "b.png"; Some "c.png"; Some "d.png"]
    (init ∅).

(** ** Taking images into the slots

    The methods of this part show their messages with [update_status] too;
    the message is given here as a result of the method, the log above
    being kept for the messages of the batch and of the save step. *)

(** [s[n:]] *)
Fixpoint str_from (n : nat) (s : string) : string :=
  match n, s with
  | S n', String _ r => str_from n' r
  | _, _ => s
  end.

(** [PurePath.suffix] of a file name: from the last dot on, when that dot
    is neither the first nor the last character. *)
Definition suffix (name : string) : string :=
  match PyStr.rfind "." name with
  | Some i =>
      if ((0 <? i) && (i <? String.length name - 1))%nat
      then str_from i name else EmptyString
  | None => EmptyString
  end.

Definition image_extensions : list string :=
  [".png"; ".jpg"; ".jpeg"; ".bmp"; ".gif"; ".tiff"; ".webp"].

(** The number of empty slots. *)
Definition free_slots (w : BananaEditor) : nat :=
  length (filter (fun slot => slot = None) (image_paths w)).

(** What the clipboard holds, as far as [paste_from_clipboard] looks: the
    temporary file the pixmap is saved to when there is a non-null image,
    and the local file of the first URL when there are URLs. *)
Record clipboard := Clipboard {
  pixmap_file : option string;
  first_url : option string
}.

(** The messages of the methods that take images in. *)
Inductive intake_msg :=
| NothingUsable      (** no valid image file among the dropped ones *)
| NoFreeSlot         (** no slot free, remove an image first *)
| UnsafeOrNoSlot     (** unsafe file or no slot free *)
| AddedOne (name : string)
| AddedAll (count : nat)
| AddedSome (count total : nat)
| PastedNext         (** pasted into the next slot *)
| PastedReplaced     (** pasted over slot 1, the slots being full *)
| NoImageInClipboard
| IntakeError (e : exn)
| PreloadUnsafe      (** the file is not safe to load *)
| PreloadDuplicate   (** the image is in the slots already *)
| PreloadDone
| PreloadSlotsFull
| PreloadInvalid.    (** not an existing image file *)

Section Intake.

(** [validate_image_path p] is the verdict of the method of that name,
    which asks the file system (the file exists, is a regular file, is not
    too large) beside looking at the path; [name_of p] is [Path(p).name];
    [exists_ p] is [Path(p).exists()]. *)
Variable validate_image_path : string -> bool.
Variable name_of : string -> string.
Variable path_exists : string -> bool.

Definition is_image_file (file_path : string) : bool :=
  match file_path with
  | EmptyString => false
  | _ =>
      bool_decide (PyStr.lower (suffix (name_of file_path))
                   ∈ image_extensions)
  end.

(** The loop of [select_image] over the chosen files: the editor it
    leaves, with the counts or with the exception that ended it. *)
Fixpoint select_image_loop (file_paths : list string) (added_count : nat)
    (skipped_files : list string) (w : BananaEditor)
  : outcome (nat * list string) * BananaEditor :=
  match file_paths with
  | [] => (Return (added_count, skipped_files), w)
  | file_path :: rest =>
      if validate_image_path file_path then
        match add_image_to_next_available_slot file_path w with
        | Return (true, w') =>
            select_image_loop rest (added_count + 1) skipped_files w'
        | Return (false, w') =>
            select_image_loop rest added_count
              (skipped_files ++ [name_of file_path]) w'
        | Raise e => (Raise e, w)
        end
      else
        select_image_loop rest added_count
          (skipped_files ++ [name_of file_path]) w
  end.

(** [select_image], given the files the dialog returns: the message it
    shows, if any, or the exception that leaves it, and the editor. *)
Definition select_image (file_paths : list string) (w : BananaEditor)
  : outcome (option intake_msg) * BananaEditor :=
  match file_paths with
  | [] => (Return None, w)
  | first :: _ =>
      match select_image_loop file_paths 0 [] w with
      | (Raise e, w') => (Raise e, w')
      | (Return (added_count, skipped_files), w') =>
          if (added_count =? 0)%nat then
            match skipped_files with
            | [] => (Return None, w')
            | _ => (Return (Some UnsafeOrNoSlot), w')
            end
          else if (added_count =? length file_paths)%nat then
            if (added_count =? 1)%nat
            then (Return (Some (AddedOne (name_of first))), w')
            else (Return (Some (AddedAll added_count)), w')
          else
            (Return (Some (AddedSome added_count (length file_paths))), w')
      end
  end.

(** The loop of [dropEvent] over the files that passed its filter. *)
Fixpoint drop_loop (image_paths_ : list string) (added_count : nat)
    (skipped_files : list string) (w : BananaEditor)
  : outcome (nat * list string) * BananaEditor :=
  match image_paths_ with
  | [] => (Return (added_count, skipped_files), w)
  | image_path :: rest =>
      match add_image_to_next_available_slot image_path w with
      | Return (true, w') => drop_loop rest (added_count + 1) skipped_files w'
      | Return (false, w') =>
          drop_loop rest added_count (skipped_files ++ [name_of image_path]) w'
      | Raise e => (Raise e, w)
      end
  end.

(** [dropEvent], given the local files of the dropped URLs: whether the
    event is accepted, the message, and the editor. What the loop raises
    is caught by the [try] of the method. *)
Definition dropEvent (urls : list string) (w : BananaEditor)
  : bool * option intake_msg * BananaEditor :=
  match urls with
  | [] => (false, None, w)
  | _ =>
      let image_paths_ :=
        filter (fun file_path =>
                  is_image_file file_path && validate_image_path file_path
                  = true) urls in
      match image_paths_ with
      | [] => (false, Some NothingUsable, w)
      | first :: _ =>
          match drop_loop image_paths_ 0 [] w with
          | (Raise e, w') => (false, Some (IntakeError e), w')
          | (Return (added_count, skipped_files), w') =>
              let msg :=
                if (added_count =? 0)%nat then NoFreeSlot
                else if (added_count =? length image_paths_)%nat then
                  if (added_count =? 1)%nat then AddedOne (name_of first)
                  else AddedAll added_count
                else AddedSome added_count (length image_paths_) in
              (true, Some msg, w')
          end
      end
  end.

(** The slot handling of [paste_from_clipboard] for one path: the next
    free slot, or slot 1 (index 0) when none is free. *)
Definition paste_path (path : string) (w : BananaEditor)
  : intake_msg * BananaEditor :=
  match add_image_to_next_available_slot path w with
  | Return (true, w') => (PastedNext, w')
  | Return (false, w') =>
      match assign_slot 0 (Some path) w' with
      | Return w'' => (PastedReplaced, update_image_info w'')
      | Raise e => (IntakeError e, w')
      end
  | Raise e => (IntakeError e, w)
  end.

Definition paste_from_clipboard (c : clipboard) (w : BananaEditor)
  : intake_msg * BananaEditor :=
  match pixmap_file c with
  | Some temp_file => paste_path temp_file w
  | None =>
      match first_url c with
      | Some file_path =>
          if is_image_file file_path then paste_path file_path w
          else (NoImageInClipboard, w)
      | None => (NoImageInClipboard, w)
      end
  end.

(** The loop [for i in range(4): self.image_paths[i] = None] of
    [preload_image] and [clear_all_slots_on_startup]: the editor it
    leaves, and the exception that ended it, if any. *)
Fixpoint clear_slots (indices : list nat) (w : BananaEditor)
  : option exn * BananaEditor :=
  match indices with
  | [] => (None, w)
  | i :: rest =>
      match assign_slot i None w with
      | Return w' => clear_slots rest w'
      | Raise e => (Some e, w)
      end
  end.

(** Of [clear_all_slots_on_startup], the slots. *)
Definition clear_all_slots_on_startup (w : BananaEditor) : BananaEditor :=
  (clear_slots (seq 0 4) w).2.

Definition preload_image (image_path : string) (clear_existing : bool)
    (w : BananaEditor) : intake_msg * BananaEditor :=
  if negb (validate_image_path image_path) then (PreloadUnsafe, w)
  else if PyStr.truthy (Some image_path) && path_exists image_path
          && is_image_file image_path then
    match (if clear_existing then clear_slots (seq 0 4) w else (None, w)) with
    | (Some e, w1) => (IntakeError e, w1)
    | (None, w1) =>
        if bool_decide (Some image_path ∈ image_paths w1)
        then (PreloadDuplicate, w1)
        else
          match add_image_to_next_available_slot image_path w1 with
          | Return (true, w2) => (PreloadDone, w2)
          | Return (false, w2) => (PreloadSlotsFull, w2)
          | Raise e => (IntakeError e, w1)
          end
    end
  else (PreloadInvalid, w).

End Intake.

(** ** The prompt history

    [BananaHistoryItem] and [BananaHistoryManager]. A prompt is a Python
    [str] that may hold any text; it is modelled as the list of its code
    points, so that [len] and [strip] are those of Python. A time stamp is
    an integer; [isoformat] and [fromisoformat], inverse of each other on
    the values of [datetime.now()], are left out. *)

Module History.

(** [str.isspace] of one code point. *)
Definition isspace (c : N) : bool :=
  ((9 <=? c) && (c <=? 13) || (28 <=? c) && (c <=? 32)
   || (c =? 133) || (c =? 160) || (c =? 5760)
   || (8192 <=? c) && (c <=? 8202)
   || (c =? 8232) || (c =? 8233) || (c =? 8239) || (c =? 8287)
   || (c =? 12288))%N.

Fixpoint lstrip (s : list N) : list N :=
  match s with
  | c :: r => if isspace c then lstrip r else s
  | [] => []
  end.

(** [rstrip]: a space is dropped when nothing but spaces follows it. *)
Fixpoint rstrip (s : list N) : list N :=
  match s with
  | [] => []
  | c :: r =>
      match rstrip r with
      | [] => if isspace c then [] else [c]
      | r' => c :: r'
      end
  end.

Definition strip (s : list N) : list N := rstrip (lstrip s).

Record BananaHistoryItem := Item { text : list N; timestamp : Z }.

#[global] Instance BananaHistoryItem_eq_dec : EqDecision BananaHistoryItem.
Proof. solve_decision. Defined.

(** [BananaHistoryItem(prompt_text, timestamp)]; [now] is the reading of
    the clock used when no time stamp is given. *)
Definition make_item (prompt_text : list N) (timestamp : option Z) (now : Z)
  : BananaHistoryItem :=
  Item (strip prompt_text) (default now timestamp).

Definition to_dict (item : BananaHistoryItem) : list N * Z :=
  (text item, timestamp item).

Definition from_dict (data : list N * Z) : BananaHistoryItem :=
  make_item data.1 (Some data.2) 0.

(** What the file [banana_history.json] holds: the dictionary written by
    [save], or something that [load] fails on (text that is no JSON, an
    entry without its keys). *)
Inductive history_json :=
| Unreadable
| Json (items_ : list (list N * Z)) (created : Z).

(** The attributes of the manager, and the state of its file ([None]:
    the file does not exist). *)
Record BananaHistoryManager := Manager {
  history_file : option history_json;
  max_items : nat;
  items : list BananaHistoryItem
}.

Definition set_items (v : list BananaHistoryItem) (m : BananaHistoryManager) :=
  Manager (history_file m) (max_items m) v.

Definition load (m : BananaHistoryManager) : BananaHistoryManager :=
  match history_file m with
  | None => m
  | Some Unreadable => set_items [] m
  | Some (Json items_ _) => set_items (from_dict <$> items_) m
  end.

(** [save]; failures of the operating system are not modelled. *)
Definition save (now : Z) (m : BananaHistoryManager) : BananaHistoryManager :=
  Manager (Some (Json (to_dict <$> items m) now)) (max_items m) (items m).

(** [__init__], given the state of the file. *)
Definition init (file_ : option history_json) : BananaHistoryManager :=
  load (Manager file_ 30 []).

(** [add_prompt]; [now] is the clock at the creation of the item and
    [saved_at] the clock at the save. *)
Definition add_prompt (text_ : list N) (now saved_at : Z)
    (m : BananaHistoryManager) : bool * BananaHistoryManager :=
  match strip text_ with
  | [] => (false, m)
  | _ =>
      if match last (items m) with
         | Some newest => bool_decide (strip (text newest) = strip text_)
         | None => false
         end
      then (false, m)
      else
        let items1 := items m ++ [make_item text_ None now] in
        let items2 :=
          if (max_items m <? length items1)%nat then drop 1 items1
          else items1 in
        (true, save saved_at (set_items items2 m))
  end.

(** The list without the first entry that has the text and the time
    stamp of [item], if there is one. *)
Fixpoint delete_first (item : BananaHistoryItem)
    (l : list BananaHistoryItem) : option (list BananaHistoryItem) :=
  match l with
  | [] => None
  | hist_item :: r =>
      if bool_decide (text hist_item = text item)
         && bool_decide (timestamp hist_item = timestamp item)
      then Some r
      else (fun r' => hist_item :: r') <$> delete_first item r
  end.

Definition remove_item (item : BananaHistoryItem) (saved_at : Z)
    (m : BananaHistoryManager) : bool * BananaHistoryManager :=
  match delete_first item (items m) with
  | Some items' => (true, save saved_at (set_items items' m))
  | None => (false, m)
  end.

(** The entries that [refresh_history_display] makes labels for. *)
Definition display_items (m : BananaHistoryManager)
  : list BananaHistoryItem :=
  take 12 (items m).

Inductive history_msg :=
| HistoryAdded
| HistoryDuplicate   (** the text is that of the newest entry *)
| HistoryTooShort.   (** more than 10 characters are needed *)

(** [add_current_prompt_to_history], given the text of the prompt box:
    the message shown and the manager. *)
Definition add_current_prompt_to_history (plain_text : list N)
    (now saved_at : Z) (m : BananaHistoryManager)
  : history_msg * BananaHistoryManager :=
  let text_ := strip plain_text in
  if (10 <? length text_)%nat then
    match add_prompt text_ now saved_at m with
    | (true, m') => (HistoryAdded, m')
    | (false, m') => (HistoryDuplicate, m')
    end
  else (HistoryTooShort, m).

End History.

(** ** The floating image viewer

    Of [FloatingImageViewer], the attributes that tell which image is
    shown, and the two methods that move through the images. *)

Module Viewer.

(** [l[i]] of Python: an index below zero counts from the end, and one
    outside the list raises. *)
Definition getitem {A : Type} (l : list A) (i : Z) : outcome A :=
  let n := Z.of_nat (length l) in
  let j := if i <? 0 then i + n else i in
  if (0 <=? j) && (j <? n) then
    match l !! Z.to_nat j with
    | Some x => Return x
    | None => Raise IndexError
    end
  else Raise IndexError.

Record FloatingImageViewer := Viewer {
  image_paths : list string;
  current_index : Z;
  image_path : string
}.

(** [__init__], given one path or a list of paths. *)
Definition init (image_path_or_paths : string + list string)
  : outcome FloatingImageViewer :=
  let image_paths_ :=
    match image_path_or_paths with
    | inl p => [p]
    | inr ps => ps
    end in
  match getitem image_paths_ 0 with
  | Return p => Return (Viewer image_paths_ 0 p)
  | Raise e => Raise e
  end.

Definition prev_image (v : FloatingImageViewer)
  : outcome FloatingImageViewer :=
  if (length (image_paths v) <=? 1)%nat then Return v
  else
    let i := (current_index v - 1) `mod` Z.of_nat (length (image_paths v)) in
    match getitem (image_paths v) i with
    | Return p => Return (Viewer (image_paths v) i p)
    | Raise e => Raise e
    end.

Definition next_image (v : FloatingImageViewer)
  : outcome FloatingImageViewer :=
  if (length (image_paths v) <=? 1)%nat then Return v
  else
    let i := (current_index v + 1) `mod` Z.of_nat (length (image_paths v)) in
    match getitem (image_paths v) i with
    | Return p => Return (Viewer (image_paths v) i p)
    | Raise e => Raise e
    end.

(** What the two methods have in common: a move by [delta]. *)
Definition step (delta : Z) (v : FloatingImageViewer)
  : outcome FloatingImageViewer :=
  if (length (image_paths v) <=? 1)%nat then Return v
  else
    let i :=
      (current_index v + delta) `mod` Z.of_nat (length (image_paths v)) in
    match getitem (image_paths v) i with
    | Return p => Return (Viewer (image_paths v) i p)
    | Raise e => Raise e
    end.

(** The keys that [keyPressEvent] tells apart. Escape closes the window
    and any other key goes to the base class: neither touches the three
    attributes. *)
Inductive key := Key_Escape | Key_Left | Key_Right | Key_Other.

#[global] Instance key_eq_dec : EqDecision key.
Proof. solve_decision. Defined.



(** The index is one of the list and the path is the one at the index:
    what [__init__] sets up, and what the editor keeps when it sets the
    index to the image clicked. *)
Definition consistent (v : FloatingImageViewer) : Prop :=
  0 <= current_index v < Z.of_nat (length (image_paths v))
  /\ image_paths v !! Z.to_nat (current_index v) = Some (image_path v).


End Viewer.

(** ** The contents sent with a request *)

(** [l.index(x)]; [None] when Python raises [ValueError]. *)
Definition list_index (x : option string) (l : list (option string))
  : option nat :=
  fst <$> list_find (fun y => y = x) l.

(** [sep.join(l)] *)
Fixpoint join (sep : string) (l : list string) : string :=
  match l with
  | [] => EmptyString
  | [x] => x
  | x :: r => x +:+ sep +:+ join sep r
  end.

(** The list [image_refs] of [prepare_session_contents]: for each image
    in the slots, ["Image n"] with [n] one more than the index that
    [list.index] gives for its path. *)
Definition image_refs (w : BananaEditor) : option (list string) :=
  mapM (fun path =>
          (fun i : nat => "Image " +:+ pretty (S i))
          <$> list_index (Some path) (image_paths w))
       (get_active_image_paths w).

Section Session.

(** [picture] stands for a PIL image, and [load_picture p] for the image
    that the loop body makes of the file at [p]: opened, converted to RGB
    and fitted into 1024 by 1024; [None] when that raises. *)
Variable picture : Type.
Variable load_picture : string -> option picture.

Inductive content_item :=
| PromptText (s : string)
| Picture (img : picture).

(** [prepare_session_contents]; [None] when it is left by the
    [ValueError] of [list.index]. *)
Definition prepare_session_contents (prompt_text : string) (w : BananaEditor)
  : option (list content_item) :=
  let active_image_paths := get_active_image_paths w in
  let image_count := length active_image_paths in
  first ←
    (if (1 <? image_count)%nat then
       image_refs_ ← image_refs w;
       Some (prompt_text
             +:+ String "010" (String "010" "[Images: ")
             +:+ join ", " image_refs_
             +:+ " (Total: " +:+ pretty image_count +:+ " images)]")
     else Some prompt_text);
  Some (PromptText first
        :: omap (fun image_path => Picture <$> load_picture image_path)
             active_image_paths).

End Session.

Arguments PromptText {picture} s.
Arguments Picture {picture} img.

(** ** The workers

    [TextToImageWorker.run] and [ImageEditWorker.run]. Each path through
    them emits one of the two signals connected to the batch handlers;
    the signal is the result of the functions below. The emissions of
    [status_update], which only reach [update_status], are left out. *)

Fixpoint starts_with (prefix_ s : string) : bool :=
  match prefix_, s with
  | EmptyString, _ => true
  | String a p, String b r => Ascii.eqb a b && starts_with p r
  | String _ _, EmptyString => false
  end.

(** [needle in s] *)
Fixpoint str_in (needle s : string) : bool :=
  starts_with needle s
  || match s with
     | String _ r => str_in needle r
     | EmptyString => false
     end.

(** What the call of the API made by a worker comes to: the list it
    returns, or the message of the exception it raises. *)
Inductive api_outcome :=
| Generated (results_ : list bytes)
| ApiError (message : string).

(** The four messages a worker can emit with its error signal. *)
Inductive worker_error :=
| NoApiKey          (** the key is not set *)
| NoResults         (** the API sent no result *)
| GenerationFailed  (** the generation did not succeed *)
| EditFailed.       (** the editing did not succeed *)

Inductive emission :=
| EmitImages (results_ : list bytes)
| EmitError (e : worker_error).

(** [TextToImageWorker.run], given [self.api_key] and what
    [_generate_with_gemini] or [_generate_with_imagen4] comes to. The
    body of the [try] either emits the images or raises; the handler
    chooses the message by the text of the exception. *)
Definition TextToImageWorker_run (api_key : option string)
    (generate : api_outcome) : emission :=
  let attempt : string + list bytes :=
    if negb (PyStr.truthy api_key)
    then inl "GEMINI_API_KEY not found in environment variables"
    else
      match generate with
      | ApiError message => inl message
      | Generated [] => inl "No images received from API"
      | Generated results_ => inr results_
      end in
  match attempt with
  | inr results_ => EmitImages results_
  | inl message =>
      if str_in "GEMINI_API_KEY not found" message then EmitError NoApiKey
      else if str_in "No images received" message then EmitError NoResults
      else EmitError GenerationFailed
  end.

(** [ImageEditWorker.run], given [self.api_key] and what [_use_new_sdk]
    or [_use_legacy_sdk] comes to. *)
Definition ImageEditWorker_run (api_key : option string)
    (edit : api_outcome) : emission :=
  if negb (PyStr.truthy api_key) then EmitError NoApiKey
  else
    match edit with
    | ApiError _ => EmitError EditFailed
    | Generated [] => EmitError NoResults
    | Generated results_ => EmitImages results_
    end.

(** A worker of a batch, with what its environment gives it. *)
Inductive worker :=
| TextToImageWorker (api_key : option string) (generate : api_outcome)
| ImageEditWorker (api_key : option string) (edit : api_outcome).

Definition run (k : worker) : emission :=
  match k with
  | TextToImageWorker api_key generate =>
      TextToImageWorker_run api_key generate
  | ImageEditWorker api_key edit => ImageEditWorker_run api_key edit
  end.

(** The images a worker obtains: those its call of the API returns, when
    it has a key. *)
Definition obtained (k : worker) : list bytes :=
  match k with
  | TextToImageWorker api_key (Generated results_)
  | ImageEditWorker api_key (Generated results_) =>
      if PyStr.truthy api_key then results_ else []
  | _ => []
  end.

Section Workers.

(** The text of each message. *)
Variable error_text : worker_error -> string.

(** The call of the handler that the emission of a worker leads to. *)
Definition to_signal (e : emission) : signal :=
  match e with
  | EmitImages results_ => Succeeded results_
  | EmitError err => Failed (error_text err)
  end.

(** The deliveries of the workers of a batch, listed in the order in
    which they end, each with the clock at its end. *)
Definition batch_deliveries (workers : list (clock * worker))
  : list (clock * signal) :=
  (fun k => (k.1, to_signal (run k.2))) <$> workers.

End Workers.

(** ** The batch size, the manual save and the font size *)

(** [get_batch_count], given the text of the combo box: the number before
    the first hyphen. [None] stands for the [ValueError] of [int]. *)
Definition get_batch_count (batch_text : string) : option Z :=
  head (PyStr.split "-" batch_text) ≫= PyStr.int.

(** The items of the combo box. *)
Definition batch_items : list string := ["1-img"; "2-img"; "3-img"; "4-img"].

(** What [save_results] tells the user. *)
Inductive save_msg :=
| NothingToSave      (** there is no result *)
| Cancelled          (** no folder was chosen; nothing is said *)
| SavedFiles (count : nat)
| SaveFailed (e : exn).

Section ManualSave.

Variable png_of : bytes -> option bytes.

(** [save_results]; [save_dir] is the folder that the dialog returns,
    empty when the dialog is cancelled. The second test of the method,
    [hasattr(self, 'last_result_path') and self.last_result_path is None],
    is false: no statement of the program creates the attribute
    [last_result_path] (the one assignment to it stands under the same
    [hasattr]), so that the refusal it guards is never reached. *)
Definition save_results (now : clock) (save_dir : string)
    (w : BananaEditor) : save_msg * BananaEditor :=
  match current_results w with
  | [] => (NothingToSave, w)
  | _ =>
      match save_dir with
      | EmptyString => (Cancelled, w)
      | _ =>
          let date_str := date_str_of now in
          let start_number :=
            get_next_file_number (disk w) save_dir date_str in
          let '(fs', r) :=
            save_loop png_of now save_dir date_str start_number 0
              (current_results w) [] (disk w) in
          match r with
          | Return saved_files =>
              (SavedFiles (length saved_files), set_disk fs' w)
          | Raise e => (SaveFailed e, set_disk fs' w)
          end
      end
  end.

End ManualSave.

(** [wheelEvent] of the editor, as far as [current_font_size] goes:
    [ctrl] tells whether the modifiers are exactly Control and [delta] is
    the vertical angle of the wheel. *)
Definition wheelEvent (min_font_size max_font_size : Z) (ctrl : bool)
    (delta : Z) (current_font_size : Z) : Z :=
  if ctrl then
    if 0 <? delta then Z.min (current_font_size + 1) max_font_size
    else if delta <? 0 then Z.max (current_font_size - 1) min_font_size
    else current_font_size
  else current_font_size.

(** ** Opening the viewer *)

Section OpenViewer.

(** [path_exists p] is [os.path.exists(p)]. *)
Variable path_exists : string -> bool.

(** [open_floating_viewer], given the attribute [temp_result_files]
    ([None]: the editor has no such attribute): the viewer it shows and
    the path of the picture in its window, or [None] when it returns
    without a viewer or its [try] catches an exception. The picture is
    the one that [__init__] of the viewer loads, from the first path of
    the list: the method then sets the index and the path of the viewer
    to the image clicked and does not load again. The test
    [is_error_state] of the method is false, the attribute
    [last_result_path] that it asks for being never created. *)
Definition open_floating_viewer
    (temp_result_files : option (list string))
    (image_path : string) (thumbnail_index : option Z)
  : option (Viewer.FloatingImageViewer * string) :=
  if negb (PyStr.truthy (Some image_path) && path_exists image_path)
  then None
  else
    let found : list string * Z :=
      match temp_result_files with
      | Some ((_ :: _) as files) =>
          let valid_temp_files :=
            filter (fun path => path_exists path = true) files in
          match valid_temp_files with
          | _ :: _ =>
              let by_path : Z :=
                match list_find (fun p => p = image_path) valid_temp_files
                with
                | Some (i, _) => Z.of_nat i
                | None => 0
                end in
              (valid_temp_files,
               match thumbnail_index with
               | Some ti =>
                   if (0 <=? ti)
                      && (ti <? Z.of_nat (length valid_temp_files))
                   then ti else by_path
               | None => by_path
               end)
          | [] => ([], 0)
          end
      | _ => ([], 0)
      end in
    let '(current_session_images, clicked_index) :=
      match found.1 with
      | [] => ([image_path], 0)
      | _ =>
          if bool_decide (image_path ∈ found.1) then found
          else ([image_path], 0)
      end in
    match Viewer.init (inr current_session_images) with
    | Raise _ => None
    | Return v =>
        let loaded := Viewer.image_path v in
        if clicked_index <? Z.of_nat (length current_session_images) then
          match Viewer.getitem current_session_images clicked_index with
          | Return p =>
              Some (Viewer.Viewer (Viewer.image_paths v) clicked_index p,
                    loaded)
          | Raise _ => None
          end
        else Some (v, loaded)
    end.

End OpenViewer.

(** A file that the scan of time [now] looks for: a file of the day,
    modified less than 300 seconds (the [maxAge] of the specification)
    before [now]. *)
Definition recent_of_day (now : clock) (e : string * file) : Prop :=
  (exists middle, of_day (date_str_of now) e.1 middle)
  /\ now_time now - st_mtime e.2 < 300.

(** The folder of the source image [photos/cat.png]: three files of the
    day written in the last 300 seconds, listed oldest first, one written
    long ago, one of the day before and one of another name. *)
Definition busy_directory : directory :=
  [("banana_1sep_001.png", File 950 (blob 201));
   ("banana_1sep_002.png", File 100 (blob 202));
   ("banana_1sep_005.png", File 970 (blob 205));
   ("notes.txt", File 995 (blob 204));
   ("banana_31aug_004.png", File 980 (blob 206));
   ("banana_1sep_003.png", File 990 (blob 203))].

Definition editor_with_source : BananaEditor :=
  set_selected_image_path (Some "photos/cat.png")
    (init {[ "photos" := busy_directory ]}).

(** The disk [fs] with the files [added] listed at the end of the
    directory [dir], if there is such a directory. *)
Definition with_files (dir : string) (added : directory)
    (fs : gmap string directory) : gmap string directory :=
  match fs !! dir with
  | Some d => <[dir := d ++ added]> fs
  | None => fs
  end.

(** An entry of a directory that bears a name of a temporary PNG file
    and the time [now]. *)
Definition temp_entry (now : clock) (e : string * file) : Prop :=
  (exists r, e.1 = "tmp" +:+ r +:+ ".png") /\ st_mtime e.2 = now_time now.

(** * Properties *)

(** ** The image slots *)

Section SlotFacts.

Implicit Types (w : BananaEditor) (l : list (option string)).

Lemma image_paths_update_image_info w :
  image_paths (update_image_info w) = image_paths w.
Proof. unfold update_image_info. by destruct (get_active_image_paths w). Qed.

(** The scan stops at the first index of [indices] whose slot is empty. *)
Lemma add_image_scan_fills p w indices i rest_ :
  Forall (fun j => exists q, image_paths w !! j = Some (Some q)) indices ->
  image_paths w !! i = Some None ->
  exists w',
    add_image_scan p (indices ++ i :: rest_) w = Return (true, w')
    /\ image_paths w' = <[i := Some p]> (image_paths w).
Proof.
  intros Hocc Hi. induction Hocc as [|j js [q Hq] _ IH]; simpl.
  - rewrite Hi. unfold assign_slot. rewrite Hi.
    eexists. split; [reflexivity|].
    by rewrite image_paths_update_image_info.
  - by rewrite Hq.
Qed.

Lemma add_image_scan_full p w indices :
  Forall (fun j => exists q, image_paths w !! j = Some (Some q)) indices ->
  add_image_scan p indices w = Return (false, w).
Proof.
  induction 1 as [|j js [q Hq] _ IH]; simpl; [done|]. by rewrite Hq.
Qed.

Lemma seq_split_at (i n : nat) :
  (i < n)%nat -> seq 0 n = seq 0 i ++ i :: seq (S i) (n - S i).
Proof.
  intros Hlt. replace n with (i + S (n - S i))%nat at 1 by lia.
  by rewrite seq_app.
Qed.

Lemma elem_of_occupied_from base l i q :
  (i, q) ∈ occupied_from base l <->
  (base <= i)%nat /\ l !! (i - base)%nat = Some (Some q).
Proof.
  revert base. induction l as [|[q0|] r IH]; intros base; simpl.
  - rewrite elem_of_nil. split; [done|]. by intros [_ ?].
  - rewrite elem_of_cons, IH. split.
    + intros [[= -> ->]|[Hle Hq]].
      * split; [lia|]. by rewrite Nat.sub_diag.
      * split; [lia|].
        by replace (i - base)%nat with (S (i - S base)) by lia.
    + intros [Hle Hq].
      destruct (decide (i = base)) as [->|Hne].
      * left. rewrite Nat.sub_diag in Hq. by simplify_eq/=.
      * right. split; [lia|].
        by replace (i - base)%nat with (S (i - S base)) in Hq by lia.
  - rewrite IH. split.
    + intros [Hle Hq]. split; [lia|].
      by replace (i - base)%nat with (S (i - S base)) by lia.
    + intros [Hle Hq].
      destruct (decide (i = base)) as [->|Hne].
      * by rewrite Nat.sub_diag in Hq.
      * split; [lia|].
        by replace (i - base)%nat with (S (i - S base)) in Hq by lia.
Qed.

Lemma occupied_from_sorted base l :
  StronglySorted lt (occupied_from base l).*1.
Proof.
  revert base. induction l as [|[q|] r IH]; intros base; simpl;
    [constructor| |apply IH].
  constructor; [apply IH|].
  apply Forall_forall. intros i Hi.
  apply list_elem_of_fmap in Hi as [[i' q'] [-> Hi]].
  apply elem_of_occupied_from in Hi. simpl. lia.
Qed.

Lemma occupied_from_paths base l :
  (occupied_from base l).*2 = omap id l.
Proof.
  revert base. induction l as [|[q|] r IH]; intros base; simpl;
    [done| |apply IH].
  by rewrite IH.
Qed.

End SlotFacts.

(** C7. [add_image_to_next_available_slot] visits the slots 0 to 3 in this
    order, writes the path into the first empty one and returns [True];
    when the four slots are occupied it returns [False] and leaves the
    editor as it was; and on a full editor, removing slot 1 and adding a path
    puts the path at index 1, the other slots being kept. *)
Theorem add_image_to_next_available_slot_first_empty
    (p : string) (w : BananaEditor) :
  length (image_paths w) = 4%nat ->
  (forall i : nat,
      image_paths w !! i = Some None ->
      (forall j : nat, (j < i)%nat -> image_paths w !! j <> Some None) ->
      exists w',
        add_image_to_next_available_slot p w = Return (true, w')
        /\ image_paths w' = <[i := Some p]> (image_paths w))
  /\ ((forall i : nat, image_paths w !! i <> Some None) ->
      add_image_to_next_available_slot p w = Return (false, w))
  /\ ((forall i : nat, image_paths w !! i <> Some None) ->
      exists w1 w2,
        remove_image_from_slot 1 w = Return w1
        /\ add_image_to_next_available_slot p w1 = Return (true, w2)
        /\ image_paths w2 = <[1%nat := Some p]> (image_paths w)).
Proof.
  intros Hlen.
  assert (Hocc : forall (l : list (option string)) (n : nat),
             (n <= length l)%nat ->
             (forall j : nat, (j < n)%nat -> l !! j <> Some None) ->
             Forall (fun j => exists q, l !! j = Some (Some q)) (seq 0 n)).
  { intros l n Hn Hfull. apply Forall_forall. intros j Hj.
    apply elem_of_seq in Hj.
    destruct (lookup_lt_is_Some_2 l j) as [[q|] Hq]; [lia|eauto|].
    by destruct (Hfull j ltac:(lia)). }
  split; [|split].
  - intros i Hi Hfirst.
    assert (Hlt : (i < 4)%nat).
    { rewrite <- Hlen. by eapply lookup_lt_Some. }
    unfold add_image_to_next_available_slot.
    rewrite (seq_split_at i 4 Hlt).
    apply add_image_scan_fills; [|done].
    apply Hocc; [lia|done].
  - intros Hfull. apply add_image_scan_full.
    apply Hocc; [lia|]. intros j _. apply Hfull.
  - intros Hfull.
    destruct (lookup_lt_is_Some_2 (image_paths w) 1) as [q1 Hq1]; [lia|].
    unfold remove_image_from_slot.
    change ((0 <=? 1) && (1 <? 4)) with true. cbv iota.
    change (Z.to_nat 1) with 1%nat. unfold assign_slot. rewrite Hq1.
    eexists. set (w1 := update_image_info _).
    assert (Hw1 : image_paths w1 = <[1%nat := None]> (image_paths w)).
    { unfold w1. by rewrite image_paths_update_image_info. }
    destruct (add_image_scan_fills p w1 [0%nat] 1%nat [2%nat; 3%nat])
      as [w2 [Hadd Hpaths]].
    + constructor; [|constructor]. rewrite Hw1.
      rewrite list_lookup_insert_ne by done.
      destruct (lookup_lt_is_Some_2 (image_paths w) 0) as [[q|] Hq];
        [lia|eauto|]. by destruct (Hfull 0%nat).
    + rewrite Hw1. apply list_lookup_insert_eq. lia.
    + exists w2. split; [done|]. split; [exact Hadd|].
      by rewrite Hpaths, Hw1, list_insert_insert_eq.
Qed.

Lemma add_image_to_next_available_slot_first_empty_witness :
  add_image_to_next_available_slot "e.png" four_slots
  = Return (false, four_slots).
Proof.
  apply (add_image_to_next_available_slot_first_empty "e.png" four_slots).
  - reflexivity.
  - intros i. by do 4 (destruct i as [|i]; [done|]).
Defined.

(** C8. [get_active_image_paths] is the list of the paths of the occupied
    slots in ascending order of slot index. Hence it does not depend on the
    order in which the slots were assigned: assigning slot 2 and then slot 0
    gives the path of slot 0 followed by the path of slot 2. *)
Theorem get_active_image_paths_by_index (w : BananaEditor) :
  (exists slots : list (nat * string),
      (forall i q, (i, q) ∈ slots <-> image_paths w !! i = Some (Some q))
      /\ StronglySorted lt slots.*1
      /\ get_active_image_paths w = slots.*2)
  /\ (forall (i j : nat) (p q : string) (wi wij wj wji : BananaEditor),
        i <> j ->
        assign_slot i (Some p) w = Return wi ->
        assign_slot j (Some q) wi = Return wij ->
        assign_slot j (Some q) w = Return wj ->
        assign_slot i (Some p) wj = Return wji ->
        get_active_image_paths wij = get_active_image_paths wji)
  /\ (forall (p0 p2 : string) fs,
        exists w2 w20,
          assign_slot 2 (Some p2) (init fs) = Return w2
          /\ assign_slot 0 (Some p0) w2 = Return w20
          /\ get_active_image_paths w20 = [p0; p2]).
Proof.
  split; [|split].
  - exists (occupied_from 0 (image_paths w)). split; [|split].
    + intros i q. rewrite elem_of_occupied_from, Nat.sub_0_r.
      split; [by intros [_ ?]|]. intros ?. split; [lia|done].
    + apply occupied_from_sorted.
    + symmetry. apply occupied_from_paths.
  - intros i j p q wi wij wj wji Hne Hi Hij Hj Hji.
    unfold assign_slot in *.
    repeat match goal with
           | H : match ?x with _ => _ end = Return _ |- _ =>
               destruct x eqn:?; [|discriminate]
           end.
    simplify_eq/=. unfold get_active_image_paths. simpl.
    by rewrite list_insert_insert_ne.
  - intros p0 p2 fs. by do 2 eexists.
Qed.

(** ** Strings: splitting, stems, and printing and reading numbers *)

Section StringFacts.

Import PyStr.
Implicit Types (s t : string) (c : ascii).

Lemma append_nil s : EmptyString +:+ s = s.
Proof. reflexivity. Qed.

Lemma append_cons c s t : String c s +:+ t = String c (s +:+ t).
Proof. reflexivity. Qed.

Lemma append_assoc s t u : (s +:+ t) +:+ u = s +:+ (t +:+ u).
Proof.
  induction s as [|c s IH]; [done|]. by rewrite !append_cons, IH.
Qed.

Lemma length_append s t :
  String.length (s +:+ t) = (String.length s + String.length t)%nat.
Proof.
  induction s as [|c s IH]; [done|]. rewrite append_cons. simpl.
  by rewrite IH.
Qed.

Lemma all_chars_append P s t :
  all_chars P (s +:+ t) = all_chars P s && all_chars P t.
Proof.
  induction s as [|c s IH]; [done|]. rewrite append_cons. simpl.
  by rewrite IH, andb_assoc.
Qed.

Lemma all_chars_impl (P Q : ascii -> bool) s :
  (forall c, P c = true -> Q c = true) ->
  all_chars P s = true -> all_chars Q s = true.
Proof.
  intros HPQ. induction s as [|c s IH]; simpl; [done|].
  intros [Hc Hs]%andb_true_iff. rewrite (HPQ c Hc). simpl. auto.
Qed.

Lemma split_no_sep sep s :
  all_chars (differs sep) s = true -> split sep s = [s].
Proof.
  induction s as [|c s IH]; simpl; [done|].
  intros [Hc Hs]%andb_true_iff. unfold differs in Hc.
  apply negb_true_iff in Hc. rewrite Hc, (IH Hs). done.
Qed.

Lemma split_append_sep sep s t :
  all_chars (differs sep) s = true ->
  split sep (s +:+ String sep t) = s :: split sep t.
Proof.
  induction s as [|c s IH]; rewrite ?append_nil, ?append_cons; simpl.
  - intros _. by rewrite Ascii.eqb_refl.
  - intros [Hc Hs]%andb_true_iff. unfold differs in Hc.
    apply negb_true_iff in Hc. rewrite Hc, (IH Hs). done.
Qed.

Lemma rfind_absent c s :
  all_chars (differs c) s = true -> rfind c s = None.
Proof.
  induction s as [|d s IH]; simpl; [done|].
  intros [Hd Hs]%andb_true_iff. unfold differs in Hd.
  apply negb_true_iff in Hd. by rewrite (IH Hs), Hd.
Qed.

Lemma rfind_last c s t :
  all_chars (differs c) t = true ->
  rfind c (s +:+ String c t) = Some (String.length s).
Proof.
  intros Ht.
  induction s as [|d s IH]; rewrite ?append_nil, ?append_cons; simpl.
  - by rewrite (rfind_absent c t Ht), Ascii.eqb_refl.
  - by rewrite IH.
Qed.

Lemma prefix_append s t : prefix (String.length s) (s +:+ t) = s.
Proof.
  induction s as [|c s IH]; rewrite ?append_nil, ?append_cons; simpl;
    [by destruct t|]. by rewrite IH.
Qed.

Lemma stem_png s : s <> EmptyString -> Fs.stem (s +:+ ".png") = s.
Proof.
  intros Hs. unfold Fs.stem.
  rewrite (rfind_last "." s "png") by done.
  rewrite length_append. simpl String.length.
  destruct s as [|c s]; [done|]. simpl String.length.
  replace ((0 <? S (String.length s)) &&
           (S (String.length s) <? S (String.length s) + 4 - 1))%nat
    with true.
  - apply (prefix_append (String c s)).
  - symmetry. apply andb_true_iff.
    split; apply Nat.ltb_lt; lia.
Qed.

(** *** Reading back what [pretty] prints *)

Lemma digit_value_pretty_N_char (x : N) :
  (x < 10)%N -> digit_value (pretty_N_char x) = Some (Z.of_N x).
Proof.
  intros Hx.
  assert (x = 0 \/ x = 1 \/ x = 2 \/ x = 3 \/ x = 4 \/ x = 5 \/ x = 6
          \/ x = 7 \/ x = 8 \/ x = 9)%N as Hcases by lia.
  by repeat (destruct Hcases as [->|Hcases]); [..|subst x].
Qed.

Lemma is_digit_pretty_N_char (x : N) : is_digit (pretty_N_char x) = true.
Proof. unfold pretty_N_char. by repeat case_match. Qed.

Lemma digits_pretty_N_go (x : N) :
  exists k : Z, 0 <= k /\ forall s acc,
    digits (pretty_N_go x s) acc = digits s (acc * 10 ^ k + Z.of_N x).
Proof.
  induction (N.lt_wf_0 x) as [x _ IH].
  destruct (decide (x = 0)%N) as [->|Hx].
  - exists 0. split; [done|]. intros s acc.
    rewrite pretty_N_go_0. f_equal. lia.
  - destruct (IH (x `div` 10)%N) as [k [Hk IHk]].
    { apply N.div_lt; lia. }
    exists (k + 1). split; [lia|]. intros s acc.
    rewrite pretty_N_go_step by lia. rewrite IHk. simpl.
    rewrite digit_value_pretty_N_char by (apply N.mod_lt; lia).
    f_equal. rewrite Z.pow_add_r by lia.
    pose proof (N.div_mod x 10 ltac:(lia)) as Hdm.
    rewrite N2Z.inj_div, N2Z.inj_mod in *. 
    assert (Z.of_N x = 10 * (Z.of_N x `div` 10) + Z.of_N x `mod` 10)
      by (apply Z.div_mod; lia).
    change (Z.of_N 10) with 10. lia.
Qed.

Lemma digits_pretty (n : N) : digits (pretty n) 0 = Some (Z.of_N n).
Proof.
  unfold pretty, pretty_N. case_decide as Hn; [by subst|].
  destruct (digits_pretty_N_go n) as [k [_ Hk]].
  rewrite Hk. simpl. f_equal.
Qed.

Lemma all_digits_pretty_N_go (x : N) s :
  all_chars is_digit (pretty_N_go x s) = all_chars is_digit s.
Proof.
  revert s. induction (N.lt_wf_0 x) as [x _ IH]. intros s.
  destruct (decide (x = 0)%N) as [->|Hx]; [by rewrite pretty_N_go_0|].
  rewrite pretty_N_go_step by lia.
  rewrite IH by (apply N.div_lt; lia). simpl.
  by rewrite is_digit_pretty_N_char.
Qed.

Lemma all_digits_pretty (n : N) : all_chars is_digit (pretty n) = true.
Proof.
  unfold pretty, pretty_N. case_decide; [done|].
  by rewrite all_digits_pretty_N_go.
Qed.

Lemma pretty_nonempty (n : N) : pretty n <> EmptyString.
Proof.
  intros Hempty. pose proof (digits_pretty n) as Hd.
  rewrite Hempty in Hd. simpl in Hd.
  assert (n = 0%N) as -> by (injection Hd; lia). done.
Qed.

Lemma digits_zeros k s : digits (zeros k +:+ s) 0 = digits s 0.
Proof.
  induction k as [|k IH]; simpl; rewrite ?append_nil, ?append_cons;
    [done|]. exact IH.
Qed.

Lemma all_digits_zeros k : all_chars is_digit (zeros k) = true.
Proof. induction k as [|k IH]; simpl; [done|]. exact IH. Qed.

Lemma is_digit_ascii c :
  is_digit c = true -> (N_of_ascii c <? 127)%N = true.
Proof.
  unfold is_digit, nat_of_ascii.
  intros [_ H2%Nat.leb_le]%andb_true_iff. apply N.ltb_lt. lia.
Qed.

Lemma is_digit_not_c_space c : is_digit c = true -> c_space c = false.
Proof.
  unfold is_digit, c_space. generalize (nat_of_ascii c). intros n Hn.
  apply andb_true_iff in Hn as [H1%Nat.leb_le H2%Nat.leb_le].
  apply orb_false_iff. split.
  - apply andb_false_iff. right. apply Nat.leb_gt. lia.
  - apply Nat.eqb_neq. lia.
Qed.

Lemma is_digit_value c :
  is_digit c = true -> exists d, digit_value c = Some d.
Proof. unfold is_digit, digit_value. intros ->. eauto. Qed.

(** A text of ASCII characters below 127 reaches the parser as it is. *)
Lemma utf8_decode_ascii s :
  all_chars (fun c => (N_of_ascii c <? 127)%N) s = true ->
  exists cps, utf8_decode s = Some cps /\ to_ascii_string cps = Some s.
Proof.
  induction s as [|c s IH]; [by exists []|].
  cbn [all_chars]. intros [Hc Hs]%andb_true_iff.
  destruct (IH Hs) as (cps & Hdec & Hasc).
  exists (N_of_ascii c :: cps). cbn [utf8_decode].
  assert ((N_of_ascii c <? 128)%N = true) as ->.
  { apply N.ltb_lt. apply N.ltb_lt in Hc. lia. }
  rewrite Hdec. split; [done|].
  cbn [to_ascii_string]. unfold to_ascii.
  by rewrite Hc, ascii_N_embedding, Hasc.
Qed.

Lemma int_ascii s :
  all_chars (fun c => (N_of_ascii c <? 127)%N) s = true ->
  int s = parse_long s.
Proof.
  intros Hs. destruct (utf8_decode_ascii s Hs) as (cps & Hdec & Hasc).
  unfold int. by rewrite Hdec, Hasc.
Qed.

Lemma digit_run_digits s prev acc :
  all_chars is_digit s = true -> prev <> "_"%char ->
  digit_run s prev acc = (fun n => (n, EmptyString)) <$> digits s acc.
Proof.
  revert prev acc. induction s as [|c s IH]; intros prev acc Hs Hprev.
  - simpl. by destruct (Ascii.eqb_spec prev "_").
  - cbn [all_chars] in Hs. apply andb_true_iff in Hs as [Hc Hs].
    destruct (is_digit_value c Hc) as [d Hd].
    cbn [digit_run digits]. rewrite Hd. apply IH; [done|].
    intros ->. done.
Qed.

(** On a run of digits the parser computes their value. *)
Lemma parse_long_digits s :
  s <> EmptyString -> all_chars is_digit s = true ->
  parse_long s = digits s 0.
Proof.
  intros Hne Hs. destruct s as [|c r]; [done|].
  pose proof Hs as Hcr. cbn [all_chars] in Hs.
  apply andb_true_iff in Hs as [Hc Hr].
  unfold parse_long. cbn [skip_spaces]. rewrite (is_digit_not_c_space c Hc).
  assert (Ascii.eqb c "+" = false) as ->.
  { destruct (Ascii.eqb_spec c "+") as [->|]; done. }
  assert (Ascii.eqb c "-" = false) as ->.
  { destruct (Ascii.eqb_spec c "-") as [->|]; done. }
  rewrite Hc, digit_run_digits by done.
  by destruct (digits (String c r) 0).
Qed.

Lemma parse_long_minus_digits s :
  s <> EmptyString -> all_chars is_digit s = true ->
  parse_long (String "-" s) = Z.opp <$> digits s 0.
Proof.
  intros Hne Hs. destruct s as [|c r]; [done|].
  pose proof Hs as Hcr. cbn [all_chars] in Hs.
  apply andb_true_iff in Hs as [Hc Hr].
  unfold parse_long. cbn [skip_spaces].
  change (c_space "-") with false. cbv iota.
  change (Ascii.eqb "-" "+") with false.
  change (Ascii.eqb "-" "-") with true. cbv iota.
  rewrite Hc, digit_run_digits by done.
  by destruct (digits (String c r) 0).
Qed.

Lemma all_digits_ascii s :
  all_chars is_digit s = true ->
  all_chars (fun c => (N_of_ascii c <? 127)%N) s = true.
Proof. apply all_chars_impl. intros c. apply is_digit_ascii. Qed.

Lemma int_digits s :
  s <> EmptyString -> all_chars is_digit s = true -> int s = digits s 0.
Proof.
  intros Hne Hs. rewrite int_ascii by (by apply all_digits_ascii).
  by apply parse_long_digits.
Qed.

Lemma is_digit_differs c sep :
  is_digit sep = false -> is_digit c = true -> differs sep c = true.
Proof.
  intros Hsep Hc. unfold differs. apply negb_true_iff.
  destruct (Ascii.eqb_spec c sep) as [->|]; [congruence|done].
Qed.

Lemma all_digits_differ sep s :
  is_digit sep = false ->
  all_chars is_digit s = true -> all_chars (differs sep) s = true.
Proof. intros Hsep. apply all_chars_impl. intros c. by apply is_digit_differs. Qed.

Lemma fmt03d_sign (n : Z) :
  fmt03d n = if n <? 0 then String "-" (fmt03d_body n) else fmt03d_body n.
Proof. unfold fmt03d, fmt03d_body. by destruct (n <? 0). Qed.

Lemma fmt03d_body_digits (n : Z) :
  all_chars is_digit (fmt03d_body n) = true.
Proof.
  unfold fmt03d_body.
  destruct (n <? 0); by rewrite all_chars_append, all_digits_zeros,
    all_digits_pretty.
Qed.

Lemma fmt03d_body_value (n : Z) :
  digits (fmt03d_body n) 0 = Some (Z.abs n).
Proof.
  unfold fmt03d_body.
  destruct (Z.ltb_spec n 0); rewrite digits_zeros, digits_pretty; f_equal; lia.
Qed.

Lemma fmt03d_body_nonempty (n : Z) : fmt03d_body n <> EmptyString.
Proof.
  unfold fmt03d_body. intros Hempty.
  destruct (n <? 0);
    match type of Hempty with
    | ?z +:+ ?d = _ =>
        assert (String.length (z +:+ d) = 0%nat) as Hlen by (by rewrite Hempty);
        rewrite length_append in Hlen;
        destruct d eqn:Hd; [by eapply pretty_nonempty|simpl in Hlen; lia]
    end.
Qed.

(** The pieces of [fmt03d n]: no underscore, no space. *)
Lemma fmt03d_differs (n : Z) sep :
  is_digit sep = false -> sep <> "-"%char ->
  all_chars (differs sep) (fmt03d n) = true.
Proof.
  intros Hsep Hminus. rewrite fmt03d_sign.
  pose proof (all_digits_differ sep _ Hsep (fmt03d_body_digits n)) as Hb.
  destruct (n <? 0); [|done]. simpl. rewrite Hb, andb_true_r.
  unfold differs. apply negb_true_iff.
  by destruct (Ascii.eqb_spec "-" sep).
Qed.

(** [int] reads back the number that [fmt03d] prints. *)
Lemma int_fmt03d (n : Z) : int (fmt03d n) = Some n.
Proof.
  pose proof (fmt03d_body_digits n) as Hdig.
  pose proof (fmt03d_body_value n) as Hval.
  pose proof (fmt03d_body_nonempty n) as Hne.
  rewrite fmt03d_sign. destruct (Z.ltb_spec n 0) as [Hneg|Hpos].
  - rewrite int_ascii.
    2:{ cbn [all_chars]. by rewrite all_digits_ascii. }
    rewrite parse_long_minus_digits, Hval by done.
    simpl. f_equal. lia.
  - rewrite int_digits, Hval by done. f_equal. lia.
Qed.

(** *** File names *)

(** The number of a file named by [banana_filename] is the number it was
    named with, whatever the sign, as long as the date string has no
    underscore. *)
Lemma file_number_banana_filename (date_str : string) (n : Z) :
  all_chars (differs "_") date_str = true ->
  file_number (banana_filename date_str n) = Some n.
Proof.
  intros Hd. unfold file_number, banana_filename.
  rewrite <- !append_assoc. rewrite stem_png.
  2:{ rewrite !append_assoc. done. }
  rewrite !append_assoc.
  change ("banana_" +:+ date_str +:+ "_" +:+ fmt03d n)
    with ("banana" +:+ String "_" (date_str +:+ String "_" (fmt03d n))).
  rewrite (split_append_sep "_" "banana") by done.
  rewrite (split_append_sep "_" date_str) by done.
  rewrite split_no_sep by (by apply fmt03d_differs).
  simpl. apply int_fmt03d.
Qed.

Lemma banana_filename_inj (date_str : string) (n m : Z) :
  all_chars (differs "_") date_str = true ->
  banana_filename date_str n = banana_filename date_str m -> n = m.
Proof.
  intros Hd Heq.
  pose proof (file_number_banana_filename date_str n Hd) as Hn.
  rewrite Heq, (file_number_banana_filename date_str m Hd) in Hn.
  congruence.
Qed.

(** *** Patterns *)

Lemma glob_match_literal lit pat name :
  all_chars is_literal lit = true ->
  Fs.glob_match (lit +:+ pat) (lit +:+ name) = Fs.glob_match pat name.
Proof.
  induction lit as [|c lit IH]; [done|]. simpl.
  intros [[H1 H2]%andb_true_iff Hlit]%andb_true_iff.
  unfold differs in H1, H2. apply negb_true_iff in H1, H2.
  rewrite !append_cons. simpl. rewrite H1, H2, Ascii.eqb_refl. simpl. auto.
Qed.

Lemma glob_match_star pat skipped name :
  Fs.glob_match pat name = true ->
  Fs.glob_match (String "*" pat) (skipped +:+ name) = true.
Proof.
  intros Hm. induction skipped as [|c r IH].
  - rewrite append_nil. simpl. destruct name; by rewrite Hm.
  - rewrite append_cons. simpl in *. rewrite IH. apply orb_true_r.
Qed.

Lemma banana_filename_matches (date_str : string) (n : Z) :
  all_chars is_literal date_str = true ->
  Fs.glob_match (banana_pattern date_str) (banana_filename date_str n)
  = true.
Proof.
  intros Hd.
  assert (Hlit : all_chars is_literal ("banana_" +:+ date_str +:+ "_") = true).
  { by rewrite !all_chars_append, Hd. }
  replace (banana_pattern date_str)
    with (("banana_" +:+ date_str +:+ "_") +:+ "*.png")
    by (unfold banana_pattern; by rewrite !append_assoc).
  replace (banana_filename date_str n)
    with (("banana_" +:+ date_str +:+ "_") +:+ (fmt03d n +:+ ".png"))
    by (unfold banana_filename; by rewrite !append_assoc).
  rewrite (glob_match_literal _ _ _ Hlit).
  by apply glob_match_star.
Qed.

(** *** The date string *)

Lemma date_str_lower_alnum (now : clock) :
  all_chars is_lower_alnum (date_str_of now) = true.
Proof.
  unfold date_str_of. rewrite all_chars_append. apply andb_true_iff. split.
  - eapply all_chars_impl; [|apply all_digits_pretty].
    intros c Hc. unfold is_lower_alnum. by rewrite Hc.
  - by destruct (now_month now).
Qed.

Lemma is_lower_alnum_differs c sep :
  is_lower_alnum sep = false -> is_lower_alnum c = true ->
  differs sep c = true.
Proof.
  intros Hsep Hc. unfold differs. apply negb_true_iff.
  destruct (Ascii.eqb_spec c sep) as [->|]; [congruence|done].
Qed.

Lemma date_str_no_underscore (now : clock) :
  all_chars (differs "_") (date_str_of now) = true.
Proof.
  eapply all_chars_impl; [|apply date_str_lower_alnum].
  intros c. by apply is_lower_alnum_differs.
Qed.

Lemma date_str_literal (now : clock) :
  all_chars is_literal (date_str_of now) = true.
Proof.
  eapply all_chars_impl; [|apply date_str_lower_alnum].
  intros c Hc. unfold is_literal.
  by rewrite !is_lower_alnum_differs.
Qed.

End StringFacts.

(** ** Sequential numbering *)

Section NamerFacts.

Implicit Types (fs : gmap string directory) (d : directory).

Lemma lookup_file_Some name d f :
  Fs.lookup_file name d = Some f -> (name, f) ∈ d.
Proof.
  induction d as [|[n g] r IH]; simpl; [done|].
  case_decide as Hn.
  - intros [= ->]. subst. left.
  - intros Hf. right. auto.
Qed.

Lemma lookup_file_is_Some name d f :
  (name, f) ∈ d -> is_Some (Fs.lookup_file name d).
Proof.
  induction d as [|[n g] r IH]; simpl; [by intros ?%elem_of_nil|].
  intros [[= <- <-]|Hin]%elem_of_cons.
  - by rewrite decide_True.
  - case_decide; eauto.
Qed.

Lemma lookup_file_put_file name name' f d :
  Fs.lookup_file name (Fs.put_file name' f d)
  = if decide (name' = name) then Some f else Fs.lookup_file name d.
Proof.
  induction d as [|[n g] r IH]; simpl.
  - by repeat case_decide.
  - destruct (decide (n = name')) as [->|Hne]; simpl.
    + by repeat case_decide.
    + rewrite IH. repeat case_decide; congruence.
Qed.

Lemma elem_of_glob fs dir pattern name f :
  (name, f) ∈ Fs.glob fs dir pattern <->
  exists d, fs !! dir = Some d /\ (name, f) ∈ d
            /\ Fs.glob_match pattern name = true.
Proof.
  unfold Fs.glob. destruct (fs !! dir) as [d|].
  - rewrite list_elem_of_filter. simpl. split.
    + intros [Hm Hin]. by exists d.
    + by intros [d' [[= <-] [Hin Hm]]].
  - rewrite elem_of_nil. split; [done|]. by intros [d [? _]].
Qed.

Lemma has_number_omap fs save_dir date_str n :
  has_number fs save_dir date_str n <->
  n ∈ omap (fun e : string * file => file_number e.1)
        (Fs.glob fs save_dir (banana_pattern date_str)).
Proof.
  rewrite list_elem_of_omap. unfold has_number. split.
  - intros (d & name & f & Hd & Hin & Hm & Hn).
    exists (name, f). split; [|done]. apply elem_of_glob. eauto.
  - intros ([name f] & Hg & Hn). apply elem_of_glob in Hg as (d & ? & ? & ?).
    by exists d, name, f.
Qed.

Lemma max_of_spec (n : Z) (ns : list Z) :
  max_of n ns ∈ n :: ns /\ forall m, m ∈ n :: ns -> m <= max_of n ns.
Proof.
  unfold max_of. revert n. induction ns as [|k ns IH]; intros n; simpl.
  - split; [left|]. intros m ->%list_elem_of_singleton. lia.
  - destruct (IH (Z.max n k)) as [Hin Hub]. split.
    + apply elem_of_cons in Hin as [Heq|Hin].
      * rewrite Heq. destruct (Z.max_spec n k) as [[_ ->]|[_ ->]];
          [right; left|left].
      * by do 2 right.
    + intros m [->|[->|Hm]%elem_of_cons]%elem_of_cons.
      * etrans; [apply (Z.le_max_l _ k)|]. apply Hub. left.
      * etrans; [apply (Z.le_max_r n)|]. apply Hub. left.
      * apply Hub. by right.
Qed.

Lemma get_next_file_number_max fs save_dir date_str :
  let next := get_next_file_number fs save_dir date_str in
  ((exists n, has_number fs save_dir date_str n) ->
    has_number fs save_dir date_str (next - 1)
    /\ forall n, has_number fs save_dir date_str n -> n < next)
  /\ ((forall n, ~ has_number fs save_dir date_str n) -> next = 1).
Proof.
  simpl. unfold get_next_file_number.
  setoid_rewrite has_number_omap.
  destruct (Fs.glob fs save_dir (banana_pattern date_str)) as [|e es] eqn:Hg.
  { simpl. split; [|done]. by intros [n ?%elem_of_nil]. }
  rewrite <- Hg. clear Hg.
  destruct (omap _ _) as [|n ns].
  { split; [|done]. by intros [n ?%elem_of_nil]. }
  destruct (max_of_spec n ns) as [Hin Hub]. split.
  - intros _. split.
    + by replace (max_of n ns + 1 - 1) with (max_of n ns) by lia.
    + intros m Hm. specialize (Hub m Hm). lia.
  - intros Hnone. destruct (Hnone n). left.
Qed.

(** A file name made from a number at or above the next number is not
    taken. *)
Lemma next_number_fresh fs save_dir date_str (n : Z) :
  PyStr.all_chars (PyStr.differs "_") date_str = true ->
  PyStr.all_chars PyStr.is_literal date_str = true ->
  get_next_file_number fs save_dir date_str <= n ->
  Fs.stat fs (MkPath save_dir (banana_filename date_str n)) = None.
Proof.
  intros Hus Hlit Hle.
  destruct (Fs.stat _ _) as [f|] eqn:Hstat; [|done]. exfalso.
  unfold Fs.stat in Hstat. simpl in Hstat.
  destruct (fs !! save_dir) as [d|] eqn:Hd; [|done]. simpl in Hstat.
  apply lookup_file_Some in Hstat.
  assert (Hnum : has_number fs save_dir date_str n).
  { exists d, (banana_filename date_str n), f.
    repeat split; [done..| |].
    - by apply banana_filename_matches.
    - by apply file_number_banana_filename. }
  destruct (get_next_file_number_max fs save_dir date_str) as [Hmax _].
  destruct Hmax as [_ Hub]; [by exists n|].
  specialize (Hub n Hnum). lia.
Qed.

End NamerFacts.

Section DayFacts.

Import PyStr.

Implicit Types (fs : gmap string directory) (d : directory).

Lemma glob_match_literal_inv lit pat name :
  all_chars is_literal lit = true ->
  Fs.glob_match (lit +:+ pat) name = true ->
  exists r, name = lit +:+ r /\ Fs.glob_match pat r = true.
Proof.
  revert name. induction lit as [|c lit IH]; intros name Hlit Hm.
  - exists name. by rewrite !append_nil in *.
  - cbn [all_chars] in Hlit.
    apply andb_true_iff in Hlit as [[H1 H2]%andb_true_iff Hlit].
    unfold differs in H1, H2. apply negb_true_iff in H1, H2.
    rewrite append_cons in Hm. cbn [Fs.glob_match] in Hm.
    rewrite H1, H2 in Hm.
    destruct name as [|a name]; [done|].
    apply andb_true_iff in Hm as [Hc Hm].
    apply Ascii.eqb_eq in Hc as <-.
    destruct (IH name Hlit Hm) as (r & -> & Hr).
    exists r. by rewrite append_cons.
Qed.

Lemma glob_match_nil name :
  Fs.glob_match EmptyString name = true -> name = EmptyString.
Proof. simpl. by intros ?%bool_decide_eq_true. Qed.

Lemma glob_match_star_inv pat name :
  Fs.glob_match (String "*" pat) name = true ->
  exists skipped r, name = skipped +:+ r /\ Fs.glob_match pat r = true.
Proof.
  induction name as [|a name IH].
  - simpl. rewrite orb_false_r. intros Hm.
    exists EmptyString, EmptyString. by rewrite append_nil.
  - intros Hm.
    change (Fs.glob_match pat (String a name)
            || Fs.glob_match (String "*" pat) name = true) in Hm.
    apply orb_true_iff in Hm as [Hm|Hm].
    + exists EmptyString, (String a name). by rewrite append_nil.
    + destruct (IH Hm) as (skipped & r & -> & Hr).
      exists (String a skipped), r. by rewrite append_cons.
Qed.

(** The pattern of a day matches the names of the day, and no other. *)
Lemma glob_match_banana_pattern date_str name :
  all_chars is_literal date_str = true ->
  Fs.glob_match (banana_pattern date_str) name = true
  <-> exists middle, of_day date_str name middle.
Proof.
  intros Hd.
  assert (Hlit : all_chars is_literal ("banana_" +:+ date_str +:+ "_") = true).
  { by rewrite !all_chars_append, Hd. }
  replace (banana_pattern date_str)
    with (("banana_" +:+ date_str +:+ "_") +:+ "*.png")
    by (unfold banana_pattern; by rewrite !append_assoc).
  unfold of_day. split.
  - intros Hm.
    apply glob_match_literal_inv in Hm as (r & -> & Hm); [|done].
    apply glob_match_star_inv in Hm as (middle & r' & -> & Hm).
    apply (glob_match_literal_inv ".png" EmptyString) in Hm
      as (r'' & -> & Hm); [|done].
    apply glob_match_nil in Hm as ->.
    exists middle. by rewrite !append_assoc.
  - intros [middle ->].
    replace ("banana_" +:+ date_str +:+ "_" +:+ middle +:+ ".png")
      with (("banana_" +:+ date_str +:+ "_") +:+ (middle +:+ ".png"))
      by (by rewrite !append_assoc).
    rewrite (glob_match_literal _ _ _ Hlit).
    by apply glob_match_star.
Qed.

(** The first piece of a split is what stands before the first
    separator. *)
Lemma split_first sep s :
  exists segment rest,
    split sep s = segment :: rest
    /\ all_chars (differs sep) segment = true
    /\ (s = segment \/ exists more, s = segment +:+ String sep more).
Proof.
  induction s as [|c s (segment & rest & Hsplit & Hseg & Hs)].
  - exists EmptyString, []. split; [done|]. split; [done|by left].
  - cbn [split]. destruct (Ascii.eqb_spec c sep) as [->|Hc].
    + exists EmptyString, (split sep s). split; [done|]. split; [done|].
      right. exists s. by rewrite append_nil.
    + rewrite Hsplit. exists (String c segment), rest.
      split; [done|]. split.
      * cbn [all_chars]. rewrite Hseg, andb_true_r.
        unfold differs. apply negb_true_iff. by apply Ascii.eqb_neq.
      * destruct Hs as [->|[more ->]]; [by left|].
        right. exists more. by rewrite append_cons.
Qed.

Lemma split_of_segment sep middle segment :
  all_chars (differs sep) segment = true ->
  (middle = segment \/ exists more, middle = segment +:+ String sep more) ->
  exists rest, split sep middle = segment :: rest.
Proof.
  intros Hseg [->|[more ->]].
  - exists []. by apply split_no_sep.
  - exists (split sep more). by apply split_append_sep.
Qed.

(** The number of a file of the day is its numeric segment, as [int]
    reads it. *)
Lemma file_number_of_day date_str name middle segment :
  all_chars (differs "_") date_str = true ->
  of_day date_str name middle ->
  numeric_segment middle segment ->
  file_number name = int segment.
Proof.
  intros Hd -> [Hseg Hmid]. unfold file_number.
  rewrite <- !append_assoc. rewrite stem_png.
  2:{ rewrite !append_assoc. done. }
  rewrite !append_assoc.
  change ("banana_" +:+ date_str +:+ "_" +:+ middle)
    with ("banana" +:+ String "_" (date_str +:+ String "_" middle)).
  rewrite (split_append_sep "_" "banana") by done.
  rewrite (split_append_sep "_" date_str) by done.
  destruct (split_of_segment "_" middle segment Hseg Hmid) as [rest ->].
  done.
Qed.

Lemma has_number_parsed fs save_dir date_str n :
  all_chars is_literal date_str = true ->
  all_chars (differs "_") date_str = true ->
  has_number fs save_dir date_str n <-> parsed_number fs save_dir date_str n.
Proof.
  intros Hlit Hus. split.
  - intros (d & name & f & Hd & Hin & Hm & Hn).
    apply glob_match_banana_pattern in Hm as [middle Hname]; [|done].
    destruct (split_first "_" middle) as (segment & rest & _ & Hseg & Hmid).
    exists d, name, f, middle, segment.
    split; [done|]. split; [done|]. split; [done|]. split; [done|].
    by rewrite <- (file_number_of_day date_str name middle segment).
  - intros (d & name & f & middle & segment & Hd & Hin & Hname & Hseg & Hn).
    exists d, name, f.
    split; [done|]. split; [done|]. split.
    + apply glob_match_banana_pattern; [done|]. by exists middle.
    + by rewrite (file_number_of_day date_str name middle segment).
Qed.

End DayFacts.

(** C4. For a date bucket without underscore or wildcard, as every
    date bucket of the program is, [get_next_file_number] returns one
    more than the greatest of the numbers of the directory, the numbers
    being those that [int] reads from the numeric segment of the files
    named [banana_<date>_<segment>.png] or
    [banana_<date>_<segment>_<more>.png]; files of another day, of
    another prefix or of another extension do not count, nor do files
    whose segment is no number. It returns 1 when the directory has no
    number, in particular when it has no file of the day or does not
    exist. A directory with the numbers 1, 2, 3 and 5 gives 6. *)
Theorem get_next_file_number_is_max_plus_one
    (fs : gmap string directory) (save_dir date_str : string) :
  PyStr.all_chars PyStr.is_literal date_str = true ->
  PyStr.all_chars (PyStr.differs "_") date_str = true ->
  let next := get_next_file_number fs save_dir date_str in
  ((exists n, parsed_number fs save_dir date_str n) ->
     parsed_number fs save_dir date_str (next - 1)
     /\ forall n, parsed_number fs save_dir date_str n -> n <= next - 1)
  /\ ((forall n, ~ parsed_number fs save_dir date_str n) -> next = 1)
  /\ ((forall d name f middle,
          fs !! save_dir = Some d -> (name, f) ∈ d ->
          ~ of_day date_str name middle) ->
      next = 1)
  /\ (fs !! save_dir = None -> next = 1)
  /\ get_next_file_number
       {[ "banana" := numbered_directory "1sep" [1; 2; 3; 5] ]}
       "banana" "1sep" = 6.
Proof.
  intros Hlit Hus. cbv zeta.
  destruct (get_next_file_number_max fs save_dir date_str) as [Hmax Hnone].
  assert (Hnone' :
    (forall n, ~ parsed_number fs save_dir date_str n) ->
    get_next_file_number fs save_dir date_str = 1).
  { intros Hno. apply Hnone. intros n Hn. apply (Hno n).
    by apply has_number_parsed. }
  split; [|split; [|split; [|split]]].
  - intros [n Hn]. destruct Hmax as [Hin Hub].
    { exists n. by apply has_number_parsed. }
    split; [by apply has_number_parsed|].
    intros m Hm. apply has_number_parsed in Hm; [|done..].
    specialize (Hub m Hm). lia.
  - exact Hnone'.
  - intros Hnoday. apply Hnone'.
    intros n (d & name & f & middle & segment & Hd & Hin & Hname & _).
    by apply (Hnoday d name f middle).
  - intros Hdir. apply Hnone'.
    intros n (d & name & f & middle & segment & Hd & _). congruence.
  - vm_compute. reflexivity.
Qed.

(** ** Scanning the save directory *)

Section ScanFacts.

Implicit Types (e x y : string * file) (l : list (string * file)).

Lemma insert_newest_first_perm x l : insert_newest_first x l ≡ₚ x :: l.
Proof.
  induction l as [|y r IH]; simpl; [done|].
  case_match; [done|]. rewrite IH. apply Permutation_swap.
Qed.

Lemma sort_newest_first_perm l : sort_newest_first l ≡ₚ l.
Proof.
  induction l as [|x r IH]; simpl; [done|].
  rewrite insert_newest_first_perm. by rewrite IH.
Qed.

Lemma insert_newest_first_sorted x l :
  StronglySorted not_older l ->
  StronglySorted not_older (insert_newest_first x l).
Proof.
  induction 1 as [|y r Hr IH Hy]; simpl.
  - repeat constructor.
  - destruct (Z.leb_spec (st_mtime y.2) (st_mtime x.2)) as [Hle|Hgt].
    + constructor; [by constructor|].
      constructor; [done|].
      eapply Forall_impl; [exact Hy|]. unfold not_older. intros z Hz.
      simpl in *. lia.
    + constructor; [done|].
      rewrite insert_newest_first_perm.
      constructor; [unfold not_older; lia|done].
Qed.

Lemma sort_newest_first_sorted l :
  StronglySorted not_older (sort_newest_first l).
Proof.
  induction l as [|x r IH]; simpl; [constructor|].
  by apply insert_newest_first_sorted.
Qed.

(** An element at least as new as all of a list goes to its front. *)
Lemma insert_newest_first_front x l :
  Forall (not_older x) l -> insert_newest_first x l = x :: l.
Proof.
  destruct 1 as [|y r Hy _]; simpl; [done|].
  unfold not_older in Hy. by rewrite (proj2 (Z.leb_le _ _) Hy).
Qed.

(** The sort is stable, so it commutes with any filter. *)
Lemma filter_insert_newest_first (P : string * file -> Prop)
    `{!forall e, Decision (P e)} x l :
  StronglySorted not_older l ->
  filter P (insert_newest_first x l)
  = if decide (P x) then insert_newest_first x (filter P l)
    else filter P l.
Proof.
  induction 1 as [|y r Hr IH Hy]; simpl.
  - rewrite filter_cons, filter_nil. by case_decide.
  - destruct (Z.leb_spec (st_mtime y.2) (st_mtime x.2)) as [Hle|Hgt].
    + rewrite (filter_cons _ x). destruct (decide (P x)) as [HPx|HPx]; [|done].
      rewrite insert_newest_first_front; [done|].
      apply Forall_forall. intros z Hz.
      apply list_elem_of_filter in Hz as [_ Hz].
      apply elem_of_cons in Hz as [->|Hz]; [done|].
      rewrite Forall_forall in Hy. specialize (Hy z Hz).
      unfold not_older in *. lia.
    + rewrite !(filter_cons _ y), IH.
      destruct (decide (P y)) as [HPy|HPy]; destruct (decide (P x)); try done.
      simpl. by rewrite (proj2 (Z.leb_gt _ _) Hgt).
Qed.

Lemma filter_sort_newest_first (P : string * file -> Prop)
    `{!forall e, Decision (P e)} l :
  filter P (sort_newest_first l) = sort_newest_first (filter P l).
Proof.
  induction l as [|x r IH]; simpl; [done|].
  rewrite filter_insert_newest_first by apply sort_newest_first_sorted.
  rewrite filter_cons, IH. by case_decide.
Qed.

(** On a list sorted newest first, a test that newer files pass whenever
    older ones do selects a front part: cutting before or after the test
    gives the same list. *)
Lemma filter_take_sorted (P : string * file -> Prop)
    `{!forall e, Decision (P e)} (n : nat) l :
  (forall a b, not_older a b -> P b -> P a) ->
  StronglySorted not_older l ->
  filter P (take n l) = take n (filter P l).
Proof.
  intros Hup Hl. revert n.
  induction Hl as [|y r Hr IH Hy]; intros n; [by destruct n|].
  destruct n as [|n]; [done|]. simpl.
  rewrite !filter_cons. destruct (decide (P y)) as [HPy|HPy].
  - simpl. by rewrite IH.
  - assert (Hnone : forall l', l' ⊆ r -> filter P l' = []).
    { intros l' Hsub. induction l' as [|z l' IHl']; [done|].
      rewrite filter_cons_False.
      - apply IHl'. intros u Hu. apply Hsub. by right.
      - intros HPz. apply HPy, (Hup _ z); [|done].
        rewrite Forall_forall in Hy. apply Hy, Hsub. left. }
    rewrite (Hnone (take n r)), (Hnone r); [by destruct n|done|].
    apply subseteq_take.
Qed.

Lemma is_recent_upward current_time a b :
  not_older a b -> is_recent current_time b = true ->
  is_recent current_time a = true.
Proof.
  unfold not_older, is_recent. intros Hab Hb%Z.ltb_lt.
  apply Z.ltb_lt. lia.
Qed.

End ScanFacts.

(** What [_check_saved_files] returns, for every editor and clock: with
    [recent] the files of the checked directory that match the pattern of
    the day and were modified less than 300 seconds ago, it returns
    [min total_workers (length recent)] of them, newest first, and they are
    the newest ones. The list is the one the scan of the specification
    gives (filter, sort, cut), although the code cuts before it filters. *)
Lemma check_saved_files_cut
    (parent : string -> string) (now : clock) (w : BananaEditor) :
  let check_dir :=
    if uses_original w then original_dir parent w else "banana" in
  let pattern := banana_pattern (date_str_of now) in
  let recent :=
    filter (fun e => is_recent (now_time now) e = true)
      (Fs.glob (disk w) check_dir pattern) in
  let found := _check_saved_files parent now w in
  found = scan (disk w) check_dir pattern (now_time now) 300 (total_workers w)
  /\ length found = Nat.min (total_workers w) (length recent)
  /\ exists entries rest : list (string * file),
      found = (fun e => MkPath check_dir e.1) <$> entries
      /\ entries ++ rest ≡ₚ recent
      /\ StronglySorted not_older entries
      /\ Forall (fun e => now_time now - st_mtime e.2 < 300) entries
      /\ (forall a b, a ∈ entries -> b ∈ rest -> not_older a b).
Proof.
  unfold _check_saved_files. cbv zeta.
  set (check_dir := if uses_original w then original_dir parent w else "banana").
  set (pattern := banana_pattern (date_str_of now)).
  set (recent := filter _ (Fs.glob (disk w) check_dir pattern)).
  set (found := match disk w !! check_dir with Some _ => _ | None => _ end).
  assert (Hfound :
    found = (fun e => MkPath check_dir e.1)
              <$> take (total_workers w) (sort_newest_first recent)).
  { unfold found, recent.
    destruct (disk w !! check_dir) as [d|] eqn:Hd.
    - rewrite filter_take_sorted.
      + by rewrite filter_sort_newest_first.
      + intros a b Hab Hb. by eapply is_recent_upward.
      + apply sort_newest_first_sorted.
    - unfold Fs.glob. rewrite Hd. by destruct (total_workers w). }
  split; [|split].
  - rewrite Hfound. unfold scan. do 3 f_equal. unfold recent.
    apply list_filter_iff. intros e. unfold is_recent. apply Z.ltb_lt.
  - rewrite Hfound, length_fmap, length_take.
    by rewrite (Permutation_length (sort_newest_first_perm recent)).
  - exists (take (total_workers w) (sort_newest_first recent)),
           (drop (total_workers w) (sort_newest_first recent)).
    pose proof (sort_newest_first_sorted recent) as Hsorted.
    rewrite <- (take_drop (total_workers w)) in Hsorted.
    split; [done|]. split; [|split; [|split]].
    + rewrite take_drop. apply sort_newest_first_perm.
    + by eapply StronglySorted_app_1_l.
    + apply Forall_forall. intros e He.
      apply subseteq_take in He.
      rewrite sort_newest_first_perm in He.
      apply list_elem_of_filter in He as [He _].
      by apply Z.ltb_lt in He.
    + intros a b Ha Hb. by eapply StronglySorted_app_1_elem_of.
Qed.

(** ** The batch handlers *)

Section BatchFacts.

Context (parent : string -> string) (png_of : bytes -> option bytes)
  (tmp : tempfile) (rgb_png_of : bytes -> option bytes).

Implicit Types (w : BananaEditor) (now : clock).

Lemma batch_frame_refl w : batch_frame w w.
Proof. by repeat split. Qed.

Lemma batch_frame_trans w1 w2 w3 :
  batch_frame w1 w2 -> batch_frame w2 w3 -> batch_frame w1 w3.
Proof.
  unfold batch_frame. intros H12 H23.
  destruct_and!. repeat split; congruence.
Qed.

Lemma batch_frame_update_status m w :
  ~ is_final m -> batch_frame w (update_status m w).
Proof.
  intros Hm. repeat split. unfold final_reports. simpl.
  by rewrite filter_cons_False.
Qed.

Lemma batch_frame_set_current_results v w :
  batch_frame w (set_current_results v w).
Proof. by repeat split. Qed.

Lemma batch_frame_set_disk v w : batch_frame w (set_disk v w).
Proof. by repeat split. Qed.

Lemma batch_frame_save_temp_result_image now image_data w :
  batch_frame w (save_temp_result_image tmp rgb_png_of now image_data w).2.
Proof.
  unfold save_temp_result_image.
  destruct (mkstemp _ _ _ _ _) as [k [[temp_file fs]|]]; [|by repeat split].
  destruct (rgb_png_of image_data) as [png|]; [|by repeat split].
  cbn [disk set_disk]. by destruct (Fs.write _ _ _).
Qed.

Lemma batch_frame_grid_loop now rs w :
  batch_frame w (grid_loop tmp rgb_png_of now rs w).2.
Proof.
  revert w. induction rs as [|image_data rs IH]; intros w;
    [apply batch_frame_refl|].
  cbn [grid_loop].
  destruct (rgb_png_of image_data); [|apply batch_frame_refl].
  eapply batch_frame_trans; [|apply IH].
  apply batch_frame_save_temp_result_image.
Qed.

Lemma batch_frame_display_grid_results now rs w :
  batch_frame w (_display_grid_results tmp rgb_png_of now rs w).
Proof.
  unfold _display_grid_results.
  pose proof (batch_frame_grid_loop now (take 4 rs) w) as Hloop.
  destruct (grid_loop _ _ _ _ _) as [[] w']; [done|].
  eapply batch_frame_trans; [exact Hloop|].
  apply batch_frame_update_status. by intros [].
Qed.

Lemma batch_frame_display_results now rs w :
  batch_frame w (display_results tmp rgb_png_of now rs w).
Proof.
  destruct rs as [|r [|r' rs]]; [apply batch_frame_refl|..].
  - unfold display_results, _display_single_result.
    eapply batch_frame_trans; [apply batch_frame_set_current_results|].
    destruct (rgb_png_of r); [|apply batch_frame_refl].
    apply batch_frame_save_temp_result_image.
  - unfold display_results.
    eapply batch_frame_trans; [apply batch_frame_set_current_results|].
    apply batch_frame_display_grid_results.
Qed.

Lemma batch_frame_test_display_mock_results now w :
  batch_frame w (test_display_mock_results tmp rgb_png_of now w).
Proof.
  unfold test_display_mock_results.
  destruct (Fs.stat _ _) as [f|]; [|apply batch_frame_refl].
  destruct (replicate _ _) as [|b bs]; [apply batch_frame_refl|].
  eapply batch_frame_trans; [apply batch_frame_display_results|].
  apply batch_frame_update_status. by intros [].
Qed.

Lemma batch_frame_display_saved_files_as_results now ps w :
  batch_frame w (_display_saved_files_as_results tmp rgb_png_of now ps w).
Proof.
  unfold _display_saved_files_as_results.
  destruct (mapM _ _) as [files|];
    [|apply batch_frame_test_display_mock_results].
  destruct (content <$> files) as [|b bs]; [apply batch_frame_refl|].
  eapply batch_frame_trans; [apply batch_frame_display_results|].
  apply batch_frame_set_current_results.
Qed.

Lemma batch_frame_auto_save_results now rs w :
  batch_frame w (auto_save_results parent png_of now rs w).
Proof.
  unfold auto_save_results.
  destruct rs as [|r rs]; [apply batch_frame_refl|].
  destruct (filter _ _) as [|v vs]; [apply batch_frame_refl|].
  destruct (save_loop _ _ _ _ _ _ _ _ _) as [fs' [saved|e]];
    (eapply batch_frame_trans; [apply (batch_frame_set_disk fs')|]);
    apply batch_frame_update_status; by intros [].
Qed.

Lemma final_reports_update_status m w :
  is_final m -> final_reports (update_status m w) = m :: final_reports w.
Proof. intros Hm. unfold final_reports. simpl. by rewrite filter_cons_True. Qed.

Lemma final_reports_cleanup (a b : nat) (c : list bytes) w :
  final_reports
    (set_total_workers a (set_completed_workers b (set_batch_results c w)))
  = final_reports w.
Proof. reflexivity. Qed.

(** One run of [on_all_batch_workers_complete]: the attributes it
    leaves, and the one batch-level report it makes, which is decided by
    the accumulated results first and by the files found on disk
    second, the directory being scanned only when a source image is
    selected. *)
Lemma on_all_batch_workers_complete_run now w :
  let w' := on_all_batch_workers_complete parent png_of tmp rgb_png_of now w in
  let saved_files :=
    if PyStr.truthy (selected_image_path w)
    then _check_saved_files parent now w else [] in
  let report :=
    match batch_results w with
    | _ :: _ =>
        BatchSuccess (length (batch_results w))
          (if save_on_original w && PyStr.truthy (selected_image_path w)
           then OriginalFolder else BananaFolder)
    | [] =>
        match saved_files with
        | _ :: _ =>
            BatchMixed (length saved_files) (total_workers w)
              (if save_on_original w then OriginalFolder else BananaFolder)
        | [] => BatchFailed (total_workers w) (total_workers w)
        end
    end in
  completed_workers w' = 0%nat
  /\ total_workers w' = 0%nat
  /\ batch_results w' = []
  /\ results w' = batch_results w
  /\ image_paths w' = image_paths w
  /\ selected_image_path w' = selected_image_path w
  /\ save_on_original w' = save_on_original w
  /\ final_reports w' = report :: final_reports w.
Proof.
  unfold on_all_batch_workers_complete. cbv zeta.
  set (w1 := set_results (batch_results w) w).
  change (batch_results w1) with (batch_results w).
  change (selected_image_path w1) with (selected_image_path w).
  change (_check_saved_files parent now w1)
    with (_check_saved_files parent now w).
  destruct (batch_results w) as [|b bs] eqn:Hbr.
  - destruct (if PyStr.truthy _ then _ else _) as [|p ps].
    + pose proof (batch_frame_test_display_mock_results now
                    (update_status
                       (BatchFailed (total_workers w1) (total_workers w1))
                       w1)) as (Hi & Hs & Ho & Hb & Hc & Ht & Hr & Hf).
      destruct ((1 <? total_workers _)%nat).
      * repeat split; try done;
          rewrite final_reports_cleanup, Hf;
          by rewrite final_reports_update_status.
      * repeat split; try done;
          rewrite final_reports_cleanup;
          by rewrite final_reports_update_status.
    + pose proof (batch_frame_display_saved_files_as_results now (p :: ps) w1)
        as (Hi & Hs & Ho & Hb & Hc & Ht & Hr & Hf).
      repeat split; try done;
        rewrite final_reports_cleanup;
        rewrite final_reports_update_status by done;
        by rewrite Hf, Ht, Ho.
  - pose proof (batch_frame_trans _ _ _
                  (batch_frame_display_results now (b :: bs) w1)
                  (batch_frame_auto_save_results now
                     (batch_results
                        (display_results tmp rgb_png_of now (b :: bs) w1))
                     (display_results tmp rgb_png_of now (b :: bs) w1)))
      as (Hi & Hs & Ho & Hb & Hc & Ht & Hr & Hf).
    repeat split; try done;
      rewrite final_reports_cleanup;
      rewrite final_reports_update_status by done;
      rewrite Hf, Hb, Hs, Ho;
      change (batch_results w1) with (batch_results w);
      by rewrite Hbr.
Qed.

(** One delivery counts itself and appends its images; it runs
    [on_all_batch_workers_complete] exactly when the count reaches the
    total. *)
Lemma deliver_counts d w :
  exists w_counted,
    collected w [d] w_counted
    /\ deliver parent png_of tmp rgb_png_of d w
       = if (total_workers w <=? completed_workers w + 1)%nat
         then on_all_batch_workers_complete parent png_of
             tmp rgb_png_of d.1 w_counted
         else w_counted.
Proof.
  destruct d as [now [l|msg]]; unfold deliver; simpl;
    unfold on_batch_worker_complete, on_batch_worker_error; cbv zeta;
    (eexists; split; [|reflexivity]);
    unfold collected, accumulated, payload; simpl;
    rewrite ?app_nil_r; repeat split; try done.
Qed.

Lemma collected_snoc w0 ds d w1 w2 :
  collected w0 ds w1 -> collected w1 [d] w2 -> collected w0 (ds ++ [d]) w2.
Proof.
  unfold collected, accumulated. intros H1 H2. destruct_and!.
  rewrite fmap_app, join_app, length_app. simpl in *.
  rewrite app_nil_r in *.
  repeat split; try congruence.
  - lia.
  - rewrite app_assoc. congruence.
Qed.

Lemma collected_nil w : collected w [] w.
Proof.
  unfold collected, accumulated. simpl. rewrite app_nil_r.
  repeat split; try done; lia.
Qed.

Lemma deliver_all_snoc ds d w :
  deliver_all parent png_of tmp rgb_png_of (ds ++ [d]) w
  = deliver parent png_of
      tmp rgb_png_of d (deliver_all parent png_of tmp rgb_png_of ds w).
Proof. unfold deliver_all. by rewrite foldl_snoc. Qed.

(** While fewer deliveries have come than the batch has workers, the
    editor only counts. *)
Lemma deliver_all_collected ds w :
  (completed_workers w + length ds < total_workers w)%nat ->
  collected w ds (deliver_all parent png_of tmp rgb_png_of ds w).
Proof.
  induction ds as [|d ds IH] using rev_ind; intros Hlt.
  - apply collected_nil.
  - rewrite length_app in Hlt. simpl in Hlt.
    rewrite deliver_all_snoc.
    specialize (IH ltac:(lia)).
    destruct (deliver_counts d (deliver_all parent png_of tmp rgb_png_of ds w))
      as [wc [Hc Heq]].
    pose proof IH as (Hcw & Htw & _).
    rewrite Heq.
    replace (total_workers _ <=? _)%nat with false.
    + by eapply collected_snoc.
    + symmetry. apply Nat.leb_gt. lia.
Qed.

(** The delivery that completes the count runs
    [on_all_batch_workers_complete] on the editor that has counted all
    deliveries. *)
Lemma deliver_all_completes ds d w :
  (completed_workers w + length ds + 1 = total_workers w)%nat ->
  exists w_counted,
    collected w (ds ++ [d]) w_counted
    /\ deliver_all parent png_of tmp rgb_png_of (ds ++ [d]) w
       = on_all_batch_workers_complete parent png_of
           tmp rgb_png_of d.1 w_counted.
Proof.
  intros Hlast. rewrite deliver_all_snoc.
  pose proof (deliver_all_collected ds w ltac:(lia)) as Hds.
  destruct (deliver_counts d (deliver_all parent png_of tmp rgb_png_of ds w))
    as [wc [Hc Heq]].
  exists wc. split; [by eapply collected_snoc|].
  rewrite Heq. destruct Hds as (Hcw & Htw & _).
  replace (total_workers _ <=? _)%nat with true; [done|].
  symmetry. apply Nat.leb_le. lia.
Qed.

Lemma collected_start_batch N w ds w' :
  collected (start_batch N w) ds w' ->
  completed_workers w' = length ds
  /\ total_workers w' = N
  /\ batch_results w' = accumulated ds
  /\ final_reports w' = final_reports w
  /\ disk w' = disk w
  /\ selected_image_path w' = selected_image_path w
  /\ save_on_original w' = save_on_original w.
Proof. unfold collected. simpl. intros H. by destruct_and!. Qed.

Lemma sum_image_count_succeeded ds :
  sum_list_with image_count (filter (fun d => succeeded d = true) ds)
  = length (accumulated ds).
Proof.
  unfold accumulated.
  induction ds as [|[now [l|msg]] ds IH]; [done|..].
  - rewrite filter_cons_True by done. simpl.
    rewrite length_app, IH. done.
  - rewrite filter_cons_False by done. exact IH.
Qed.

Lemma deliver_all_finished (N : nat) ds w :
  (1 <= N)%nat -> length ds = N ->
  exists now sg w_counted,
    last ds = Some (now, sg)
    /\ collected (start_batch N w) ds w_counted
    /\ deliver_all parent png_of tmp rgb_png_of ds (start_batch N w)
       = on_all_batch_workers_complete parent png_of
           tmp rgb_png_of now w_counted.
Proof.
  intros HN Hlen.
  destruct ds as [|[now sg] ds _] using rev_ind; [simpl in Hlen; lia|].
  rewrite length_app in Hlen. simpl in Hlen.
  destruct (deliver_all_completes ds (now, sg) (start_batch N w))
    as [wc [Hc Heq]]; [simpl; lia|].
  exists now, sg, wc. by rewrite last_snoc.
Qed.

(** C2, as the code has it. For a batch of [N] workers, [N >= 1], and any
    [N] deliveries, successes and failures in any order: after each of
    the first [N - 1] deliveries the counter is the number of deliveries
    and the batch has not been finalized; the last delivery brings the
    counter to [N], the total, and runs [on_all_batch_workers_complete] on
    that editor; so the batch is finalized exactly once. The counter does
    not stay at [N]: the clean-up that ends the finalize step sets it back
    to 0. *)
Theorem batch_finalized_exactly_once
    (N : nat) (ds : list (clock * signal)) (w : BananaEditor) :
  (1 <= N)%nat -> length ds = N ->
  let w0 := start_batch N w in
  (forall k : nat, (k < N)%nat ->
      let wk := deliver_all parent png_of tmp rgb_png_of (take k ds) w0 in
      completed_workers wk = k
      /\ total_workers wk = N
      /\ finalize_count wk = finalize_count w)
  /\ (exists now sg w_counted,
        last ds = Some (now, sg)
        /\ completed_workers w_counted = N
        /\ total_workers w_counted = N
        /\ finalize_count w_counted = finalize_count w
        /\ deliver_all parent png_of tmp rgb_png_of ds w0
           = on_all_batch_workers_complete parent png_of
               tmp rgb_png_of now w_counted)
  /\ finalize_count (deliver_all parent png_of tmp rgb_png_of ds w0)
     = S (finalize_count w)
  /\ completed_workers (deliver_all parent png_of tmp rgb_png_of ds w0) = 0%nat.
Proof.
  intros HN Hlen w0.
  destruct (deliver_all_finished N ds w HN Hlen)
    as (now & sg & wc & Hlast & Hc & Heq).
  apply collected_start_batch in Hc as (Hcw & Htw & Hbr & Hfr & _).
  pose proof (on_all_batch_workers_complete_run now wc)
    as (Hcw' & _ & _ & _ & _ & _ & _ & Hfr').
  fold w0 in Heq. rewrite <- Heq in Hcw', Hfr'.
  split; [|split; [|split]].
  - intros k Hk wk.
    assert (Hlk : length (take k ds) = k) by (rewrite length_take; lia).
    pose proof (deliver_all_collected (take k ds) w0) as Hk'.
    rewrite Hlk in Hk'. specialize (Hk' ltac:(simpl; lia)).
    apply collected_start_batch in Hk' as (? & ? & _ & Hfk & _).
    unfold finalize_count. fold wk in Hfk. rewrite Hfk. by rewrite Hlk in *.
  - exists now, sg, wc. unfold finalize_count. rewrite Hfr.
    repeat split; try done. congruence.
  - unfold finalize_count. rewrite Hfr', Hfr. done.
  - exact Hcw'.
Qed.

(** C6. For a batch of [N] workers and any [N] deliveries, the result
    list that the finalize step keeps in [results] is the concatenation of
    the delivered image lists in the order of delivery; its length is the
    sum of the image counts of the successful workers, which is also the
    count of the success report when the list is not empty; and
    delivering the same signals in another order gives a permutation of
    that list. *)
Theorem batch_results_sum_and_multiset
    (N : nat) (ds : list (clock * signal)) (w : BananaEditor) :
  (1 <= N)%nat -> length ds = N ->
  let w' := deliver_all parent png_of tmp rgb_png_of ds (start_batch N w) in
  results w' = accumulated ds
  /\ length (results w')
     = sum_list_with image_count (filter (fun d => succeeded d = true) ds)
  /\ (accumulated ds <> [] ->
      exists where_,
        head (final_reports w')
        = Some (BatchSuccess
                  (sum_list_with image_count
                     (filter (fun d => succeeded d = true) ds)) where_))
  /\ (forall ds', ds' ≡ₚ ds ->
      results (deliver_all parent png_of tmp rgb_png_of ds' (start_batch N w))
      ≡ₚ results w').
Proof.
  intros HN Hlen w'.
  assert (Hres : forall ds0, length ds0 = N ->
            results (deliver_all parent png_of
                tmp rgb_png_of ds0 (start_batch N w))
            = accumulated ds0).
  { intros ds0 Hlen0.
    destruct (deliver_all_finished N ds0 w HN Hlen0)
      as (now & sg & wc & _ & Hc & ->).
    apply collected_start_batch in Hc as (_ & _ & Hbr & _).
    pose proof (on_all_batch_workers_complete_run now wc)
      as (_ & _ & _ & Hr & _). by rewrite Hr. }
  split; [|split; [|split]].
  - by apply Hres.
  - unfold w'. by rewrite Hres, sum_image_count_succeeded.
  - intros Hne. unfold w'.
    destruct (deliver_all_finished N ds w HN Hlen)
      as (now & sg & wc & _ & Hc & ->).
    apply collected_start_batch in Hc as (_ & _ & Hbr & _).
    pose proof (on_all_batch_workers_complete_run now wc)
      as (_ & _ & _ & _ & _ & _ & _ & Hfr).
    rewrite Hfr, Hbr. rewrite sum_image_count_succeeded.
    destruct (accumulated ds) as [|b bs]; [done|]. eauto.
  - intros ds' Hperm. unfold w'. rewrite !Hres.
    + unfold accumulated. by rewrite Hperm.
    + done.
    + by rewrite Hperm.
Qed.

Lemma current_results_auto_save_results now rs w :
  current_results (auto_save_results parent png_of now rs w)
  = current_results w.
Proof.
  unfold auto_save_results.
  destruct rs as [|r rs]; [done|].
  destruct (filter _ _) as [|v vs]; [done|].
  by destruct (save_loop _ _ _ _ _ _ _ _ _) as [fs' [saved|e]].
Qed.

(** The automatic save reads the disk and the two attributes that
    choose the folder. *)
Lemma disk_auto_save_results_frame now (rs : list bytes) w w2 :
  save_on_original w2 = save_on_original w ->
  selected_image_path w2 = selected_image_path w ->
  disk w2 = disk w ->
  disk (auto_save_results parent png_of now rs w2)
  = disk (auto_save_results parent png_of now rs w).
Proof.
  intros Ho Hs Hd.
  unfold auto_save_results, uses_original, original_dir.
  rewrite Ho, Hs, Hd.
  destruct rs as [|r rs]; [done|].
  destruct (filter _ _) as [|v vs]; [done|].
  by destruct (save_loop _ _ _ _ _ _ _ _ _) as [fs' [saved|e]].
Qed.

(** Showing results leaves [results] alone, and does not read it. *)
Lemma save_temp_result_image_set_results now image_data v w :
  (save_temp_result_image tmp rgb_png_of now image_data (set_results v w)).2
  = set_results v
      (save_temp_result_image tmp rgb_png_of now image_data w).2.
Proof.
  unfold save_temp_result_image. cbn [disk names_drawn set_results].
  destruct (mkstemp _ _ _ _ _) as [k [[temp_file fs]|]]; [|done].
  destruct (rgb_png_of image_data) as [png|]; [|done].
  cbn [disk set_disk]. by destruct (Fs.write _ _ _).
Qed.

Lemma grid_loop_set_results now rs v w :
  grid_loop tmp rgb_png_of now rs (set_results v w)
  = ((grid_loop tmp rgb_png_of now rs w).1,
     set_results v (grid_loop tmp rgb_png_of now rs w).2).
Proof.
  revert w. induction rs as [|image_data rs IH]; intros w; [done|].
  cbn [grid_loop]. destruct (rgb_png_of image_data); [|done].
  by rewrite save_temp_result_image_set_results, IH.
Qed.

Lemma display_results_set_results now rs v w :
  display_results tmp rgb_png_of now rs (set_results v w)
  = set_results v (display_results tmp rgb_png_of now rs w).
Proof.
  destruct rs as [|r [|r' rs]]; [done|..].
  - unfold display_results, _display_single_result.
    destruct (rgb_png_of r); [|done].
    apply (save_temp_result_image_set_results now r v
             (set_current_results [r] w)).
  - unfold display_results, _display_grid_results.
    change (set_current_results ?x (set_results v w))
      with (set_results v (set_current_results x w)).
    rewrite (grid_loop_set_results now (take 4 (r :: r' :: rs)) v
               (set_current_results (r :: r' :: rs) w)).
    by destruct (grid_loop _ _ _ _ _) as [[] w'].
Qed.

(** Showing results sets [current_results] to them. *)
Lemma current_results_save_temp_result_image now image_data w :
  current_results (save_temp_result_image tmp rgb_png_of now image_data w).2
  = current_results w.
Proof.
  unfold save_temp_result_image.
  destruct (mkstemp _ _ _ _ _) as [k [[temp_file fs]|]]; [|done].
  destruct (rgb_png_of image_data) as [png|]; [|done].
  cbn [disk set_disk]. by destruct (Fs.write _ _ _).
Qed.

Lemma current_results_grid_loop now rs w :
  current_results (grid_loop tmp rgb_png_of now rs w).2 = current_results w.
Proof.
  revert w. induction rs as [|image_data rs IH]; intros w; [done|].
  cbn [grid_loop]. destruct (rgb_png_of image_data); [|done].
  by rewrite IH, current_results_save_temp_result_image.
Qed.

Lemma current_results_display_results now rs w :
  rs <> [] ->
  current_results (display_results tmp rgb_png_of now rs w) = rs.
Proof.
  intros Hne. destruct rs as [|r [|r' rs]]; [done|..].
  - unfold display_results, _display_single_result.
    destruct (rgb_png_of r); [|done].
    by rewrite current_results_save_temp_result_image.
  - unfold display_results, _display_grid_results.
    pose proof (current_results_grid_loop now (take 4 (r :: r' :: rs))
                  (set_current_results (r :: r' :: rs) w)) as Hloop.
    by destruct (grid_loop _ _ _ _ _) as [[] w'].
Qed.

(** The error thumbnails are shown when [error.png] is in the working
    directory and the batch has a worker. *)
Lemma current_results_test_display_mock_results now w :
  current_results (test_display_mock_results tmp rgb_png_of now w)
  = match Fs.stat (disk w) (MkPath "." "error.png") with
    | Some f =>
        if (0 <? total_workers w)%nat
        then replicate (total_workers w) (content f)
        else current_results w
    | None => current_results w
    end.
Proof.
  unfold test_display_mock_results.
  destruct (Fs.stat _ _) as [f|]; [|done].
  destruct (total_workers w) as [|n]; [done|].
  cbn [replicate Nat.ltb Nat.leb].
  change (current_results (update_status ?m ?x)) with (current_results x).
  by rewrite current_results_display_results.
Qed.

(** The files that the scan returns can be read back. *)
Lemma check_saved_files_readable now w :
  is_Some (mapM (Fs.stat (disk w)) (_check_saved_files parent now w)).
Proof.
  apply mapM_is_Some, Forall_forall. intros p Hp.
  unfold _check_saved_files in Hp. cbv zeta in Hp.
  destruct (disk w !! _) as [d|] eqn:Hd; [|by apply elem_of_nil in Hp].
  apply list_elem_of_fmap in Hp as ([name f] & -> & He).
  apply list_elem_of_filter in He as [_ He].
  apply subseteq_take in He.
  rewrite sort_newest_first_perm in He.
  apply elem_of_glob in He as (d' & Hd' & Hin & _).
  unfold Fs.stat. simpl in *. rewrite Hd'. simpl.
  by eapply lookup_file_is_Some.
Qed.

(** C1, as the code has it. The finalize step decides in this order.
    (1) If the accumulated list is not empty, it becomes [results], it is
    the list of the results shown, it is saved by [auto_save_results],
    which works on the disk as the display leaves it, and the report is
    the success one with the number of images, whether or not some
    workers failed. (2) Otherwise, if a source image is selected and the
    scan of the save directory returns files, the contents of these
    files are the results shown and the report is the mixed-results one,
    with their number and the total. (3) Otherwise (no source image
    selected, or nothing found) the report is the failure one and
    [results] is empty; the results shown are not cleared: they are as
    many copies of [error.png] as the batch has workers when it has more
    than one and that file is in the working directory, and those shown
    before the batch otherwise. In the cases (2) and (3) [results] is
    empty. *)
Theorem finalize_decision_order (now : clock) (w : BananaEditor) :
  let w' :=
    on_all_batch_workers_complete parent png_of tmp rgb_png_of now w in
  let scanned := _check_saved_files parent now w in
  (batch_results w <> [] ->
     results w' = batch_results w
     /\ current_results w' = batch_results w
     /\ disk w'
        = disk (auto_save_results parent png_of now (batch_results w)
                  (display_results tmp rgb_png_of now (batch_results w) w))
     /\ exists where_,
         head (final_reports w')
         = Some (BatchSuccess (length (batch_results w)) where_))
  /\ (batch_results w = [] ->
      PyStr.truthy (selected_image_path w) = true ->
      scanned <> [] ->
      results w' = []
      /\ (exists files,
            mapM (Fs.stat (disk w)) scanned = Some files
            /\ current_results w' = content <$> files)
      /\ exists where_,
          head (final_reports w')
          = Some (BatchMixed (length scanned) (total_workers w) where_))
  /\ (batch_results w = [] ->
      PyStr.truthy (selected_image_path w) = false \/ scanned = [] ->
      results w' = []
      /\ head (final_reports w')
         = Some (BatchFailed (total_workers w) (total_workers w))
      /\ current_results w'
         = match Fs.stat (disk w) (MkPath "." "error.png") with
           | Some f =>
               if (1 <? total_workers w)%nat
               then replicate (total_workers w) (content f)
               else current_results w
           | None => current_results w
           end).
Proof.
  intros w' scanned.
  pose proof (on_all_batch_workers_complete_run now w)
    as (_ & _ & _ & Hr & _ & _ & _ & Hfr).
  fold w' in Hr, Hfr. fold scanned in Hfr.
  split; [|split].
  - intros Hne. split; [done|].
    assert (exists b bs, batch_results w = b :: bs) as (b & bs & Hbr).
    { destruct (batch_results w); [done|eauto]. }
    split; [|split].
    + unfold w', on_all_batch_workers_complete. cbv zeta.
      change (batch_results (set_results _ w)) with (batch_results w).
      rewrite Hbr.
      cbn [current_results set_total_workers set_completed_workers
           set_batch_results update_status].
      rewrite current_results_auto_save_results.
      by rewrite current_results_display_results.
    + unfold w', on_all_batch_workers_complete. cbv zeta.
      set (w1 := set_results (batch_results w) w).
      change (batch_results w1) with (batch_results w).
      rewrite Hbr.
      cbn [disk set_total_workers set_completed_workers
           set_batch_results update_status].
      pose proof (batch_frame_display_results now (b :: bs) w1)
        as (_ & Hs1 & Ho1 & Hb1 & _).
      pose proof (batch_frame_display_results now (b :: bs) w)
        as (_ & Hs & Ho & _).
      rewrite Hb1. change (batch_results w1) with (batch_results w).
      rewrite Hbr.
      apply disk_auto_save_results_frame.
      * by rewrite Ho1, Ho.
      * by rewrite Hs1, Hs.
      * unfold w1. by rewrite display_results_set_results.
    + rewrite Hfr, Hbr. eauto.
  - intros Hbr Hsel Hsc. rewrite Hbr in Hr. split; [done|]. split.
    + destruct (check_saved_files_readable now w) as [files Hfiles].
      exists files. split; [done|].
      unfold w', on_all_batch_workers_complete. cbv zeta.
      change (_check_saved_files parent now (set_results _ w))
        with (_check_saved_files parent now w).
      change (batch_results (set_results _ w)) with (batch_results w).
      change (selected_image_path (set_results _ w))
        with (selected_image_path w).
      rewrite Hbr, Hsel. subst scanned.
      destruct (_check_saved_files parent now w) as [|p ps]; [done|].
      unfold _display_saved_files_as_results.
      change (disk (set_results [] w)) with (disk w).
      rewrite Hfiles.
      destruct files as [|f fs]; [by apply length_mapM in Hfiles|done].
    + rewrite Hfr, Hbr, Hsel. destruct scanned; [done|]. eauto.
  - intros Hbr Hnone. rewrite Hbr in Hr. split; [done|]. split.
    + rewrite Hfr, Hbr.
      destruct Hnone as [->| ->]; [done|]. by destruct (PyStr.truthy _).
    + unfold w', on_all_batch_workers_complete. cbv zeta.
      change (_check_saved_files parent now (set_results _ w))
        with (_check_saved_files parent now w).
      change (batch_results (set_results _ w)) with (batch_results w).
      change (selected_image_path (set_results _ w))
        with (selected_image_path w).
      fold scanned. rewrite Hbr.
      assert ((if PyStr.truthy (selected_image_path w) then scanned else [])
              = []) as ->.
      { destruct Hnone as [->| ->]; [done|]. by destruct (PyStr.truthy _). }
      cbn [current_results set_total_workers set_completed_workers
           set_batch_results].
      change (total_workers (update_status ?m ?x)) with (total_workers x).
      change (total_workers (set_results ?v ?x)) with (total_workers x).
      destruct (Nat.ltb_spec 1 (total_workers w)) as [Hlt|Hge].
      * rewrite current_results_test_display_mock_results.
        change (disk (update_status ?m ?x)) with (disk x).
        change (disk (set_results ?v ?x)) with (disk x).
        change (total_workers (update_status ?m ?x)) with (total_workers x).
        change (total_workers (set_results ?v ?x)) with (total_workers x).
        change (current_results (update_status ?m ?x))
          with (current_results x).
        change (current_results (set_results ?v ?x))
          with (current_results x).
        destruct (Fs.stat _ _); [|done].
        destruct (Nat.ltb_spec 0 (total_workers w)); [done|lia].
      * by destruct (Fs.stat _ _).
Qed.

(** C9. When a batch ends with no accumulated result, the files on disk
    count only if a source image is selected. With no source image
    selected the report is the failure one whatever the file system
    holds; and the mixed-results report is made only with a source image
    selected and a non-empty scan. *)
Theorem scan_only_with_selected_image (now : clock) (w : BananaEditor) :
  batch_results w = [] ->
  (PyStr.truthy (selected_image_path w) = false ->
     forall fs : gmap string directory,
       let w' :=
         on_all_batch_workers_complete parent png_of
             tmp rgb_png_of now (set_disk fs w) in
       head (final_reports w')
       = Some (BatchFailed (total_workers w) (total_workers w))
       /\ reported_status w' = Some TotalFailure
       /\ results w' = [])
  /\ (forall success_count total where_,
        head (final_reports
                (on_all_batch_workers_complete parent png_of
                    tmp rgb_png_of now w))
        = Some (BatchMixed success_count total where_) ->
        PyStr.truthy (selected_image_path w) = true
        /\ _check_saved_files parent now w <> []).
Proof.
  intros Hbr. split.
  - intros Hsel fs w'.
    pose proof (on_all_batch_workers_complete_run now (set_disk fs w))
      as (_ & _ & _ & Hr & _ & _ & _ & Hfr).
    fold w' in Hr, Hfr.
    change (batch_results (set_disk fs w)) with (batch_results w) in Hr, Hfr.
    change (selected_image_path (set_disk fs w))
      with (selected_image_path w) in Hfr.
    change (total_workers (set_disk fs w)) with (total_workers w) in Hfr.
    rewrite Hbr in Hr, Hfr. rewrite Hsel in Hfr.
    unfold reported_status. rewrite Hfr. done.
  - intros sc tot loc.
    pose proof (on_all_batch_workers_complete_run now w)
      as (_ & _ & _ & _ & _ & _ & _ & Hfr).
    rewrite Hfr, Hbr.
    destruct (PyStr.truthy _); [|done].
    destruct (_check_saved_files parent now w); done.
Qed.

End BatchFacts.

(** C2, as stated, fails on the counter: after the only delivery of a batch
    of one worker the counter is 0, not 1. *)
Lemma counter_is_reset_by_finalize :
  completed_workers
    (deliver_all example_parent example_png_of
        example_tempfile example_rgb_png_of [(noon, Failed "blocked")]
       (start_batch 1 (init ∅)))
  <> 1%nat.
Proof. vm_compute. discriminate. Qed.

Lemma batch_finalized_exactly_once_witness :
  finalize_count
    (deliver_all example_parent example_png_of
        example_tempfile example_rgb_png_of three_deliveries
       (start_batch 3 (init ∅)))
  = 1%nat.
Proof.
  pose proof (batch_finalized_exactly_once example_parent example_png_of
                example_tempfile example_rgb_png_of
                3 three_deliveries (init ∅)) as H.
  cbv zeta in H.
  destruct H as (_ & _ & H & _); [lia|reflexivity|exact H].
Defined.

Lemma batch_results_sum_and_multiset_witness :
  length
    (results
       (deliver_all example_parent example_png_of
           example_tempfile example_rgb_png_of three_deliveries
          (start_batch 3 (init ∅))))
  = 2%nat.
Proof.
  pose proof (batch_results_sum_and_multiset example_parent example_png_of
                example_tempfile example_rgb_png_of
                3 three_deliveries (init ∅)) as H.
  cbv zeta in H.
  destruct H as (_ & H & _); [lia|reflexivity|exact H].
Defined.

(** C1, as stated, fails twice. A batch of two workers of which one fails
    and one brings an image ends with the success report, not with a
    partial one; and a batch without source image whose two workers fail
    ends with the failure report although the save directory holds a file
    that the scan would return. *)
Lemma finalize_status_differs_from_spec :
  reported_status
    (deliver_all example_parent example_png_of
        example_tempfile example_rgb_png_of one_success_one_failure
       (start_batch 2 (init ∅)))
  <> Some (spec_finalize_status (accumulated one_success_one_failure)
             (forallb succeeded one_success_one_failure) [])
  /\ reported_status
       (deliver_all example_parent example_png_of
           example_tempfile example_rgb_png_of two_failures
          (start_batch 2 (init disk_with_recent_file)))
     <> Some (spec_finalize_status (accumulated two_failures)
                (forallb succeeded two_failures)
                (scan disk_with_recent_file "banana"
                   (banana_pattern (date_str_of noon)) (now_time noon) 300 2)).
Proof. vm_compute. split; discriminate. Qed.

Lemma finalize_decision_order_witness :
  let w' :=
    on_all_batch_workers_complete example_parent example_png_of
      example_tempfile example_rgb_png_of noon
      (set_current_results [blob 150]
         (set_total_workers 2 (init disk_with_error_png))) in
  results w' = []
  /\ head (final_reports w') = Some (BatchFailed 2 2)
  /\ current_results w' = [blob 7; blob 7].
Proof.
  pose proof (finalize_decision_order example_parent example_png_of
                example_tempfile example_rgb_png_of noon
                (set_current_results [blob 150]
                   (set_total_workers 2 (init disk_with_error_png)))) as H.
  cbv zeta in H. destruct H as (_ & _ & H).
  destruct H as (H1 & H2 & H3); [reflexivity|by left|].
  cbv zeta. split; [exact H1|]. split; [exact H2|].
  rewrite H3. reflexivity.
Defined.

Lemma scan_only_with_selected_image_witness :
  reported_status
    (on_all_batch_workers_complete example_parent example_png_of
        example_tempfile example_rgb_png_of noon
       (set_disk disk_with_recent_file
          (set_total_workers 2 (init disk_with_recent_file))))
  = Some TotalFailure.
Proof.
  pose proof (scan_only_with_selected_image example_parent example_png_of
                example_tempfile example_rgb_png_of noon
                (set_total_workers 2 (init disk_with_recent_file))) as H.
  destruct H as [H _]; [reflexivity|].
  destruct (H eq_refl disk_with_recent_file) as (_ & H' & _). exact H'.
Defined.

(** ** The scan at the end of a batch *)

Section ReconcileFacts.

Context (parent : string -> string) (png_of : bytes -> option bytes)
  (tmp : tempfile) (rgb_png_of : bytes -> option bytes).

Implicit Types (w : BananaEditor) (now : clock) (d : directory).

Lemma check_saved_files_frame now w w2 :
  disk w2 = disk w ->
  selected_image_path w2 = selected_image_path w ->
  save_on_original w2 = save_on_original w ->
  total_workers w2 = total_workers w ->
  _check_saved_files parent now w2 = _check_saved_files parent now w.
Proof.
  intros Hd Hs Ho Ht.
  unfold _check_saved_files, uses_original, original_dir.
  by rewrite Hd, Hs, Ho, Ht.
Qed.

Lemma lookup_file_NoDup name f d :
  NoDup d.*1 -> (name, f) ∈ d -> Fs.lookup_file name d = Some f.
Proof.
  induction d as [|[n g] r IH]; [by intros _ ?%elem_of_nil|].
  rewrite fmap_cons, NoDup_cons. simpl. intros [Hn Hr] Hin.
  apply elem_of_cons in Hin as [[= -> ->]|Hin].
  - by rewrite decide_True.
  - rewrite decide_False; [by apply IH|].
    intros ->. apply Hn. apply list_elem_of_fmap. by exists (name, f).
Qed.

Lemma mapM_stat_entries (fs : gmap string directory) dir d
    (entries : list (string * file)) :
  fs !! dir = Some d -> NoDup d.*1 ->
  (forall e, e ∈ entries -> e ∈ d) ->
  mapM (Fs.stat fs) ((fun e => MkPath dir e.1) <$> entries)
  = Some (entries.*2).
Proof.
  intros Hd Hnd Hsub. apply mapM_Some. apply Forall2_fmap.
  apply Forall_Forall2_diag, Forall_forall. intros [name f] He.
  unfold Fs.stat. simpl. rewrite Hd. simpl.
  apply lookup_file_NoDup; [done|]. by apply Hsub.
Qed.

(** With no accumulated result and a source image selected, the files
    that the scan returns are read back and shown. *)
Lemma current_results_of_saved_files now w files :
  batch_results w = [] ->
  PyStr.truthy (selected_image_path w) = true ->
  _check_saved_files parent now w <> [] ->
  mapM (Fs.stat (disk w)) (_check_saved_files parent now w) = Some files ->
  current_results
    (on_all_batch_workers_complete parent png_of tmp rgb_png_of now w)
  = content <$> files.
Proof.
  intros Hbr Hsel Hsc Hfiles.
  unfold on_all_batch_workers_complete. cbv zeta.
  change (_check_saved_files parent now (set_results _ w))
    with (_check_saved_files parent now w).
  change (batch_results (set_results _ w)) with (batch_results w).
  change (selected_image_path (set_results _ w))
    with (selected_image_path w).
  rewrite Hbr, Hsel.
  destruct (_check_saved_files parent now w) as [|p ps]; [done|].
  unfold _display_saved_files_as_results.
  change (disk (set_results [] w)) with (disk w).
  rewrite Hfiles.
  destruct files as [|f fs]; [by apply length_mapM in Hfiles|done].
Qed.

Lemma recent_of_day_filter now (e : string * file) :
  (is_recent (now_time now) e = true
   /\ Fs.glob_match (banana_pattern (date_str_of now)) e.1 = true)
  <-> recent_of_day now e.
Proof.
  unfold recent_of_day, is_recent.
  rewrite glob_match_banana_pattern by apply date_str_literal.
  rewrite Z.ltb_lt. tauto.
Qed.

(** C3, as the code has it. A batch of [N] workers ends with no image
    delivered, a source image being selected; [d] is the listing of the
    save directory, which is the folder of the source image or [banana],
    by the toggle. Split [d] into the files of the day modified less
    than 300 seconds before the last delivery, [recent], and the others.
    The scan then returns [min N (length recent)] files of [recent],
    newest first, none of those left out being newer: files older than
    300 seconds, files of another day and files of another name are not
    returned. If it returns some, their contents are the results shown
    and the batch is reported as mixed, with their number; if it returns
    none, the batch is reported as failed. *)
Theorem check_saved_files_newest_recent
    (N : nat) (ds : list (clock * signal)) (w : BananaEditor)
    (now : clock) (sg : signal) (d : directory) :
  (1 <= N)%nat -> length ds = N -> last ds = Some (now, sg) ->
  accumulated ds = [] ->
  PyStr.truthy (selected_image_path w) = true ->
  let check_dir :=
    if save_on_original w
    then parent (default EmptyString (selected_image_path w))
    else "banana" in
  disk w !! check_dir = Some d ->
  NoDup d.*1 ->
  let w' := deliver_all parent png_of tmp rgb_png_of ds (start_batch N w) in
  exists recent others entries rest : list (string * file),
    recent ++ others ≡ₚ d
    /\ Forall (recent_of_day now) recent
    /\ Forall (fun e => ~ recent_of_day now e) others
    /\ entries ++ rest ≡ₚ recent
    /\ length entries = Nat.min N (length recent)
    /\ StronglySorted not_older entries
    /\ (forall a b, a ∈ entries -> b ∈ rest -> not_older a b)
    /\ _check_saved_files parent now (set_total_workers N w)
       = (fun e => MkPath check_dir e.1) <$> entries
    /\ (entries <> [] ->
        current_results w' = (fun e => content e.2) <$> entries
        /\ exists where_,
            head (final_reports w')
            = Some (BatchMixed (length entries) N where_))
    /\ (entries = [] ->
        head (final_reports w') = Some (BatchFailed N N)).
Proof.
  intros HN Hlen Hlast Hacc Hsel check_dir Hd Hnd w'.
  set (w2 := set_total_workers N w).
  pose proof (check_saved_files_cut parent now w2)
    as (_ & Hcount & entries & rest & Hfound & Hperm & Hsorted & _ & Hnewer).
  cbv zeta in Hcount, Hfound, Hperm.
  assert (Hdir :
    (if uses_original w2 then original_dir parent w2 else "banana")
    = check_dir).
  { unfold uses_original, original_dir, w2, check_dir. simpl.
    by rewrite Hsel, andb_true_r. }
  rewrite Hdir in Hcount, Hfound, Hperm.
  change (disk w2) with (disk w) in Hcount, Hperm.
  change (total_workers w2) with N in Hcount.
  unfold Fs.glob in Hcount, Hperm. rewrite Hd in Hcount, Hperm.
  rewrite list_filter_filter in Hcount, Hperm.
  set (P := fun e : string * file =>
              is_recent (now_time now) e = true
              /\ Fs.glob_match (banana_pattern (date_str_of now)) e.1 = true)
    in Hcount, Hperm.
  exists (filter P d), (filter (fun e => ~ P e) d), entries, rest.
  split; [apply filter_app_complement|].
  split.
  { apply Forall_forall. intros e [He _]%list_elem_of_filter.
    by apply recent_of_day_filter. }
  split.
  { apply Forall_forall. intros e [He _]%list_elem_of_filter.
    by rewrite <- recent_of_day_filter. }
  split; [done|].
  split.
  { by rewrite <- Hcount, Hfound, length_fmap. }
  split; [done|]. split; [done|]. split; [done|].
  destruct (deliver_all_finished parent png_of tmp rgb_png_of N ds w HN Hlen)
    as (now' & sg' & wc & Hlast' & Hc & Heq).
  rewrite Hlast in Hlast'. injection Hlast' as <- <-.
  apply collected_start_batch
    in Hc as (_ & Htw & Hbr & Hfr & Hdisk & Hselc & Hso).
  rewrite Hacc in Hbr.
  assert (Hscan :
    _check_saved_files parent now wc
    = (fun e => MkPath check_dir e.1) <$> entries).
  { rewrite <- Hfound. by apply check_saved_files_frame. }
  pose proof (on_all_batch_workers_complete_run parent png_of tmp
                rgb_png_of now wc) as (_ & _ & _ & _ & _ & _ & _ & Hfin).
  cbv zeta in Hfin. rewrite <- Heq in Hfin. fold w' in Hfin.
  rewrite Hbr, Hselc, Hsel, Hscan, Htw, length_fmap in Hfin.
  split.
  - intros Hne. split.
    + unfold w'. rewrite Heq.
      rewrite (current_results_of_saved_files now wc (entries.*2)).
      * by rewrite <- list_fmap_compose.
      * done.
      * by rewrite Hselc.
      * rewrite Hscan. by destruct entries.
      * rewrite Hscan, Hdisk.
        apply (mapM_stat_entries (disk w) check_dir d); [done..|].
        intros e He.
        assert (e ∈ filter P d) as [_ Hin]%list_elem_of_filter; [|done].
        rewrite <- Hperm. apply elem_of_app. by left.
    + rewrite Hfin. destruct entries; [done|]. eauto.
  - intros ->. by rewrite Hfin.
Qed.

End ReconcileFacts.

(** C3, as stated, fails for a batch without source image: the two
    workers fail, the save directory holds a file of the day written 10
    seconds ago, which the scan of the specification returns, and the
    batch ends as failed, with no result shown: the directory is not
    scanned. *)
Lemma failed_batch_without_source_is_not_scanned :
  let w' :=
    deliver_all example_parent example_png_of example_tempfile
      example_rgb_png_of two_failures
      (start_batch 2 (init disk_with_recent_file)) in
  accumulated two_failures = []
  /\ scan disk_with_recent_file "banana" (banana_pattern (date_str_of noon))
       (now_time noon) 300 2
     = [MkPath "banana" "banana_1sep_001.png"]
  /\ final_reports w' = [BatchFailed 2 2]
  /\ current_results w' = [].
Proof. vm_compute. repeat split; reflexivity. Qed.

Lemma check_saved_files_newest_recent_witness :
  exists recent others entries rest : list (string * file),
    recent ++ others ≡ₚ busy_directory
    /\ Forall (recent_of_day noon) recent
    /\ Forall (fun e => ~ recent_of_day noon e) others
    /\ entries ++ rest ≡ₚ recent
    /\ length entries = Nat.min 2 (length recent)
    /\ StronglySorted not_older entries
    /\ (forall a b, a ∈ entries -> b ∈ rest -> not_older a b)
    /\ _check_saved_files example_parent noon
         (set_total_workers 2 editor_with_source)
       = (fun e => MkPath "photos" e.1) <$> entries
    /\ (entries <> [] ->
        current_results
          (deliver_all example_parent example_png_of example_tempfile
             example_rgb_png_of two_failures
             (start_batch 2 editor_with_source))
        = (fun e => content e.2) <$> entries
        /\ exists where_,
            head (final_reports
                    (deliver_all example_parent example_png_of
                       example_tempfile example_rgb_png_of two_failures
                       (start_batch 2 editor_with_source)))
            = Some (BatchMixed (length entries) 2 where_))
    /\ (entries = [] ->
        head (final_reports
                (deliver_all example_parent example_png_of
                   example_tempfile example_rgb_png_of two_failures
                   (start_batch 2 editor_with_source)))
        = Some (BatchFailed 2 2)).
Proof.
  apply (check_saved_files_newest_recent example_parent example_png_of
           example_tempfile example_rgb_png_of 2 two_failures
           editor_with_source noon (Failed "blocked") busy_directory).
  - lia.
  - reflexivity.
  - reflexivity.
  - reflexivity.
  - reflexivity.
  - reflexivity.
  - apply (bool_decide_unpack _). vm_compute. exact I.
Defined.

(** The batch of the witness: of the three recent files of the day the
    two newest are returned, newest first, and shown. *)
Example check_saved_files_values :
  _check_saved_files example_parent noon
    (set_total_workers 2 editor_with_source)
  = [MkPath "photos" "banana_1sep_003.png";
     MkPath "photos" "banana_1sep_005.png"]
  /\ current_results
       (deliver_all example_parent example_png_of example_tempfile
          example_rgb_png_of two_failures (start_batch 2 editor_with_source))
     = [blob 203; blob 205]
  /\ _check_saved_files example_parent noon
       (set_total_workers 4 editor_with_source)
     = [MkPath "photos" "banana_1sep_003.png";
        MkPath "photos" "banana_1sep_005.png";
        MkPath "photos" "banana_1sep_001.png"].
Proof. vm_compute. repeat split; reflexivity. Qed.

(** ** Saving *)

Section SaveFacts.

Context (parent : string -> string) (png_of : bytes -> option bytes).

Implicit Types (fs : gmap string directory) (now : clock).

(** The loop [while filepath.exists() and counter < 1000]: where it
    stops. *)
Lemma collision_counter_stops (budget : nat) fs save_dir date_str
    (base counter : Z) :
  let c := collision_counter budget fs save_dir date_str base counter in
  counter <= c <= counter + Z.of_nat budget
  /\ (forall j, counter <= j < c ->
        Fs.exists_ fs (candidate save_dir date_str (base + j)) = true)
  /\ (c < counter + Z.of_nat budget ->
        Fs.exists_ fs (candidate save_dir date_str (base + c)) = false).
Proof.
  revert counter. induction budget as [|budget IH]; intros counter; simpl.
  - split; [lia|]. split; intros; lia.
  - fold (candidate save_dir date_str (base + counter)).
    destruct (Fs.exists_ fs (candidate _ _ (base + counter))) eqn:Hex.
    + destruct (IH (counter + 1)) as (Hrange & Htaken & Hfree).
      split; [lia|]. split.
      * intros j Hj. destruct (decide (j = counter)) as [->|]; [done|].
        apply Htaken. lia.
      * intros Hlt. apply Hfree. lia.
    + split; [lia|]. split; [intros; lia|done].
Qed.

Lemma exists_write_same fs p f fs' :
  Fs.write fs p f = Some fs' -> Fs.stat fs' p = Some f.
Proof.
  unfold Fs.write, Fs.stat. destruct (fs !! path_dir p) as [d|]; [|done].
  intros [= <-]. rewrite lookup_insert_eq. simpl.
  rewrite lookup_file_put_file. by rewrite decide_True.
Qed.

Lemma write_is_Some fs p f :
  is_Some (fs !! path_dir p) -> is_Some (Fs.write fs p f).
Proof. unfold Fs.write. intros [d ->]. eauto. Qed.

Lemma write_keeps_dir fs p f fs' dir :
  Fs.write fs p f = Some fs' -> is_Some (fs !! dir) -> is_Some (fs' !! dir).
Proof.
  unfold Fs.write. destruct (fs !! path_dir p) as [d|] eqn:Hd; [|done].
  intros [= <-] Hdir. rewrite lookup_insert.
  case_decide; eauto.
Qed.

Lemma put_file_fresh name f (d : directory) :
  Fs.lookup_file name d = None -> Fs.put_file name f d = d ++ [(name, f)].
Proof.
  induction d as [|[n g] r IH]; simpl; [done|].
  case_decide; [done|]. intros Hr. by rewrite IH.
Qed.

Lemma lookup_file_app name (d1 d2 : directory) :
  Fs.lookup_file name (d1 ++ d2)
  = match Fs.lookup_file name d1 with
    | Some f => Some f
    | None => Fs.lookup_file name d2
    end.
Proof.
  induction d1 as [|[n g] r IH]; simpl; [done|]. by case_decide.
Qed.

Lemma valid_image_data_length (image_data : bytes) :
  valid_image_data image_data = true <-> (100 < length image_data)%nat.
Proof.
  unfold valid_image_data. destruct image_data as [|b bs].
  - simpl. split; [done|lia].
  - apply Nat.ltb_lt.
Qed.

(** When no candidate from [start_number + i] on is taken, the loop meets
    no collision: the files get the consecutive numbers and are listed
    after the files that were there. *)
Lemma save_loop_without_collision now save_dir date_str
    (start_number i : Z) (valid_results pngs : list bytes)
    (saved_files : list Path) fs (d : directory) :
  PyStr.all_chars (PyStr.differs "_") date_str = true ->
  fs !! save_dir = Some d ->
  (forall n, start_number + i <= n ->
     Fs.lookup_file (banana_filename date_str n) d = None) ->
  mapM png_of valid_results = Some pngs ->
  save_loop png_of now save_dir date_str start_number i valid_results
    saved_files fs
  = (<[save_dir :=
         d ++ numbered_files now date_str (start_number + i) pngs]> fs,
     Return (saved_files
             ++ ((fun e => MkPath save_dir e.1)
                   <$> numbered_files now date_str (start_number + i) pngs))).
Proof.
  intros Hus. revert i pngs saved_files fs d.
  induction valid_results as [|image_data rest IH];
    intros i pngs saved_files fs d Hd Hfresh Hpngs.
  - simpl in Hpngs. injection Hpngs as <-. simpl.
    rewrite !app_nil_r. by rewrite insert_id.
  - simpl in Hpngs.
    destruct (png_of image_data) as [png|] eqn:Hpng; [|done].
    destruct (mapM png_of rest) as [pngs'|] eqn:Hrest; [|done].
    simpl in Hpngs. injection Hpngs as <-.
    cbn [save_loop]. rewrite Hpng.
    pose proof (collision_counter_stops 1000 fs save_dir date_str
                  (start_number + i) 0) as (Hrange & Htaken & _).
    set (c := collision_counter 1000 fs save_dir date_str
                (start_number + i) 0) in *.
    assert (Hc : c = 0).
    { destruct (decide (c = 0)) as [|Hne]; [done|]. exfalso.
      specialize (Htaken 0 ltac:(lia)).
      unfold Fs.exists_, candidate, Fs.stat in Htaken. simpl in Htaken.
      rewrite Hd in Htaken. simpl in Htaken.
      rewrite Hfresh in Htaken by lia.
      apply bool_decide_eq_true in Htaken. by destruct Htaken. }
    rewrite Hc, Z.add_0_r.
    unfold Fs.write. simpl. rewrite Hd.
    rewrite put_file_fresh by (apply Hfresh; lia).
    rewrite (IH (i + 1) pngs' _ _
               (d ++ [(banana_filename date_str (start_number + i),
                       File (now_time now) png)])).
    + rewrite insert_insert_eq, <- !app_assoc, Z.add_assoc. done.
    + apply lookup_insert_eq.
    + intros n Hn. rewrite lookup_file_app, Hfresh by lia. simpl.
      case_decide as Heq; [|done].
      apply banana_filename_inj in Heq; [lia|done].
    + done.
Qed.

(** The same for any list of blobs, as far as the file system goes: the
    loop ends at the first blob PIL cannot open, with the files before
    it written. *)
Lemma save_loop_disk_without_collision now save_dir date_str
    (start_number i : Z) (valid_results : list bytes)
    (saved_files : list Path) fs (d : directory) :
  PyStr.all_chars (PyStr.differs "_") date_str = true ->
  fs !! save_dir = Some d ->
  (forall n, start_number + i <= n ->
     Fs.lookup_file (banana_filename date_str n) d = None) ->
  (save_loop png_of now save_dir date_str start_number i valid_results
     saved_files fs).1
  = <[save_dir :=
        d ++ numbered_files now date_str (start_number + i)
               (readable_prefix png_of valid_results)]> fs.
Proof.
  intros Hus. revert i saved_files fs d.
  induction valid_results as [|image_data rest IH];
    intros i saved_files fs d Hd Hfresh.
  - simpl. rewrite app_nil_r. by rewrite insert_id.
  - cbn [save_loop readable_prefix].
    destruct (png_of image_data) as [png|] eqn:Hpng.
    2:{ simpl. rewrite app_nil_r. by rewrite insert_id. }
    pose proof (collision_counter_stops 1000 fs save_dir date_str
                  (start_number + i) 0) as (Hrange & Htaken & _).
    set (c := collision_counter 1000 fs save_dir date_str
                (start_number + i) 0) in *.
    assert (Hc : c = 0).
    { destruct (decide (c = 0)) as [|Hne]; [done|]. exfalso.
      specialize (Htaken 0 ltac:(lia)).
      unfold Fs.exists_, candidate, Fs.stat in Htaken. simpl in Htaken.
      rewrite Hd in Htaken. simpl in Htaken.
      rewrite Hfresh in Htaken by lia.
      apply bool_decide_eq_true in Htaken. by destruct Htaken. }
    rewrite Hc, Z.add_0_r.
    unfold Fs.write. simpl. rewrite Hd.
    rewrite put_file_fresh by (apply Hfresh; lia).
    rewrite (IH (i + 1) _ _
               (d ++ [(banana_filename date_str (start_number + i),
                       File (now_time now) png)])).
    + rewrite insert_insert_eq, <- !app_assoc, Z.add_assoc. done.
    + apply lookup_insert_eq.
    + intros n Hn. rewrite lookup_file_app, Hfresh by lia. simpl.
      case_decide as Heq; [|done].
      apply banana_filename_inj in Heq; [lia|done].
Qed.


Lemma readable_prefix_all (valid_results : list bytes) :
  Forall (fun image_data => is_Some (png_of image_data)) valid_results ->
  mapM png_of valid_results = Some (readable_prefix png_of valid_results).
Proof.
  induction 1 as [|image_data rest [png Hpng] _ IH]; [done|].
  simpl. rewrite Hpng. simpl. by rewrite IH.
Qed.

Lemma disk_auto_save_results now (results_ : list bytes) (w : BananaEditor) :
  let valid_results :=
    filter (fun d => valid_image_data d = true) results_ in
  let dir :=
    if uses_original w then original_dir parent w else "banana" in
  let fs0 :=
    if uses_original w then disk w else Fs.mkdir (disk w) "banana" in
  valid_results <> [] ->
  disk (auto_save_results parent png_of now results_ w)
  = (save_loop png_of now dir (date_str_of now)
       (get_next_file_number fs0 dir (date_str_of now)) 0
       valid_results [] fs0).1.
Proof.
  cbv zeta. intros Hvalid. unfold auto_save_results.
  destruct results_ as [|r rs]; [done|].
  destruct (filter _ _) as [|v vs] eqn:Hv; [done|].
  by destruct (save_loop _ _ _ _ _ _ _ _ _) as [fs' [saved|e]].
Qed.

(** With every blob readable by PIL and the directory in place, the loop
    saves every artifact, whatever files are in the way: it has no way
    to give up on a name. The number of each saved file is the number
    the artifact started with plus at most 1000. *)
Lemma save_loop_saves_all now save_dir date_str
    (start_number i : Z) (valid_results : list bytes)
    (saved_files : list Path) fs :
  Forall (fun image_data => is_Some (png_of image_data)) valid_results ->
  is_Some (fs !! save_dir) ->
  exists fs' new_files,
    save_loop png_of now save_dir date_str start_number i valid_results
      saved_files fs
    = (fs', Return (saved_files ++ new_files))
    /\ length new_files = length valid_results
    /\ forall (j : nat) p,
        new_files !! j = Some p ->
        exists c, 0 <= c <= 1000
          /\ p = candidate save_dir date_str
                   (start_number + (i + Z.of_nat j) + c).
Proof.
  intros Hall. revert i saved_files fs.
  induction Hall as [|image_data rest [png Hpng] _ IH];
    intros i saved_files fs Hdir.
  - exists fs, []. simpl. rewrite app_nil_r.
    split; [done|]. split; [done|]. intros j p Hj. by destruct j.
  - cbn [save_loop]. rewrite Hpng.
    pose proof (collision_counter_stops 1000 fs save_dir date_str
                  (start_number + i) 0) as (Hrange & _ & _).
    set (c := collision_counter 1000 fs save_dir date_str
                (start_number + i) 0) in *.
    set (filepath := MkPath save_dir
                       (banana_filename date_str (start_number + i + c))).
    destruct (write_is_Some fs filepath (File (now_time now) png) Hdir)
      as [fs1 Hw].
    rewrite Hw.
    destruct (IH (i + 1) (saved_files ++ [filepath]) fs1)
      as (fs' & new_files & Hloop & Hlen & Hnames).
    { by eapply write_keeps_dir. }
    exists fs', (filepath :: new_files). rewrite Hloop.
    split; [by rewrite <- app_assoc|]. split; [simpl; by rewrite Hlen|].
    intros [|j] p Hj; simpl in Hj.
    + injection Hj as <-. exists c. split; [simpl in Hrange; lia|].
      unfold candidate, filepath. do 2 f_equal. lia.
    + destruct (Hnames j p Hj) as (c' & Hc' & ->).
      exists c'. split; [done|]. unfold candidate. do 2 f_equal. lia.
Qed.

(** When the 1000 candidates from the first on are all taken, the loop
    uses up its increments and the artifact is written at the next
    number, not looked at, with no error. *)
Lemma collision_counter_exhausted (budget : nat) fs save_dir date_str
    (base counter : Z) :
  (forall j, counter <= j < counter + Z.of_nat budget ->
     Fs.exists_ fs (candidate save_dir date_str (base + j)) = true) ->
  collision_counter budget fs save_dir date_str base counter
  = counter + Z.of_nat budget.
Proof.
  revert counter. induction budget as [|budget IH]; intros counter Htaken.
  - simpl. lia.
  - cbn [collision_counter].
    fold (candidate save_dir date_str (base + counter)).
    rewrite Htaken by lia. rewrite IH; [lia|].
    intros j Hj. apply Htaken. lia.
Qed.

Lemma save_loop_exhausted now save_dir date_str (start_number i : Z)
    (image_data png : bytes) (saved_files : list Path) fs :
  png_of image_data = Some png ->
  is_Some (fs !! save_dir) ->
  (forall j, 0 <= j < 1000 ->
     Fs.exists_ fs (candidate save_dir date_str (start_number + i + j))
     = true) ->
  exists fs',
    Fs.write fs (candidate save_dir date_str (start_number + i + 1000))
      (File (now_time now) png) = Some fs'
    /\ save_loop png_of now save_dir date_str start_number i [image_data]
         saved_files fs
       = (fs', Return (saved_files
                       ++ [candidate save_dir date_str
                             (start_number + i + 1000)])).
Proof.
  intros Hpng Hdir Htaken.
  destruct (write_is_Some fs
              (candidate save_dir date_str (start_number + i + 1000))
              (File (now_time now) png) Hdir) as [fs' Hw].
  exists fs'. split; [done|].
  cbn [save_loop]. rewrite Hpng.
  rewrite (collision_counter_exhausted 1000 fs save_dir date_str
             (start_number + i) 0 Htaken).
  change (0 + Z.of_nat 1000) with 1000.
  fold (candidate save_dir date_str (start_number + i + 1000)).
  by rewrite Hw.
Qed.

(** Every number of a numbered directory names an empty file in it. *)
Lemma stat_numbered_directory save_dir date_str (numbers : list Z) (n : Z) :
  n ∈ numbers ->
  Fs.stat {[ save_dir := numbered_directory date_str numbers ]}
    (candidate save_dir date_str n)
  = Some (File 0 []).
Proof.
  intros Hn. unfold Fs.stat, candidate. simpl.
  rewrite lookup_singleton_eq. simpl.
  induction Hn as [n ns|n m ns _ IH]; simpl.
  - by rewrite decide_True.
  - by case_decide.
Qed.

Lemma numbered_files_lookup now date_str (n : Z) (pngs : list bytes)
    (j : nat) :
  numbered_files now date_str n pngs !! j
  = (fun png =>
       (banana_filename date_str (n + Z.of_nat j), File (now_time now) png))
      <$> pngs !! j.
Proof.
  revert n j. induction pngs as [|png rest IH]; intros n j; [done|].
  destruct j as [|j]; simpl.
  - by rewrite Z.add_0_r.
  - rewrite IH.
    by replace (n + 1 + Z.of_nat j) with (n + Z.of_nat (S j)) by lia.
Qed.

(** C5, as the code has it. In the save loop the artifact of index [i]
    starts from the number [start_number + i], [start_number] being the
    one number taken from the directory before the loop. The number is
    incremented while the candidate file exists, at most 1000 times: the
    candidates passed over are all taken, and the one reached is free
    unless the 1000 increments are used up. The artifact is then written
    at the path reached and the loop goes on with the next index. No
    naming error exists: when PIL reads every blob and the directory is
    there, every artifact of the list is saved. *)
Theorem save_loop_allocates_from_start_plus_i now save_dir date_str
    (start_number i : Z) (image_data : bytes) (rest : list bytes)
    (saved_files : list Path) fs (png : bytes) :
  png_of image_data = Some png ->
  let c :=
    collision_counter 1000 fs save_dir date_str (start_number + i) 0 in
  let filepath := candidate save_dir date_str (start_number + i + c) in
  0 <= c <= 1000
  /\ (forall j, 0 <= j < c ->
        Fs.exists_ fs (candidate save_dir date_str (start_number + i + j))
        = true)
  /\ (c < 1000 -> Fs.exists_ fs filepath = false)
  /\ (forall fs',
        Fs.write fs filepath (File (now_time now) png) = Some fs' ->
        save_loop png_of now save_dir date_str start_number i
          (image_data :: rest) saved_files fs
        = save_loop png_of now save_dir date_str start_number (i + 1)
            rest (saved_files ++ [filepath]) fs')
  /\ (Forall (fun b => is_Some (png_of b)) rest ->
      is_Some (fs !! save_dir) ->
      exists fs' new_files,
        save_loop png_of now save_dir date_str start_number i
          (image_data :: rest) saved_files fs
        = (fs', Return (saved_files ++ new_files))
        /\ length new_files = S (length rest))
  /\ (forall (results_ : list bytes) (w : BananaEditor),
        let valid_results :=
          filter (fun d => valid_image_data d = true) results_ in
        let dir :=
          if uses_original w then original_dir parent w else "banana" in
        let fs0 :=
          if uses_original w then disk w else Fs.mkdir (disk w) "banana" in
        valid_results <> [] ->
        disk (auto_save_results parent png_of now results_ w)
        = (save_loop png_of now dir (date_str_of now)
             (get_next_file_number fs0 dir (date_str_of now)) 0
             valid_results [] fs0).1).
Proof.
  intros Hpng. cbv zeta.
  pose proof (collision_counter_stops 1000 fs save_dir date_str
                (start_number + i) 0) as (Hrange & Htaken & Hfree).
  set (c := collision_counter 1000 fs save_dir date_str
              (start_number + i) 0) in *.
  change (Z.of_nat 1000) with 1000 in *.
  split; [lia|]. split; [done|].
  split; [intros Hlt; apply Hfree; lia|]. split; [|split].
  - intros fs' Hw. cbn [save_loop]. rewrite Hpng.
    fold c. unfold candidate in Hw. by rewrite Hw.
  - intros Hrest Hdir.
    destruct (save_loop_saves_all now save_dir date_str start_number i
                (image_data :: rest) saved_files fs)
      as (fs' & new_files & Hloop & Hlen & _); [|done|by eauto].
    constructor; [by rewrite Hpng|done].
  - intros results_ w Hvalid. by apply disk_auto_save_results.
Qed.


End SaveFacts.

(** C5, as stated, fails on the exhaustion: with the numbers 1 to 1001
    taken and the artifact starting at 1, the allocation of the
    specification signals [NamingExhausted], whereas the loop reports the
    artifact as saved, at number 1001, over the file that was there. *)
Lemma exhaustion_overwrites_without_signal :
  let run :=
    save_loop example_png_of noon "banana" "1sep" 1 0 [blob 200] []
      crowded_disk in
  spec_allocate crowded_disk "banana" "1sep" 1 = None
  /\ run.2 = Return [candidate "banana" "1sep" 1001]
  /\ Fs.stat crowded_disk (candidate "banana" "1sep" 1001)
     = Some (File 0 [])
  /\ Fs.stat run.1 (candidate "banana" "1sep" 1001)
     = Some (File 1000 (blob 200)).
Proof.
  assert (Htaken : forall n, 1 <= n < 1002 ->
            Fs.exists_ crowded_disk (candidate "banana" "1sep" n) = true).
  { intros n Hn. unfold Fs.exists_, crowded_disk.
    rewrite stat_numbered_directory; [done|].
    apply elem_of_seqZ. lia. }
  destruct (save_loop_exhausted example_png_of noon "banana" "1sep" 1 0
              (blob 200) (blob 200) [] crowded_disk eq_refl)
    as (fs' & Hw & Hrun).
  { unfold crowded_disk. rewrite lookup_singleton_eq. eauto. }
  { intros j Hj. apply Htaken. lia. }
  change (1 + 0 + 1000) with 1001 in Hw, Hrun.
  cbv zeta. rewrite Hrun. split; [|split; [done|split]].
  - unfold spec_allocate.
    match goal with
    | |- snd <$> ?found = None => assert (found = None) as Hnone
    end; [|by rewrite Hnone].
    apply list_find_None, Forall_forall. intros p Hp.
    apply list_elem_of_fmap in Hp as (j & -> & Hj).
    apply elem_of_seqZ in Hj. rewrite Htaken by lia. done.
  - unfold crowded_disk. apply stat_numbered_directory.
    apply elem_of_seqZ. lia.
  - by apply (exists_write_same crowded_disk).
Qed.

Lemma save_loop_allocates_from_start_plus_i_witness :
  Fs.exists_ disk_with_recent_file
    (candidate "banana" "1sep"
       (1 + 0
        + collision_counter 1000 disk_with_recent_file "banana" "1sep"
            (1 + 0) 0))
  = false.
Proof.
  pose proof (save_loop_allocates_from_start_plus_i example_parent
                example_png_of noon "banana" "1sep" 1 0 (blob 200) [] []
                disk_with_recent_file (blob 200) eq_refl) as H.
  cbv zeta in H. destruct H as (_ & _ & H & _).
  apply H. vm_compute. reflexivity.
Defined.


Lemma get_next_file_number_is_max_plus_one_witness :
  get_next_file_number {[ "banana" := mixed_directory ]} "banana" "1sep" = 6
  /\ parsed_number {[ "banana" := mixed_directory ]} "banana" "1sep" 5
  /\ forall n,
       parsed_number {[ "banana" := mixed_directory ]} "banana" "1sep" n ->
       n <= 5.
Proof.
  pose proof (get_next_file_number_is_max_plus_one
                {[ "banana" := mixed_directory ]} "banana" "1sep"
                eq_refl eq_refl) as H.
  cbv zeta in H. destruct H as (H & _).
  assert (Hnext :
    get_next_file_number {[ "banana" := mixed_directory ]} "banana" "1sep"
    = 6) by (vm_compute; reflexivity).
  rewrite Hnext in H. split; [done|]. apply H.
  exists 1, mixed_directory, "banana_1sep_001.png", (File 0 []), "001", "001".
  split; [vm_compute; reflexivity|]. split; [left|].
  split; [reflexivity|]. split; [|vm_compute; reflexivity].
  split; [reflexivity|by left].
Defined.

Lemma get_active_image_paths_by_index_witness :
  get_active_image_paths
    (set_image_paths [Some "a.png"; None; Some "c.png"; None] (init ∅))
  = ["a.png"; "c.png"].
Proof.
  pose proof (get_active_image_paths_by_index (init ∅)) as (_ & H & _).
  etrans; [|reflexivity].
  exact (H 0%nat 2%nat "a.png" "c.png" _ _ _ _
           ltac:(done) eq_refl eq_refl eq_refl eq_refl).
Defined.

(** ** A few values *)

Example split_stem :
  PyStr.split "_" (Fs.stem "banana_1sep_007.png") = ["banana"; "1sep"; "007"].
Proof. reflexivity. Qed.

Example int_values :
  PyStr.int " -007 " = Some (-7) /\ PyStr.int "12a" = None
  /\ PyStr.int "" = None /\ PyStr.int "+" = None
  /\ PyStr.int "1_000" = Some 1000 /\ PyStr.int "_1" = None
  /\ PyStr.int "1_" = None /\ PyStr.int "1__0" = None
  /\ PyStr.int "+ 5" = None /\ PyStr.int "-0" = Some 0.
Proof. vm_compute. repeat split; reflexivity. Qed.

(** Texts beyond ASCII, as their UTF-8 bytes: the full-width digits
    one and two, the Arabic-Indic digit three, an ideographic space on
    both sides of a digit; the separators U+001C and U+001F are no
    white space of the parser. *)
Example int_unicode_values :
  PyStr.int (String.string_of_list_ascii
               (ascii_of_nat <$> [239; 188; 145; 239; 188; 146]%nat))
  = Some 12
  /\ PyStr.int (String.string_of_list_ascii (ascii_of_nat <$> [217; 163]%nat))
     = Some 3
  /\ PyStr.int (String.string_of_list_ascii
                  (ascii_of_nat <$> [227; 128; 128; 49; 227; 128; 128]%nat))
     = Some 1
  /\ PyStr.int (String.string_of_list_ascii (ascii_of_nat <$> [28; 56; 31]%nat))
     = None
  /\ PyStr.int (String.string_of_list_ascii (ascii_of_nat <$> [49; 0]%nat))
     = None
  /\ PyStr.int (String.string_of_list_ascii (ascii_of_nat <$> [194; 178]%nat))
     = None.
Proof. vm_compute. repeat split; reflexivity. Qed.

Example fmt03d_values :
  PyStr.fmt03d <$> [0; 7; 42; 999; 1000; -4; -57; -123]
  = ["000"; "007"; "042"; "999"; "1000"; "-04"; "-57"; "-123"].
Proof. vm_compute. reflexivity. Qed.

Example date_str_of_noon : date_str_of noon = "1sep".
Proof. vm_compute. reflexivity. Qed.

(** The scenario of three workers of which the second fails: two images,
    saved as numbers 1 and 2 of the day. *)
Example three_workers_one_failure :
  let w := deliver_all example_parent example_png_of
      example_tempfile example_rgb_png_of three_deliveries
             (start_batch 3 (init ∅)) in
  final_reports w = [BatchSuccess 2 BananaFolder]
  /\ length (results w) = 2%nat
  /\ (disk w !! "banana" ≫= fun d => Some d.*1)
     = Some ["banana_1sep_001.png"; "banana_1sep_002.png"].
Proof. vm_compute. repeat split; reflexivity. Qed.

(** * Further properties of the code *)

(** ** The slots under the methods that fill them *)

Section IntakeFacts.

Context (validate_image_path : string -> bool) (name_of : string -> string)
  (path_exists : string -> bool).

Implicit Types (w : BananaEditor) (l : list (option string)) (p : string).

Lemma add_image_scan_first_empty p w indices i rest_ :
  Forall (fun j => exists q, image_paths w !! j = Some (Some q)) indices ->
  image_paths w !! i = Some None ->
  add_image_scan p (indices ++ i :: rest_) w
  = Return (true,
            update_image_info
              (set_image_paths (<[i := Some p]> (image_paths w)) w)).
Proof.
  intros Hocc Hi. induction Hocc as [|j js [q Hq] _ IH]; simpl.
  - rewrite Hi. unfold assign_slot. by rewrite Hi.
  - by rewrite Hq.
Qed.

(** What [add_image_to_next_available_slot] does on four slots, by the
    first empty slot. *)
Lemma add_image_by_first_empty p w :
  length (image_paths w) = 4%nat ->
  add_image_to_next_available_slot p w
  = match list_find (fun slot => slot = None) (image_paths w) with
    | Some (i, _) =>
        Return (true,
                update_image_info
                  (set_image_paths (<[i := Some p]> (image_paths w)) w))
    | None => Return (false, w)
    end.
Proof.
  intros Hlen.
  assert (Hocc : forall n : nat,
             (n <= 4)%nat ->
             (forall j : nat, (j < n)%nat -> image_paths w !! j <> Some None) ->
             Forall (fun j => exists q, image_paths w !! j = Some (Some q))
               (seq 0 n)).
  { intros n Hn Hfull. apply Forall_forall. intros j Hj.
    apply elem_of_seq in Hj.
    destruct (lookup_lt_is_Some_2 (image_paths w) j) as [[q|] Hq];
      [lia|eauto|]. by destruct (Hfull j ltac:(lia)). }
  destruct (list_find _ _) as [[i slot]|] eqn:Hfind.
  - apply list_find_Some in Hfind as (Hi & -> & Hfirst).
    assert (Hlt : (i < 4)%nat).
    { rewrite <- Hlen. by eapply lookup_lt_Some. }
    unfold add_image_to_next_available_slot.
    rewrite (seq_split_at i 4 Hlt).
    apply add_image_scan_first_empty; [|done].
    apply Hocc; [lia|]. intros j Hj Hnone. by eapply Hfirst.
  - apply list_find_None in Hfind. apply add_image_scan_full.
    apply Hocc; [lia|]. intros j _ Hj.
    rewrite Forall_forall in Hfind. apply (Hfind None); [|done].
    by eapply list_elem_of_lookup_2.
Qed.

Lemma free_slots_zero_find w :
  free_slots w = 0%nat <->
  list_find (fun slot => slot = None) (image_paths w) = None.
Proof.
  unfold free_slots. rewrite list_find_None, length_zero_iff_nil.
  induction (image_paths w) as [|slot l IH]; [done|].
  rewrite filter_cons, Forall_cons. case_decide; [|tauto].
  split; [done|]. by intros [? _].
Qed.

Lemma active_insert_empty l i p :
  l !! i = Some None ->
  omap id (<[i := Some p]> l) ≡ₚ p :: omap id l.
Proof.
  revert i. induction l as [|slot l IH]; intros [|i] Hi; simpl in *;
    try done.
  - by injection Hi as ->.
  - destruct slot as [q|]; simpl; [|by apply IH].
    rewrite (IH i Hi). apply Permutation_swap.
Qed.

Lemma free_insert_empty l i p :
  l !! i = Some None ->
  S (length (filter (fun slot => slot = None) (<[i := Some p]> l)))
  = length (filter (fun slot => slot = None) l).
Proof.
  revert i. induction l as [|slot l IH]; intros [|i] Hi; simpl in *;
    try done.
  - injection Hi as ->. rewrite filter_cons_False by done.
    by rewrite filter_cons_True.
  - rewrite !(filter_cons _ slot). case_decide; simpl; by rewrite (IH i Hi).
Qed.

Lemma image_paths_update_info w :
  image_paths (update_image_info w) = image_paths w.
Proof. unfold update_image_info. by destruct (get_active_image_paths w). Qed.

Lemma selected_update_info w :
  selected_image_path (update_image_info w)
  = head (get_active_image_paths (update_image_info w)).
Proof.
  unfold get_active_image_paths. rewrite image_paths_update_info.
  unfold update_image_info, get_active_image_paths.
  by destruct (omap id (image_paths w)).
Qed.

(** One successful or refused addition on four slots, in terms of the
    number of free slots. *)
Lemma add_image_step p w :
  length (image_paths w) = 4%nat ->
  (free_slots w = 0%nat /\
   add_image_to_next_available_slot p w = Return (false, w))
  \/ (exists w',
        add_image_to_next_available_slot p w = Return (true, w')
        /\ length (image_paths w') = 4%nat
        /\ S (free_slots w') = free_slots w
        /\ get_active_image_paths w' ≡ₚ p :: get_active_image_paths w
        /\ selected_image_path w' = head (get_active_image_paths w')).
Proof.
  intros Hlen. rewrite (add_image_by_first_empty p w Hlen).
  destruct (list_find _ _) as [[i slot]|] eqn:Hfind.
  - right. apply list_find_Some in Hfind as (Hi & -> & _).
    eexists. split; [done|].
    unfold free_slots, get_active_image_paths.
    rewrite selected_update_info. unfold get_active_image_paths.
    rewrite !image_paths_update_info. simpl.
    rewrite length_insert. split; [done|].
    split; [by apply free_insert_empty|].
    split; [by apply active_insert_empty|done].
  - left. split; [|done]. by apply free_slots_zero_find.
Qed.

Lemma drop_loop_run paths a sk w :
  length (image_paths w) = 4%nat ->
  exists sk' w',
    drop_loop name_of paths a sk w
    = (Return ((a + length paths `min` free_slots w)%nat, sk'), w')
    /\ length (image_paths w') = 4%nat
    /\ (free_slots w' + length paths `min` free_slots w)%nat = free_slots w
    /\ get_active_image_paths w'
       ≡ₚ get_active_image_paths w ++ take (free_slots w) paths
    /\ (length sk' + length paths `min` free_slots w)%nat
       = (length sk + length paths)%nat
    /\ (selected_image_path w = head (get_active_image_paths w) ->
        selected_image_path w' = head (get_active_image_paths w')).
Proof.
  revert a sk w. induction paths as [|p paths IH]; intros a sk w Hlen.
  - exists sk, w. simpl. rewrite take_nil, app_nil_r, Nat.add_0_r.
    repeat split; try done; lia.
  - simpl drop_loop.
    destruct (add_image_step p w Hlen)
      as [[Hfree ->]|(w1 & -> & Hlen1 & Hfree & Hact & Hsel)].
    + destruct (IH a (sk ++ [name_of p]) w Hlen)
        as (sk' & w' & -> & ? & ? & Hact & Hsk & ?).
      exists sk', w'. rewrite Hfree in *. rewrite length_app in Hsk.
      simpl in *. rewrite Nat.min_0_r in *.
      repeat split; try done; lia.
    + destruct (IH (a + 1)%nat sk w1 Hlen1)
        as (sk' & w' & -> & ? & ? & Hact' & Hsk & Hsel').
      exists sk', w'. rewrite <- Hfree. simpl length.
      rewrite <- Nat.succ_min_distr.
      repeat split; try done; try lia.
      * do 3 f_equal. lia.
      * rewrite Hact', Hact. simpl. by rewrite Permutation_middle.
      * intros _. by apply Hsel'.
Qed.

Lemma select_image_loop_run paths a sk w :
  length (image_paths w) = 4%nat ->
  exists sk' w',
    select_image_loop validate_image_path name_of paths a sk w
    = (Return ((a + length (filter (fun p => validate_image_path p = true)
                              paths) `min` free_slots w)%nat, sk'), w')
    /\ length (image_paths w') = 4%nat
    /\ (free_slots w'
        + length (filter (fun p => validate_image_path p = true) paths)
          `min` free_slots w)%nat = free_slots w
    /\ get_active_image_paths w'
       ≡ₚ get_active_image_paths w
          ++ take (free_slots w)
               (filter (fun p => validate_image_path p = true) paths)
    /\ (length sk'
        + length (filter (fun p => validate_image_path p = true) paths)
          `min` free_slots w)%nat
       = (length sk + length paths)%nat
    /\ (selected_image_path w = head (get_active_image_paths w) ->
        selected_image_path w' = head (get_active_image_paths w')).
Proof.
  revert a sk w. induction paths as [|p paths IH]; intros a sk w Hlen.
  - exists sk, w. simpl. rewrite filter_nil, take_nil, app_nil_r. simpl.
    rewrite Nat.add_0_r. repeat split; try done; lia.
  - simpl select_image_loop. rewrite filter_cons.
    destruct (validate_image_path p) eqn:Hvalid.
    + rewrite decide_True by done.
      destruct (add_image_step p w Hlen)
        as [[Hfree ->]|(w1 & -> & Hlen1 & Hfree & Hact & Hsel)].
      * destruct (IH a (sk ++ [name_of p]) w Hlen)
          as (sk' & w' & -> & ? & ? & Hact & Hsk & ?).
        exists sk', w'. rewrite Hfree in *. rewrite length_app in Hsk.
        simpl in *. rewrite Nat.min_0_r in *.
        repeat split; try done; lia.
      * destruct (IH (a + 1)%nat sk w1 Hlen1)
          as (sk' & w' & -> & ? & ? & Hact' & Hsk & Hsel').
        exists sk', w'. rewrite <- Hfree. simpl length.
        rewrite <- Nat.succ_min_distr.
        repeat split; try done; try lia.
        -- do 3 f_equal. lia.
        -- rewrite Hact', Hact. simpl. by rewrite Permutation_middle.
        -- intros _. by apply Hsel'.
    + rewrite decide_False by done.
      destruct (IH a (sk ++ [name_of p]) w Hlen)
        as (sk' & w' & -> & ? & ? & Hact & Hsk & ?).
      exists sk', w'. rewrite length_app in Hsk. simpl in *.
      repeat split; try done; lia.
Qed.

End IntakeFacts.

Section SlotTheorems.

Implicit Types (w : BananaEditor) (l : list (option string)) (p : string).

Lemma assign_slot_in_range (i : nat) v w :
  (i < length (image_paths w))%nat ->
  assign_slot i v w = Return (set_image_paths (<[i := v]> (image_paths w)) w).
Proof.
  intros Hi. unfold assign_slot.
  by destruct (lookup_lt_is_Some_2 _ _ Hi) as [slot ->].
Qed.

Lemma remove_image_in_range (slot_index : Z) w :
  length (image_paths w) = 4%nat ->
  0 <= slot_index < 4 ->
  remove_image_from_slot slot_index w
  = Return (update_image_info
              (set_image_paths
                 (<[Z.to_nat slot_index := None]> (image_paths w)) w)).
Proof.
  intros Hlen Hi. unfold remove_image_from_slot.
  replace ((0 <=? slot_index) && (slot_index <? 4)) with true
    by (symmetry; apply andb_true_iff; lia).
  by rewrite assign_slot_in_range by lia.
Qed.

Lemma active_insert_none l i q :
  l !! i = Some (Some q) ->
  omap id l ≡ₚ q :: omap id (<[i := None]> l).
Proof.
  revert i. induction l as [|slot l IH]; intros [|i] Hi; simpl in *;
    try done.
  - by injection Hi as ->.
  - destruct slot as [q'|]; simpl; [|by apply IH].
    rewrite (IH i Hi). apply Permutation_swap.
Qed.

Lemma find_empty_after_remove l i :
  (i < length l)%nat ->
  (forall j : nat, (j < i)%nat -> l !! j <> Some None) ->
  list_find (fun slot => slot = None) (<[i := None]> l) = Some (i, None).
Proof.
  intros Hi Hfull. apply list_find_Some. split_and!.
  - by apply list_lookup_insert_eq.
  - done.
  - intros j slot Hj Hlt ->. apply (Hfull j Hlt).
    by rewrite list_lookup_insert_ne in Hj by lia.
Qed.

(** X1. On four slots [add_image_to_next_available_slot] never raises; it
    refuses exactly when no slot is empty, and then changes nothing;
    otherwise the images in the slots are the former ones and the new
    one, and [selected_image_path] is the image of the lowest occupied
    slot. *)
Theorem add_image_refuses_only_when_full p w :
  length (image_paths w) = 4%nat ->
  exists added w',
    add_image_to_next_available_slot p w = Return (added, w')
    /\ length (image_paths w') = 4%nat
    /\ (added = false <-> free_slots w = 0%nat)
    /\ (added = false -> w' = w)
    /\ (added = true ->
        get_active_image_paths w' ≡ₚ p :: get_active_image_paths w
        /\ selected_image_path w' = head (get_active_image_paths w')).
Proof.
  intros Hlen.
  destruct (add_image_step p w Hlen)
    as [[Hfree ->]|(w1 & -> & Hlen1 & Hfree & Hact & Hsel)].
  - exists false, w. by repeat split.
  - exists true, w1. repeat split; try done. intros ?. lia.
Qed.

(** X2. [remove_image_from_slot] on four slots never raises. An index
    outside 0..3 is ignored, the editor staying as it is. An index inside
    empties that slot and no other, and [selected_image_path] becomes the
    image of the lowest slot still occupied, or [None] when none is. *)
Theorem remove_image_from_slot_empties_one (slot_index : Z) w :
  length (image_paths w) = 4%nat ->
  exists w',
    remove_image_from_slot slot_index w = Return w'
    /\ length (image_paths w') = 4%nat
    /\ (~ 0 <= slot_index < 4 -> w' = w)
    /\ (0 <= slot_index < 4 ->
        image_paths w' !! Z.to_nat slot_index = Some None
        /\ (forall j : nat,
              j <> Z.to_nat slot_index ->
              image_paths w' !! j = image_paths w !! j)
        /\ selected_image_path w' = head (get_active_image_paths w')).
Proof.
  intros Hlen.
  destruct (decide (0 <= slot_index < 4)) as [Hi|Hi].
  - rewrite remove_image_in_range by done. eexists. split; [done|].
    rewrite selected_update_info, image_paths_update_info. simpl.
    rewrite length_insert. repeat split; try done.
    + apply list_lookup_insert_eq. lia.
    + intros j Hj. by apply list_lookup_insert_ne.
  - exists w. unfold remove_image_from_slot.
    replace ((0 <=? slot_index) && (slot_index <? 4)) with false
      by (symmetry; apply andb_false_iff; lia).
    by repeat split.
Qed.

(** X3. When the four slots are occupied, removing the image of a slot
    and then adding an image puts the new image into the slot just
    emptied, the other three slots keeping theirs. *)
Theorem add_after_remove_reuses_slot (slot_index : Z) p w :
  length (image_paths w) = 4%nat ->
  free_slots w = 0%nat ->
  0 <= slot_index < 4 ->
  exists w1 w2,
    remove_image_from_slot slot_index w = Return w1
    /\ add_image_to_next_available_slot p w1 = Return (true, w2)
    /\ image_paths w2 = <[Z.to_nat slot_index := Some p]> (image_paths w)
    /\ get_image_count w2 = 4%nat.
Proof.
  intros Hlen Hfree Hi.
  rewrite remove_image_in_range by done. eexists _, _. split; [done|].
  apply free_slots_zero_find, list_find_None in Hfree.
  rewrite add_image_by_first_empty
    by (by rewrite image_paths_update_info; simpl; rewrite length_insert).
  rewrite image_paths_update_info. simpl image_paths at 1.
  rewrite find_empty_after_remove.
  - split; [done|]. rewrite image_paths_update_info. simpl.
    rewrite list_insert_insert_eq. split; [done|].
    unfold get_image_count, get_active_image_paths.
    rewrite image_paths_update_info. simpl.
    assert (Hall : forall l' : list (option string),
               Forall (fun slot => slot <> None) l' ->
               length (omap id l') = length l').
    { induction 1 as [|[q|] l' Hq _ IH]; simpl; [done| |done].
      by f_equal. }
    rewrite Hall; [by rewrite length_insert|].
    apply Forall_insert; done.
  - lia.
  - intros j Hj Hnone. rewrite Forall_forall in Hfree.
    apply (Hfree None); [|done]. by eapply list_elem_of_lookup_2.
Qed.

End SlotTheorems.

Section IntakeTheorems.

Context (validate_image_path : string -> bool) (name_of : string -> string)
  (path_exists : string -> bool).

Implicit Types (w : BananaEditor) (l : list (option string)) (p : string).

Lemma add_image_full p w :
  length (image_paths w) = 4%nat ->
  free_slots w = 0%nat ->
  add_image_to_next_available_slot p w = Return (false, w).
Proof.
  intros Hlen Hfree.
  destruct (add_image_step p w Hlen) as [[_ ->]|(w1 & _ & _ & ? & _)];
    [done|lia].
Qed.

Lemma drop_loop_nothing paths a sk w :
  length (image_paths w) = 4%nat ->
  (length paths `min` free_slots w)%nat = 0%nat ->
  (drop_loop name_of paths a sk w).2 = w.
Proof.
  intros Hlen. revert a sk.
  induction paths as [|p paths IH]; intros a sk Hnone; simpl; [done|].
  rewrite add_image_full; [apply IH| |]; cbn [length] in *; lia.
Qed.

Lemma select_image_loop_nothing paths a sk w :
  length (image_paths w) = 4%nat ->
  (length (filter (fun p => validate_image_path p = true) paths)
   `min` free_slots w)%nat = 0%nat ->
  (select_image_loop validate_image_path name_of paths a sk w).2 = w.
Proof.
  intros Hlen. revert a sk.
  induction paths as [|p paths IH]; intros a sk Hnone; simpl; [done|].
  rewrite filter_cons in Hnone.
  destruct (validate_image_path p) eqn:Hvalid.
  - rewrite decide_True in Hnone by done.
    rewrite add_image_full; [apply IH| |]; cbn [length] in *; lia.
  - rewrite decide_False in Hnone by done. by apply IH.
Qed.

Lemma clear_slots_four w :
  length (image_paths w) = 4%nat ->
  clear_slots (seq 0 4) w = (None, set_image_paths (replicate 4 None) w).
Proof.
  destruct w as [l ? ? ? ? ? ? ? ? ? ? ?]. simpl. intros Hlen.
  do 4 (destruct l as [|? l]; [done|]). by destruct l.
Qed.

(** X4. [select_image] on four slots raises nothing. Of the chosen files
    it takes those that [validate_image_path] passes, in their order, as
    many as there are empty slots: the images in the slots afterwards are
    the former ones and these. It shows no message only when no file was
    chosen; when nothing could be added it reports that, and when only a
    part could be added it reports how many of how many. *)
Theorem select_image_fills_free_slots file_paths w :
  length (image_paths w) = 4%nat ->
  exists msg w',
    select_image validate_image_path name_of file_paths w = (Return msg, w')
    /\ length (image_paths w') = 4%nat
    /\ get_active_image_paths w'
       ≡ₚ get_active_image_paths w
          ++ take (free_slots w)
               (filter (fun p => validate_image_path p = true) file_paths)
    /\ (msg = None <-> file_paths = [])
    /\ (file_paths <> [] ->
        get_image_count w' = get_image_count w ->
        msg = Some UnsafeOrNoSlot /\ w' = w)
    /\ ((get_image_count w < get_image_count w')%nat ->
        (get_image_count w' < get_image_count w + length file_paths)%nat ->
        msg = Some (AddedSome (get_image_count w' - get_image_count w)
                      (length file_paths))).
Proof.
  intros Hlen. unfold select_image.
  destruct file_paths as [|first rest].
  { exists None, w. rewrite filter_nil, take_nil, app_nil_r.
    repeat split; try done; simpl; lia. }
  set (file_paths := first :: rest).
  destruct (select_image_loop_run validate_image_path name_of
              file_paths 0 [] w Hlen)
    as (sk & w' & Hrun & Hlen' & Hfree & Hact & Hsk & _).
  pose proof (select_image_loop_nothing file_paths 0 [] w Hlen) as Hfull.
  rewrite Hrun in *. simpl in Hfull, Hsk.
  set (n := (length (filter (fun p => validate_image_path p = true)
                       file_paths) `min` free_slots w)%nat) in *.
  assert (Hcount : get_image_count w' = (get_image_count w + n)%nat).
  { unfold get_image_count. rewrite Hact, length_app, length_take.
    subst n. by rewrite Nat.min_comm. }
  assert (Hn : (n <= length file_paths)%nat).
  { subst n. pose proof (length_filter
      (fun p => validate_image_path p = true) file_paths). lia. }
  assert (Hfp : length file_paths = S (length rest)) by done.
  simpl "+"%nat.
  destruct (n =? 0)%nat eqn:Hn0.
  - apply Nat.eqb_eq in Hn0. destruct sk as [|q sk].
    { simpl in Hsk. subst file_paths. simpl in *. lia. }
    exists (Some UnsafeOrNoSlot), w'.
    repeat split; try done; intros; try lia. by apply Hfull.
  - apply Nat.eqb_neq in Hn0.
    destruct (n =? length file_paths)%nat eqn:Hall.
    + apply Nat.eqb_eq in Hall. destruct (n =? 1)%nat;
        eexists _, w'; (split; [done|]);
        repeat split; try done; intros; lia.
    + apply Nat.eqb_neq in Hall.
      eexists _, w'. split; [done|].
      repeat split; try done; intros; try lia. do 2 f_equal. lia.
Qed.

(** X5. [dropEvent] on four slots takes, of the dropped files, those that
    [is_image_file] and [validate_image_path] both pass, in their order,
    as many as there are empty slots; no other file reaches a slot. The
    event is accepted exactly when some dropped file passes, also when no
    slot was empty and nothing was added, which is then reported. *)
Theorem dropEvent_takes_image_files_only urls w :
  length (image_paths w) = 4%nat ->
  exists accepted msg w',
    dropEvent validate_image_path name_of urls w = (accepted, msg, w')
    /\ length (image_paths w') = 4%nat
    /\ get_active_image_paths w'
       ≡ₚ get_active_image_paths w
          ++ take (free_slots w)
               (filter (fun f => is_image_file name_of f
                                 && validate_image_path f = true) urls)
    /\ (accepted = true <->
        filter (fun f => is_image_file name_of f
                         && validate_image_path f = true) urls <> [])
    /\ (accepted = true -> free_slots w = 0%nat ->
        msg = Some NoFreeSlot /\ w' = w).
Proof.
  intros Hlen. unfold dropEvent.
  destruct urls as [|url urls'].
  { exists false, None, w. rewrite filter_nil, take_nil, app_nil_r.
    by repeat split. }
  set (urls := url :: urls').
  destruct (filter _ urls) as [|first rest] eqn:Hok.
  { exists false, (Some NothingUsable), w. rewrite take_nil, app_nil_r.
    by repeat split. }
  set (ok := first :: rest) in *.
  destruct (drop_loop_run name_of ok 0 [] w Hlen)
    as (sk & w' & Hrun & Hlen' & Hfree & Hact & Hsk & _).
  pose proof (drop_loop_nothing ok 0 [] w Hlen) as Hfull.
  rewrite Hrun in *. simpl in Hfull. simpl "+"%nat.
  eexists true, _, w'. do 4 (split; [done|]). intros _ Hnone. split.
  - by rewrite Hnone.
  - apply Hfull. by rewrite Hnone.
Qed.

(** X6. [paste_from_clipboard] on four slots, the clipboard holding an
    image or, without one, a first URL that [is_image_file] passes: with
    an empty slot the image is added as by
    [add_image_to_next_available_slot]; with none the image replaces the
    one of slot 1 (index 0), which is lost, the other three slots keep
    theirs and [selected_image_path] is the pasted image. *)
Theorem paste_from_clipboard_replaces_first_when_full (c : clipboard) p w :
  length (image_paths w) = 4%nat ->
  pixmap_file c = Some p
  \/ (pixmap_file c = None /\ first_url c = Some p
      /\ is_image_file name_of p = true) ->
  exists msg w',
    paste_from_clipboard name_of c w = (msg, w')
    /\ length (image_paths w') = 4%nat
    /\ selected_image_path w' = head (get_active_image_paths w')
    /\ ((0 < free_slots w)%nat ->
        msg = PastedNext
        /\ add_image_to_next_available_slot p w = Return (true, w'))
    /\ (free_slots w = 0%nat ->
        msg = PastedReplaced
        /\ image_paths w' = <[0%nat := Some p]> (image_paths w)
        /\ selected_image_path w' = Some p
        /\ get_image_count w' = 4%nat).
Proof.
  intros Hlen Hclip.
  assert (paste_from_clipboard name_of c w = paste_path p w) as ->.
  { unfold paste_from_clipboard.
    destruct Hclip as [->|(-> & -> & ->)]; done. }
  unfold paste_path.
  destruct (add_image_step p w Hlen)
    as [[Hfree ->]|(w1 & -> & Hlen1 & Hfree & Hact & Hsel)].
  - rewrite assign_slot_in_range by lia. eexists _, _. split; [done|].
    rewrite selected_update_info, image_paths_update_info. simpl.
    rewrite length_insert. split; [done|]. split; [done|].
    split; [lia|]. intros _.
    unfold get_image_count, get_active_image_paths.
    rewrite image_paths_update_info. simpl.
    apply free_slots_zero_find, list_find_None in Hfree.
    destruct (image_paths w) as [|slot l]; [done|]. simpl.
    apply Forall_cons in Hfree as [_ Hfree].
    repeat split; try done. f_equal.
    assert (Hall : forall l' : list (option string),
               Forall (fun slot => slot <> None) l' ->
               length (omap id l') = length l').
    { induction 1 as [|[q|] l' Hq _ IH]; simpl; [done| |done].
      by f_equal. }
    rewrite Hall by done. simpl in Hlen. lia.
  - exists PastedNext, w1. repeat split; try done; lia.
Qed.

(** X7. [clear_all_slots_on_startup] empties the four slots and leaves
    [selected_image_path], which it does not recompute, as it was. *)
Theorem clear_all_slots_on_startup_keeps_selected w :
  length (image_paths w) = 4%nat ->
  image_paths (clear_all_slots_on_startup w) = [None; None; None; None]
  /\ get_image_count (clear_all_slots_on_startup w) = 0%nat
  /\ selected_image_path (clear_all_slots_on_startup w)
     = selected_image_path w.
Proof.
  intros Hlen. unfold clear_all_slots_on_startup.
  by rewrite clear_slots_four.
Qed.

(** X8. [preload_image] on four slots either loads the image, which it
    reports, or leaves the editor as it was, also when asked to clear the
    slots first. It loads only a path that [validate_image_path] and
    [is_image_file] pass and that exists. With [clear_existing] the loaded
    image is alone, in slot 1; without, it joins the images present, among
    which it was not: slots without a repeated image stay so. *)
Theorem preload_image_loads_or_keeps p (clear_existing : bool) w :
  length (image_paths w) = 4%nat ->
  exists msg w',
    preload_image validate_image_path name_of path_exists p clear_existing w
    = (msg, w')
    /\ length (image_paths w') = 4%nat
    /\ (msg <> PreloadDone -> w' = w)
    /\ (msg = PreloadDone ->
        validate_image_path p = true /\ path_exists p = true
        /\ is_image_file name_of p = true
        /\ selected_image_path w' = head (get_active_image_paths w')
        /\ if clear_existing
           then image_paths w' = [Some p; None; None; None]
           else ((p ∉ get_active_image_paths w)
                 /\ get_active_image_paths w'
                    ≡ₚ p :: get_active_image_paths w))
    /\ (NoDup (get_active_image_paths w) ->
        NoDup (get_active_image_paths w')).
Proof.
  intros Hlen. unfold preload_image.
  destruct (validate_image_path p) eqn:Hvalid; cbn [negb andb];
    [|by exists PreloadUnsafe, w].
  destruct (PyStr.truthy (Some p)) eqn:Htruthy; cbn [negb andb];
    [|by exists PreloadInvalid, w].
  destruct (path_exists p) eqn:Hexists; cbn [negb andb];
    [|by exists PreloadInvalid, w].
  destruct (is_image_file name_of p) eqn:Himage; cbn [negb andb];
    [|by exists PreloadInvalid, w].
  destruct clear_existing.
  - rewrite clear_slots_four by done.
    rewrite bool_decide_false
      by (simpl; rewrite !not_elem_of_cons; split_and!; try done;
          apply not_elem_of_nil).
    eexists _, _. split; [done|]. simpl.
    repeat split; try done. intros _. apply NoDup_singleton.
  - case_bool_decide as Hdup; [by exists PreloadDuplicate, w|].
    destruct (add_image_step p w Hlen)
      as [[Hfree ->]|(w1 & -> & Hlen1 & Hfree & Hact & Hsel)];
      [by exists PreloadSlotsFull, w|].
    assert (Hnew : p ∉ get_active_image_paths w).
    { intros Hin. apply Hdup. unfold get_active_image_paths in Hin.
      apply list_elem_of_omap in Hin as (slot & Hin & Hslot).
      simpl in Hslot. by subst slot. }
    exists PreloadDone, w1. repeat split; try done.
    intros Hnodup. rewrite Hact. by apply NoDup_cons.
Qed.

End IntakeTheorems.

Lemma select_image_fills_free_slots_witness :
  length (image_paths (init ∅)) = 4%nat
  /\ exists msg w',
       select_image (fun _ => true) (fun p => p) ["e.png"; "f.png"] (init ∅)
       = (Return msg, w')
       /\ get_active_image_paths w' ≡ₚ ["e.png"; "f.png"].
Proof.
  split; [reflexivity|].
  destruct (select_image_fills_free_slots (fun _ => true) (fun p => p)
              ["e.png"; "f.png"] (init ∅) eq_refl)
    as (msg & w' & Hrun & _ & Hact & _).
  by exists msg, w'.
Defined.

Lemma dropEvent_takes_image_files_only_witness :
  length (image_paths (init ∅)) = 4%nat
  /\ exists accepted msg w',
       dropEvent (fun _ => true) (fun p => p) ["notes.txt"; "a.png"] (init ∅)
       = (accepted, msg, w')
       /\ get_active_image_paths w' ≡ₚ ["a.png"].
Proof.
  split; [reflexivity|].
  destruct (dropEvent_takes_image_files_only (fun _ => true) (fun p => p)
              ["notes.txt"; "a.png"] (init ∅) eq_refl)
    as (accepted & msg & w' & Hrun & _ & Hact & _).
  by exists accepted, msg, w'.
Defined.

Lemma paste_from_clipboard_replaces_first_when_full_witness :
  length (image_paths four_slots) = 4%nat
  /\ exists w',
       paste_from_clipboard (fun p => p) (Clipboard (Some "tmp.png") None)
         four_slots = (PastedReplaced, w')
       /\ image_paths w'
          = [Some "tmp.png"; Some "b.png"; Some "c.png"; Some "d.png"].
Proof.
  split; [reflexivity|].
  destruct (paste_from_clipboard_replaces_first_when_full (fun p => p)
              (Clipboard (Some "tmp.png") None) "tmp.png" four_slots
              eq_refl (or_introl eq_refl))
    as (msg & w' & Hrun & _ & _ & _ & Hfull).
  destruct (Hfull eq_refl) as (-> & Hpaths & _). by exists w'.
Defined.

Lemma clear_all_slots_on_startup_keeps_selected_witness :
  length (image_paths four_slots) = 4%nat
  /\ get_image_count (clear_all_slots_on_startup four_slots) = 0%nat.
Proof.
  split; [reflexivity|].
  apply (clear_all_slots_on_startup_keeps_selected four_slots eq_refl).
Defined.

Lemma preload_image_loads_or_keeps_witness :
  length (image_paths four_slots) = 4%nat
  /\ exists msg w',
       preload_image (fun _ => true) (fun p => p) (fun _ => true)
         "e.png" true four_slots = (msg, w')
       /\ length (image_paths w') = 4%nat.
Proof.
  split; [reflexivity|].
  destruct (preload_image_loads_or_keeps (fun _ => true) (fun p => p)
              (fun _ => true) "e.png" true four_slots eq_refl)
    as (msg & w' & Hrun & Hlen & _).
  by exists msg, w'.
Defined.

Lemma add_image_refuses_only_when_full_witness :
  length (image_paths four_slots) = 4%nat
  /\ exists added w',
       add_image_to_next_available_slot "e.png" four_slots
       = Return (added, w')
       /\ (added = false <-> free_slots four_slots = 0%nat).
Proof.
  split; [reflexivity|].
  destruct (add_image_refuses_only_when_full "e.png" four_slots eq_refl)
    as (added & w' & Hrun & _ & Hfull & _).
  by exists added, w'.
Defined.

Lemma remove_image_from_slot_empties_one_witness :
  length (image_paths four_slots) = 4%nat
  /\ exists w',
       remove_image_from_slot 7 four_slots = Return w'
       /\ (~ 0 <= 7 < 4 -> w' = four_slots).
Proof.
  split; [reflexivity|].
  destruct (remove_image_from_slot_empties_one 7 four_slots eq_refl)
    as (w' & Hrun & _ & Hout & _).
  by exists w'.
Defined.

Lemma add_after_remove_reuses_slot_witness :
  (length (image_paths four_slots) = 4%nat
   /\ free_slots four_slots = 0%nat /\ 0 <= 2 < 4)
  /\ exists w1 w2,
       remove_image_from_slot 2 four_slots = Return w1
       /\ add_image_to_next_available_slot "e.png" w1 = Return (true, w2)
       /\ image_paths w2
          = <[Z.to_nat 2 := Some "e.png"]> (image_paths four_slots)
       /\ get_image_count w2 = 4%nat.
Proof.
  split; [split_and!; [reflexivity|reflexivity|lia|lia]|].
  apply (add_after_remove_reuses_slot 2 "e.png" four_slots);
    [reflexivity|reflexivity|lia].
Defined.

Section HistoryFacts.

Import History.

Implicit Types (m : BananaHistoryManager) (s : list N).

Lemma lstrip_head s c r :
  lstrip s = c :: r -> isspace c = false.
Proof.
  induction s as [|d s IH]; simpl; [done|].
  destruct (isspace d) eqn:Hd; [done|]. by intros [= <- _].
Qed.

Lemma rstrip_head c r :
  isspace c = false -> exists r', rstrip (c :: r) = c :: r'.
Proof.
  intros Hc. simpl. destruct (rstrip r); rewrite ?Hc; eauto.
Qed.

Lemma rstrip_idemp s : rstrip (rstrip s) = rstrip s.
Proof.
  induction s as [|c s IH]; simpl; [done|].
  destruct (rstrip s) as [|d r'] eqn:Hs.
  - destruct (isspace c) eqn:Hc; simpl; [done|]. by rewrite Hc.
  - change (rstrip (c :: d :: r')) with
      (match rstrip (d :: r') with
       | [] => if isspace c then [] else [c]
       | r'' => c :: r''
       end).
    by rewrite IH.
Qed.

Lemma strip_idemp s : strip (strip s) = strip s.
Proof.
  unfold strip. destruct (lstrip s) as [|c r] eqn:Hs; [done|].
  apply lstrip_head in Hs.
  destruct (rstrip_head c r Hs) as [r' Hr]. rewrite Hr.
  simpl lstrip. rewrite Hs, <- Hr. apply rstrip_idemp.
Qed.

Lemma add_prompt_refused text_ now saved_at m :
  strip text_ = []
  \/ (exists newest,
        last (items m) = Some newest /\ strip (text newest) = strip text_) ->
  add_prompt text_ now saved_at m = (false, m).
Proof.
  unfold add_prompt. intros [->|(newest & -> & Hsame)]; [done|].
  rewrite bool_decide_true by done. by destruct (strip text_).
Qed.

Lemma add_prompt_accepted text_ now saved_at m :
  strip text_ <> [] ->
  (forall newest,
      last (items m) = Some newest -> strip (text newest) <> strip text_) ->
  add_prompt text_ now saved_at m
  = (true,
     save saved_at
       (set_items
          (if (max_items m <? length (items m ++ [Item (strip text_) now]))%nat
           then drop 1 (items m ++ [Item (strip text_) now])
           else items m ++ [Item (strip text_) now]) m)).
Proof.
  unfold add_prompt. intros Hblank Hnew.
  destruct (strip text_) as [|c r] eqn:Htext; [done|].
  destruct (last (items m)) as [newest|] eqn:Hlast.
  - rewrite bool_decide_false by by apply Hnew.
    unfold make_item. by rewrite Htext.
  - unfold make_item. by rewrite Htext.
Qed.

Lemma add_prompt_cases text_ m :
  {strip text_ = []
   \/ (exists newest,
         last (items m) = Some newest
         /\ strip (text newest) = strip text_)}
  + {strip text_ <> []
     /\ forall newest,
          last (items m) = Some newest ->
          strip (text newest) <> strip text_}.
Proof.
  destruct (decide (strip text_ = [])) as [?|Hblank]; [left; by left|].
  destruct (last (items m)) as [newest|]; [|right; by split].
  destruct (decide (strip (text newest) = strip text_)) as [?|Hne].
  - left. right. by exists newest.
  - right. split; [done|]. by intros ? [= <-].
Qed.

End HistoryFacts.

(** X9. [add_prompt] refuses a text that is blank, or that is, leading
    and trailing spaces apart, the text of the newest entry; it then
    leaves the entries and the file as they are. Any other text is
    accepted: its stripped form becomes the newest entry, the oldest entry
    is dropped when the entries are already [max_items], and the entries
    are written to the file. A history of at most [max_items] entries
    stays so. *)
Theorem add_prompt_appends_newest
    (text_ : list N) (now saved_at : Z) (m : History.BananaHistoryManager) :
  (0 < History.max_items m)%nat ->
  let refused :=
    History.strip text_ = []
    \/ (exists newest,
          last (History.items m) = Some newest
          /\ History.strip (History.text newest) = History.strip text_) in
  let added := History.Item (History.strip text_) now in
  (refused -> History.add_prompt text_ now saved_at m = (false, m))
  /\ (~ refused ->
      exists m',
        History.add_prompt text_ now saved_at m = (true, m')
        /\ History.items m'
           = (if (length (History.items m) <? History.max_items m)%nat
              then History.items m ++ [added]
              else drop 1 (History.items m) ++ [added])
        /\ History.history_file m'
           = Some (History.Json (History.to_dict <$> History.items m')
                     saved_at)
        /\ History.max_items m' = History.max_items m
        /\ ((length (History.items m) <= History.max_items m)%nat ->
            (length (History.items m') <= History.max_items m)%nat)).
Proof.
  intros Hmax refused added. split; [apply add_prompt_refused|].
  intros Hok.
  destruct (add_prompt_cases text_ m) as [?|[Hblank Hnew]];
    [done|].
  rewrite add_prompt_accepted by done. fold added.
  eexists. split; [done|]. simpl.
  rewrite length_app, Nat.add_1_r.
  destruct (Nat.ltb_spec (length (History.items m)) (History.max_items m))
    as [Hlt|Hge].
  - rewrite (proj2 (Nat.ltb_ge _ _)) by lia.
    repeat split; try done. rewrite length_app. simpl. lia.
  - rewrite (proj2 (Nat.ltb_lt _ _)) by lia.
    destruct (History.items m) as [|h l]; [simpl in *; lia|].
    simpl. rewrite drop_0.
    repeat split; try done. rewrite length_app. simpl in *. lia.
Qed.

(** X11. [remove_item] looks for the first entry that has both the text
    and the time stamp of the given one. Without such an entry it
    returns [False] and changes nothing; with one it deletes that entry
    alone, later entries of the same text and time stamp included being
    kept, and writes the file. *)
Theorem remove_item_deletes_first_match
    (item : History.BananaHistoryItem) (saved_at : Z)
    (m : History.BananaHistoryManager) :
  let same (h : History.BananaHistoryItem) :=
    History.text h = History.text item
    /\ History.timestamp h = History.timestamp item in
  (Forall (fun h => ~ same h) (History.items m) ->
   History.remove_item item saved_at m = (false, m))
  /\ (forall l1 h l2,
        History.items m = l1 ++ h :: l2 ->
        Forall (fun h' => ~ same h') l1 ->
        same h ->
        History.remove_item item saved_at m
        = (true, History.save saved_at (History.set_items (l1 ++ l2) m))).
Proof.
  intros same.
  assert (Hskip : forall l1 l,
             Forall (fun h' => ~ same h') l1 ->
             History.delete_first item (l1 ++ l)
             = (fun r => l1 ++ r) <$> History.delete_first item l).
  { intros l1 l Hl1. induction Hl1 as [|h' l1 Hh' _ IH]; simpl.
    - by destruct (History.delete_first item l).
    - rewrite IH.
      destruct (bool_decide (History.text h' = History.text item)
                && bool_decide
                     (History.timestamp h' = History.timestamp item))
        eqn:Hsame.
      + apply andb_true_iff in Hsame as [?%bool_decide_eq_true
                                           ?%bool_decide_eq_true].
        by destruct Hh'.
      + by destruct (History.delete_first item l). }
  split.
  - intros Hnone. unfold History.remove_item.
    rewrite <- (app_nil_r (History.items m)), Hskip by done. done.
  - intros l1 h l2 Hitems Hl1 [Htext Hstamp]. unfold History.remove_item.
    rewrite Hitems, Hskip by done. simpl.
    by rewrite !bool_decide_true by done.
Qed.

(** X12. The panel shows the first twelve entries, the oldest ones. A
    prompt added to fewer than twelve entries appears last in the panel;
    one added to twelve or more entries, the history not being full, is
    stored but not shown: the panel stays as it was. *)
Theorem added_prompt_shown_only_among_first_twelve
    (text_ : list N) (now saved_at : Z)
    (m m' : History.BananaHistoryManager) :
  History.add_prompt text_ now saved_at m = (true, m') ->
  (length (History.items m) < History.max_items m)%nat ->
  ((length (History.items m) < 12)%nat ->
   History.display_items m'
   = History.display_items m ++ [History.Item (History.strip text_) now])
  /\ ((12 <= length (History.items m))%nat ->
      History.display_items m' = History.display_items m
      /\ last (History.items m')
         = Some (History.Item (History.strip text_) now)).
Proof.
  intros Hadd Hroom.
  destruct (add_prompt_cases text_ m) as [Href|[Hblank Hnew]].
  { by rewrite add_prompt_refused in Hadd. }
  rewrite add_prompt_accepted in Hadd by done. injection Hadd as <-.
  unfold History.display_items. simpl.
  rewrite (proj2 (Nat.ltb_ge _ _)) by (rewrite length_app; simpl; lia).
  split.
  - intros Hfew. by rewrite !take_ge by (rewrite ?length_app; simpl; lia).
  - intros Hmany. rewrite take_app_le by lia. by rewrite last_snoc.
Qed.

(** X13. [add_current_prompt_to_history] strips the text of the prompt
    box and passes it on only when more than 10 characters are left;
    otherwise it reports the text as too short. It reports a duplicate
    exactly when the stripped text, long enough, is the text of the
    newest entry, spaces at both ends apart; and whenever it does not
    report an addition the history is as it was. *)
Theorem add_current_prompt_needs_eleven_characters
    (plain_text : list N) (now saved_at : Z)
    (m : History.BananaHistoryManager) :
  exists msg m',
    History.add_current_prompt_to_history plain_text now saved_at m
    = (msg, m')
    /\ (msg = History.HistoryTooShort <->
        (length (History.strip plain_text) <= 10)%nat)
    /\ (msg = History.HistoryDuplicate <->
        (10 < length (History.strip plain_text))%nat
        /\ exists newest,
             last (History.items m) = Some newest
             /\ History.strip (History.text newest)
                = History.strip plain_text)
    /\ (msg <> History.HistoryAdded -> m' = m)
    /\ (msg = History.HistoryAdded ->
        History.add_prompt plain_text now saved_at m = (true, m')).
Proof.
  unfold History.add_current_prompt_to_history. cbv zeta.
  destruct (10 <? length (History.strip plain_text))%nat eqn:Hlong.
  - apply Nat.ltb_lt in Hlong.
    assert (Hsame : History.add_prompt (History.strip plain_text) now
                      saved_at m
                    = History.add_prompt plain_text now saved_at m).
    { unfold History.add_prompt, History.make_item.
      by rewrite strip_idemp. }
    rewrite Hsame.
    destruct (add_prompt_cases plain_text m)
      as [Href|[Hblank Hnew]].
    + rewrite add_prompt_refused by done.
      exists History.HistoryDuplicate, m.
      repeat split; try done; try lia.
      destruct Href as [Hnil|Hnewest]; [|done].
      rewrite Hnil in Hlong. simpl in Hlong. lia.
    + rewrite add_prompt_accepted by done.
      eexists History.HistoryAdded, _. split; [done|].
      repeat split; try done; try lia.
      intros (_ & newest & Hlast & Heq). by destruct (Hnew newest).
  - apply Nat.ltb_ge in Hlong. exists History.HistoryTooShort, m.
    repeat split; try done; lia.
Qed.

Lemma add_prompt_appends_newest_witness :
  (0 < History.max_items (History.init None))%nat
  /\ exists m',
       History.add_prompt [104; 105]%N 1 2 (History.init None) = (true, m')
       /\ History.items m' = [History.Item [104; 105]%N 1].
Proof.
  split; [vm_compute; lia|].
  destruct (add_prompt_appends_newest [104; 105]%N 1 2 (History.init None))
    as [_ Hadd]; [vm_compute; lia|].
  destruct Hadd as (m' & Hrun & Hitems & _).
  - intros [Hblank|(newest & Hlast & _)]; [|done]. vm_compute in Hblank.
    discriminate.
  - exists m'. split; [exact Hrun|exact Hitems].
Defined.

Lemma remove_item_deletes_first_match_witness :
  let kept := History.Item [98]%N 5 in
  let gone := History.Item [97]%N 1 in
  let other := History.Item [99]%N 7 in
  History.remove_item gone 9
    (History.set_items [kept; gone; other; gone] (History.init None))
  = (true,
     History.save 9
       (History.set_items [kept; other; gone] (History.init None)))
  /\ History.remove_item gone 9
       (History.set_items [kept; other] (History.init None))
     = (false, History.set_items [kept; other] (History.init None)).
Proof.
  cbv zeta. split.
  - destruct (remove_item_deletes_first_match (History.Item [97]%N 1) 9
                (History.set_items
                   [History.Item [98]%N 5; History.Item [97]%N 1;
                    History.Item [99]%N 7; History.Item [97]%N 1]
                   (History.init None))) as [_ Hdeleted].
    apply (Hdeleted [History.Item [98]%N 5] (History.Item [97]%N 1)
             [History.Item [99]%N 7; History.Item [97]%N 1]).
    + reflexivity.
    + apply Forall_singleton. intros [Htext _]. discriminate Htext.
    + split; reflexivity.
  - destruct (remove_item_deletes_first_match (History.Item [97]%N 1) 9
                (History.set_items
                   [History.Item [98]%N 5; History.Item [99]%N 7]
                   (History.init None))) as [Hnone _].
    apply Hnone.
    apply Forall_cons. split; [intros [Htext _]; discriminate Htext|].
    apply Forall_singleton. intros [Htext _]. discriminate Htext.
Defined.

Lemma added_prompt_shown_only_among_first_twelve_witness :
  History.display_items
    (History.add_prompt [104; 105]%N 1 2 (History.init None)).2
  = [History.Item [104; 105]%N 1].
Proof.
  apply (added_prompt_shown_only_among_first_twelve [104; 105]%N 1 2
           (History.init None)).
  - reflexivity.
  - vm_compute. lia.
  - vm_compute. lia.
Defined.

Lemma add_current_prompt_needs_eleven_characters_witness :
  exists msg m',
    History.add_current_prompt_to_history [32; 104; 105; 32]%N 1 2
      (History.init None) = (msg, m')
    /\ (msg = History.HistoryTooShort <->
        (length (History.strip [32; 104; 105; 32]%N) <= 10)%nat).
Proof.
  destruct (add_current_prompt_needs_eleven_characters
              [32; 104; 105; 32]%N 1 2 (History.init None))
    as (msg & m' & Hrun & Hshort & _).
  by exists msg, m'.
Defined.

Section ViewerFacts.

Import Viewer.

Implicit Types (v : FloatingImageViewer).

Lemma getitem_in_range {A : Type} (l : list A) (i : Z) :
  0 <= i < Z.of_nat (length l) ->
  exists x, l !! Z.to_nat i = Some x /\ getitem l i = Return x.
Proof.
  intros Hi. unfold getitem.
  replace (i <? 0) with false by (symmetry; apply Z.ltb_ge; lia).
  replace ((0 <=? i) && (i <? Z.of_nat (length l))) with true
    by (symmetry; apply andb_true_iff; lia).
  destruct (lookup_lt_is_Some_2 l (Z.to_nat i)) as [x Hx]; [lia|].
  exists x. by rewrite Hx.
Qed.

Lemma prev_image_step v : prev_image v = step (-1) v.
Proof. done. Qed.

Lemma next_image_step v : next_image v = step 1 v.
Proof. done. Qed.

Lemma step_consistent (delta : Z) v :
  consistent v ->
  exists p,
    image_paths v
    !! Z.to_nat ((current_index v + delta)
                 `mod` Z.of_nat (length (image_paths v))) = Some p
    /\ step delta v
       = Return (Viewer (image_paths v)
                   ((current_index v + delta)
                    `mod` Z.of_nat (length (image_paths v))) p).
Proof.
  intros [Hrange Hpath]. unfold step.
  set (n := Z.of_nat (length (image_paths v))) in *.
  assert (Hn : 0 < n) by lia.
  pose proof (Z.mod_pos_bound (current_index v + delta) n Hn) as Hmod.
  destruct (getitem_in_range (image_paths v) _ Hmod) as (p & Hp & Hget).
  exists p. split; [done|].
  destruct (Nat.leb_spec (length (image_paths v)) 1) as [Hone|Hmany].
  - assert (n = 1) as Hn1 by lia. rewrite Hn1 in *.
    rewrite Z.mod_1_r in *.
    assert (current_index v = 0) as Hci by lia. rewrite Hci in *.
    destruct v as [ps ci q]. simpl in *. subst ci. congruence.
  - cbv zeta. by rewrite Hget.
Qed.

Lemma step_back (delta : Z) v :
  consistent v ->
  exists v1, step delta v = Return v1 /\ step (- delta) v1 = Return v.
Proof.
  intros Hv.
  assert (Hn : 0 < Z.of_nat (length (image_paths v)))
    by (destruct Hv; lia).
  destruct (step_consistent delta v Hv) as (p & Hp & Hrun).
  eexists. split; [exact Hrun|].
  match goal with
  | |- step _ ?v1 = _ => assert (Hv1 : consistent v1)
  end.
  { split; simpl; [by apply Z.mod_pos_bound|done]. }
  destruct (step_consistent (- delta) _ Hv1) as (q & Hq & Hrun1).
  rewrite Hrun1. simpl in *.
  rewrite Z.add_mod_idemp_l in * by lia.
  replace (current_index v + delta + - delta)
    with (current_index v) in * by lia.
  destruct Hv as [Hrange Hpath].
  rewrite Z.mod_small in * by done.
  destruct v as [ps ci r]. simpl in *. congruence.
Qed.

End ViewerFacts.


(** X15. In such a state [next_image] undoes [prev_image] and
    [prev_image] undoes [next_image]: each brings back the index and the
    path shown before. *)
Theorem next_image_undoes_prev_image (v : Viewer.FloatingImageViewer) :
  Viewer.consistent v ->
  (exists v1,
      Viewer.prev_image v = Return v1 /\ Viewer.next_image v1 = Return v)
  /\ (exists v1,
        Viewer.next_image v = Return v1 /\ Viewer.prev_image v1 = Return v).
Proof.
  intros Hv.
  rewrite !prev_image_step, !next_image_step. split.
  - destruct (step_back (-1) v Hv) as (v1 & Hprev & Hnext).
    exists v1. by rewrite next_image_step.
  - destruct (step_back 1 v Hv) as (v1 & Hnext & Hprev).
    exists v1. by rewrite prev_image_step.
Qed.


Lemma next_image_undoes_prev_image_witness :
  Viewer.consistent (Viewer.Viewer ["a.png"; "b.png"; "c.png"] 0 "a.png")
  /\ exists v1,
       Viewer.prev_image
         (Viewer.Viewer ["a.png"; "b.png"; "c.png"] 0 "a.png") = Return v1
       /\ Viewer.next_image v1
          = Return (Viewer.Viewer ["a.png"; "b.png"; "c.png"] 0 "a.png").
Proof.
  assert (Hv : Viewer.consistent
                 (Viewer.Viewer ["a.png"; "b.png"; "c.png"] 0 "a.png")).
  { split; simpl; [lia|reflexivity]. }
  split; [exact Hv|].
  apply (next_image_undoes_prev_image _ Hv).
Defined.

Section SessionFacts.

Context {picture : Type} (load_picture : string -> option picture).

Implicit Types (w : BananaEditor) (l : list (option string)) (p : string).

Lemma list_index_first x l :
  x ∈ l ->
  exists i : nat,
    list_index x l = Some i /\ l !! i = Some x
    /\ forall j : nat, (j < i)%nat -> l !! j <> Some x.
Proof.
  intros Hin. unfold list_index.
  destruct (list_find_elem_of (fun y => y = x) l x Hin eq_refl)
    as [[i y] Hfind].
  rewrite Hfind. apply list_find_Some in Hfind as (Hi & -> & Hfirst).
  exists i. repeat split; try done. intros j Hj Hx. by eapply Hfirst.
Qed.

Lemma image_refs_by_first_slot w :
  exists refs,
    image_refs w = Some refs
    /\ length refs = length (get_active_image_paths w)
    /\ forall (k j : nat) p,
         occupied_from 0 (image_paths w) !! k = Some (j, p) ->
         exists i : nat,
           (i <= j)%nat
           /\ image_paths w !! i = Some (Some p)
           /\ (forall i' : nat,
                 (i' < i)%nat -> image_paths w !! i' <> Some (Some p))
           /\ refs !! k = Some ("Image " +:+ pretty (S i)).
Proof.
  unfold image_refs.
  destruct (mapM _ (get_active_image_paths w)) as [refs|] eqn:Hrefs.
  - exists refs. split; [done|].
    apply mapM_Some_1 in Hrefs.
    split; [symmetry; by eapply Forall2_length|].
    intros k j p Hk.
    assert (Hp : get_active_image_paths w !! k = Some p).
    { unfold get_active_image_paths.
      rewrite <- (occupied_from_paths 0), list_lookup_fmap, Hk. done. }
    assert (Hj : image_paths w !! j = Some (Some p)).
    { apply list_elem_of_lookup_2, elem_of_occupied_from in Hk as [_ Hj].
      by rewrite Nat.sub_0_r in Hj. }
    destruct (Forall2_lookup_l _ _ _ _ _ Hrefs Hp) as (ref & Href & Hmade).
    destruct (list_index_first (Some p) (image_paths w)) as (i & Hi & Hat & Hfirst).
    { by eapply list_elem_of_lookup_2. }
    rewrite Hi in Hmade. simpl in Hmade. injection Hmade as <-.
    exists i. repeat split; try done.
    destruct (decide (i <= j)%nat) as [|Hgt]; [done|].
    destruct (Hfirst j ltac:(lia) Hj).
  - exfalso. apply eq_None_not_Some in Hrefs. apply Hrefs.
    apply mapM_is_Some, Forall_forall. intros p Hp. simpl.
    unfold get_active_image_paths in Hp.
    apply list_elem_of_omap in Hp as (slot & Hin & Hslot). simpl in Hslot.
    subst slot.
    destruct (list_index_first _ _ Hin) as (i & -> & _). by eexists.
Qed.

Lemma omap_load_picture (ps : list string) :
  omap (fun image_path => Picture <$> load_picture image_path) ps
  = Picture <$> omap load_picture ps.
Proof.
  induction ps as [|p ps IH]; simpl; [done|].
  destruct (load_picture p); simpl; [f_equal|]; exact IH.
Qed.

End SessionFacts.

(** X16. [prepare_session_contents] is never left by the [ValueError] of
    [list.index]. Its result is the prompt followed by the images of the
    occupied slots in the order of the slots, those that cannot be loaded
    being left out. With at most one image in the slots the prompt is
    the text given. With more, the note added to the prompt names, for
    each occupied slot in turn, the number of the first slot that holds
    the same path: the slot's own number when no path is in two slots,
    and a lower one for the second slot of a repeated path. The note and
    its total count the occupied slots, loaded or not. *)
Theorem prepare_session_contents_refers_to_first_slot
    {picture : Type} (load_picture : string -> option picture)
    (prompt_text : string) (w : BananaEditor) :
  exists first refs,
    prepare_session_contents picture load_picture prompt_text w
    = Some (PromptText first
            :: (Picture <$> omap load_picture (get_active_image_paths w)))
    /\ image_refs w = Some refs
    /\ length refs = get_image_count w
    /\ ((get_image_count w <= 1)%nat -> first = prompt_text)
    /\ ((1 < get_image_count w)%nat ->
        first
        = prompt_text +:+ String "010" (String "010" "[Images: ")
          +:+ join ", " refs
          +:+ " (Total: " +:+ pretty (get_image_count w) +:+ " images)]")
    /\ (forall (k j : nat) p,
          occupied_from 0 (image_paths w) !! k = Some (j, p) ->
          exists i : nat,
            (i <= j)%nat
            /\ image_paths w !! i = Some (Some p)
            /\ (forall i' : nat,
                  (i' < i)%nat -> image_paths w !! i' <> Some (Some p))
            /\ refs !! k = Some ("Image " +:+ pretty (S i)))
    /\ (NoDup (get_active_image_paths w) ->
        refs
        = (fun e : nat * string => "Image " +:+ pretty (S e.1))
          <$> occupied_from 0 (image_paths w)).
Proof.
  destruct (image_refs_by_first_slot w) as (refs & Hrefs & Hlen & Hfirst).
  assert (Hown : NoDup (get_active_image_paths w) ->
    refs
    = (fun e : nat * string => "Image " +:+ pretty (S e.1))
      <$> occupied_from 0 (image_paths w)).
  { intros Hnodup.
    assert (Hocc : length (occupied_from 0 (image_paths w)) = length refs).
    { rewrite Hlen. unfold get_active_image_paths.
      by rewrite <- (occupied_from_paths 0), length_fmap. }
    apply list_eq. intros k. rewrite list_lookup_fmap.
    destruct (occupied_from 0 (image_paths w) !! k) as [[j p]|] eqn:Hk.
    - destruct (Hfirst k j p Hk) as (i & Hle & Hi & _ & ->). simpl.
      assert (Hin : (i, p) ∈ occupied_from 0 (image_paths w)).
      { apply elem_of_occupied_from. split; [lia|].
        by rewrite Nat.sub_0_r. }
      apply list_elem_of_lookup_1 in Hin as [k' Hk'].
      assert (Hpaths : forall (n m : nat) q,
                 occupied_from 0 (image_paths w) !! n = Some (m, q) ->
                 get_active_image_paths w !! n = Some q).
      { intros n m q Hn. unfold get_active_image_paths.
        by rewrite <- (occupied_from_paths 0), list_lookup_fmap, Hn. }
      assert (k' = k) as ->.
      { eapply NoDup_lookup; [done|by eapply Hpaths..]. }
      by simplify_eq.
    - simpl. apply lookup_ge_None. apply lookup_ge_None in Hk. lia. }
  unfold prepare_session_contents, get_image_count.
  rewrite Hrefs, omap_load_picture.
  destruct (1 <? length (get_active_image_paths w))%nat eqn:Hmany.
  - apply Nat.ltb_lt in Hmany. eexists _, refs. simpl.
    split; [done|]. repeat split; try done. lia.
  - apply Nat.ltb_ge in Hmany. exists prompt_text, refs. simpl.
    split; [done|]. repeat split; try done. lia.
Qed.

Lemma prepare_session_contents_refers_to_first_slot_witness :
  exists first refs,
    prepare_session_contents bytes (fun _ => None) "make it night"
      (set_image_paths [Some "a.png"; None; Some "a.png"; None] (init ∅))
    = Some [PromptText first]
    /\ image_refs
         (set_image_paths [Some "a.png"; None; Some "a.png"; None] (init ∅))
       = Some refs
    /\ refs !! 1%nat = Some "Image 1".
Proof.
  destruct (prepare_session_contents_refers_to_first_slot
              (picture := bytes) (fun _ => None) "make it night"
              (set_image_paths [Some "a.png"; None; Some "a.png"; None]
                 (init ∅)))
    as (first & refs & Hrun & Hrefs & _ & _ & _ & Hfirst & _).
  exists first, refs. split; [exact Hrun|]. split; [exact Hrefs|].
  destruct (Hfirst 1%nat 2%nat "a.png" eq_refl)
    as (i & _ & _ & Hmin & ->).
  destruct i as [|i]; [done|]. by destruct (Hmin 0%nat ltac:(lia)).
Defined.

Section BatchTheorems.

Context (parent : string -> string) (png_of : bytes -> option bytes)
  (tmp : tempfile) (rgb_png_of : bytes -> option bytes).

Implicit Types (w : BananaEditor) (ds : list (clock * signal)).

(** X17. While fewer deliveries have come than the batch has workers,
    nothing is shown, saved or reported: the images delivered so far are
    held in [batch_results], and the disk, the results shown and the
    batch-level reports are those of before the batch. A batch of which
    one worker never reports keeps the images of the others unsaved. *)
Theorem unfinished_batch_saves_nothing (N : nat) ds w :
  (length ds < N)%nat ->
  let w' := deliver_all parent png_of tmp rgb_png_of ds (start_batch N w) in
  batch_results w' = accumulated ds
  /\ completed_workers w' = length ds
  /\ disk w' = disk w
  /\ current_results w' = current_results w
  /\ results w' = results w
  /\ finalize_count w' = finalize_count w.
Proof.
  intros Hlen w'.
  pose proof (deliver_all_collected parent png_of tmp rgb_png_of ds
                (start_batch N w)
                ltac:(simpl; lia))
    as (Hc & _ & Hb & Hf & Hr & Hd & _ & _ & _ & Hcur).
  fold w' in Hc, Hb, Hf, Hr, Hd, Hcur. unfold finalize_count.
  rewrite Hf. by repeat split.
Qed.

(** X18. The handlers do not ask whether a batch is running. Once a
    batch of [N] workers has been finalized the total is 0, so that one
    more delivery, of images or of an error, reaches the total at once
    and runs the finalize step again, on that delivery alone: the batch
    is then reported a second time, and [results] is what the late
    delivery brought. *)
Theorem delivery_after_batch_finalizes_again
    (N : nat) ds (d : clock * signal) w :
  (1 <= N)%nat -> length ds = N ->
  let w1 := deliver_all parent png_of tmp rgb_png_of ds (start_batch N w) in
  let w2 := deliver parent png_of tmp rgb_png_of d w1 in
  total_workers w1 = 0%nat
  /\ finalize_count w1 = S (finalize_count w)
  /\ finalize_count w2 = S (S (finalize_count w))
  /\ results w2 = payload d
  /\ total_workers w2 = 0%nat.
Proof.
  intros HN Hlen w1 w2.
  destruct (deliver_all_finished parent png_of tmp rgb_png_of N ds w HN Hlen)
    as (now & sg & wc & _ & Hc & Heq).
  apply collected_start_batch in Hc as (_ & _ & _ & Hfr & _).
  pose proof (on_all_batch_workers_complete_run parent png_of tmp
                rgb_png_of now wc)
    as (Hcw1 & Htw1 & Hbr1 & _ & _ & _ & _ & Hfr1).
  cbv zeta in Hfr1. rewrite <- Heq in Hcw1, Htw1, Hbr1, Hfr1.
  fold w1 in Hcw1, Htw1, Hbr1, Hfr1.
  destruct (deliver_counts parent png_of tmp rgb_png_of d w1)
    as (wd & Hd & Hrun).
  fold w2 in Hrun. rewrite Htw1 in Hrun. simpl in Hrun.
  destruct Hd as (_ & _ & Hbd & Hfd & _).
  pose proof (on_all_batch_workers_complete_run parent png_of tmp
                rgb_png_of d.1 wd)
    as (_ & Htw2 & _ & Hr2 & _ & _ & _ & Hfr2).
  cbv zeta in Hfr2. rewrite <- Hrun in Htw2, Hr2, Hfr2.
  unfold finalize_count.
  rewrite Hfr2, Hfd, Hfr1, Hfr, Hr2, Hbd, Hbr1. simpl.
  unfold accumulated. simpl. by rewrite app_nil_r.
Qed.

End BatchTheorems.

Lemma unfinished_batch_saves_nothing_witness :
  (length (take 2 three_deliveries) < 3)%nat
  /\ disk
       (deliver_all example_parent example_png_of
           example_tempfile example_rgb_png_of (take 2 three_deliveries)
          (start_batch 3 (init ∅)))
     = ∅.
Proof.
  split; [vm_compute; lia|].
  apply (unfinished_batch_saves_nothing example_parent example_png_of
                example_tempfile example_rgb_png_of 3
           (take 2 three_deliveries) (init ∅)).
  vm_compute. lia.
Defined.

Lemma delivery_after_batch_finalizes_again_witness :
  ((1 <= 1)%nat /\ length [(noon, Failed "blocked")] = 1%nat)
  /\ finalize_count
       (deliver example_parent example_png_of
           example_tempfile example_rgb_png_of (noon, Failed "late")
          (deliver_all example_parent example_png_of
              example_tempfile example_rgb_png_of
             [(noon, Failed "blocked")] (start_batch 1 (init ∅))))
     = 2%nat.
Proof.
  split; [split; [lia|reflexivity]|].
  apply (delivery_after_batch_finalizes_again example_parent example_png_of
                example_tempfile example_rgb_png_of
           1 [(noon, Failed "blocked")] (noon, Failed "late") (init ∅));
    [lia|reflexivity].
Defined.

Section SaveTheorems.

Context (parent : string -> string) (png_of : bytes -> option bytes).

Implicit Types (w : BananaEditor) (fs : gmap string directory)
  (d : directory).

Lemma elem_of_numbered_files now date_str (n : Z) (pngs : list bytes)
    name f :
  (name, f) ∈ numbered_files now date_str n pngs <->
  exists (j : nat) png,
    pngs !! j = Some png
    /\ name = banana_filename date_str (n + Z.of_nat j)
    /\ f = File (now_time now) png.
Proof.
  rewrite list_elem_of_lookup. split.
  - intros [j Hj]. rewrite numbered_files_lookup in Hj.
    destruct (pngs !! j) as [png|] eqn:Hpng; [|done].
    simpl in Hj. injection Hj as <- <-. by exists j, png.
  - intros (j & png & Hpng & -> & ->). exists j.
    by rewrite numbered_files_lookup, Hpng.
Qed.

(** The numbers of a directory to which a save step without collision
    has added its files. *)
Lemma has_number_after_save now fs save_dir date_str d (start : Z)
    (pngs : list bytes) (n : Z) :
  PyStr.all_chars (PyStr.differs "_") date_str = true ->
  PyStr.all_chars PyStr.is_literal date_str = true ->
  fs !! save_dir = Some d ->
  has_number
    (<[save_dir := d ++ numbered_files now date_str start pngs]> fs)
    save_dir date_str n
  <-> has_number fs save_dir date_str n
      \/ start <= n < start + Z.of_nat (length pngs).
Proof.
  intros Hus Hlit Hd. unfold has_number. split.
  - intros (d' & name & f & Hd' & Hin & Hm & Hn).
    rewrite lookup_insert_eq in Hd'. injection Hd' as <-.
    apply elem_of_app in Hin as [Hin|Hin].
    + left. by exists d, name, f.
    + right. apply elem_of_numbered_files in Hin as (j & png & Hj & -> & _).
      rewrite file_number_banana_filename in Hn by done.
      injection Hn as <-. apply lookup_lt_Some in Hj. lia.
  - intros [(d' & name & f & Hd' & Hin & Hm & Hn)|Hrange].
    + rewrite Hd in Hd'. injection Hd' as <-.
      exists (d ++ numbered_files now date_str start pngs), name, f.
      rewrite lookup_insert_eq. repeat split; try done.
      apply elem_of_app. by left.
    + destruct (lookup_lt_is_Some_2 pngs (Z.to_nat (n - start)))
        as [png Hpng]; [lia|].
      exists (d ++ numbered_files now date_str start pngs),
        (banana_filename date_str n), (File (now_time now) png).
      rewrite lookup_insert_eq. repeat split; try done.
      * apply elem_of_app. right. apply elem_of_numbered_files.
        exists (Z.to_nat (n - start)), png. repeat split; try done.
        f_equal. lia.
      * by apply banana_filename_matches.
      * by apply file_number_banana_filename.
Qed.

Lemma next_number_after_save now fs save_dir date_str d
    (pngs : list bytes) :
  PyStr.all_chars (PyStr.differs "_") date_str = true ->
  PyStr.all_chars PyStr.is_literal date_str = true ->
  fs !! save_dir = Some d ->
  get_next_file_number
    (<[save_dir :=
         d ++ numbered_files now date_str
                (get_next_file_number fs save_dir date_str) pngs]> fs)
    save_dir date_str
  = get_next_file_number fs save_dir date_str + Z.of_nat (length pngs).
Proof.
  intros Hus Hlit Hd.
  set (start := get_next_file_number fs save_dir date_str).
  destruct pngs as [|png pngs].
  { simpl. rewrite app_nil_r, insert_id by done. fold start. lia. }
  set (k := length (png :: pngs)).
  assert (Hk : (0 < k)%nat) by (unfold k; simpl; lia).
  pose proof (has_number_after_save now fs save_dir date_str d start
                (png :: pngs)) as Hnum.
  fold k in Hnum.
  set (fs' := <[save_dir := _]> fs) in *.
  destruct (get_next_file_number_max fs' save_dir date_str) as [Hmax _].
  destruct (get_next_file_number_max fs save_dir date_str) as [Hold Hnone].
  fold start in Hold, Hnone. cbv zeta in Hmax.
  set (next := get_next_file_number fs' save_dir date_str) in *.
  destruct Hmax as [Hin Hub].
  { exists start. apply Hnum; [done..|]. right. lia. }
  assert (Hlow : start + Z.of_nat k - 1 < next).
  { apply Hub, Hnum; [done..|]. right. lia. }
  apply Hnum in Hin as [Hin|Hin]; [|lia|done..].
  destruct Hold as [_ Hless]; [by eexists|].
  specialize (Hless _ Hin). lia.
Qed.

(** X19. Successive saves of a day number their files one after the
    other. After [auto_save_results] has written its files into a
    directory that exists, the next number of that directory is the one
    it started from plus the number of files written, so that a second
    save, by this method or by the next batch, goes on where the first
    ended, without a gap and without reusing a number. *)
Theorem next_number_follows_saved_files
    now (results_ : list bytes) w d :
  let valid_results := filter (fun b => (100 < length b)%nat) results_ in
  let date_str := date_str_of now in
  let save_dir :=
    if uses_original w then original_dir parent w else "banana" in
  let fs0 :=
    if uses_original w then disk w else Fs.mkdir (disk w) "banana" in
  let w' := auto_save_results parent png_of now results_ w in
  valid_results <> [] ->
  fs0 !! save_dir = Some d ->
  get_next_file_number (disk w') save_dir date_str
  = get_next_file_number fs0 save_dir date_str
    + Z.of_nat (length (readable_prefix png_of valid_results)).
Proof.
  intros valid_results date_str save_dir fs0 w' Hne Hd.
  assert (Hvalid :
    filter (fun b => valid_image_data b = true) results_ = valid_results).
  { apply list_filter_iff. intros b. apply valid_image_data_length. }
  unfold w'.
  rewrite disk_auto_save_results by (by rewrite Hvalid).
  rewrite Hvalid. fold save_dir. fold fs0. fold date_str.
  rewrite (save_loop_disk_without_collision png_of now save_dir date_str
             _ 0 valid_results [] fs0 d (date_str_no_underscore now) Hd).
  - rewrite Z.add_0_r.
    apply next_number_after_save;
      [apply date_str_no_underscore|apply date_str_literal|done].
  - intros n Hn.
    pose proof (next_number_fresh fs0 save_dir date_str n
                  (date_str_no_underscore now) (date_str_literal now)
                  ltac:(lia)) as Hfresh.
    unfold Fs.stat in Hfresh. simpl in Hfresh.
    by rewrite Hd in Hfresh.
Qed.

Lemma glob_match_cons_literal (c : ascii) (pat name : string) :
  PyStr.is_literal c = true ->
  Fs.glob_match (String c pat) name
  = match name with
    | EmptyString => false
    | String c' r => Ascii.eqb c c' && Fs.glob_match pat r
    end.
Proof.
  intros [H1 H2]%andb_true_iff.
  unfold PyStr.differs in H1, H2. apply negb_true_iff in H1, H2.
  simpl. by rewrite H1, H2.
Qed.

Lemma glob_match_other_date (today day pat rest : string) :
  PyStr.all_chars PyStr.is_literal today = true ->
  PyStr.all_chars (PyStr.differs "_") today = true ->
  PyStr.all_chars (PyStr.differs "_") day = true ->
  Fs.glob_match (today +:+ String "_" pat) (day +:+ String "_" rest) = true ->
  today = day.
Proof.
  revert day. induction today as [|c today IH]; intros day Hlit Hus Hday.
  - destruct day as [|c' day]; [done|]. rewrite append_nil, append_cons.
    rewrite glob_match_cons_literal by done.
    simpl in Hday. apply andb_true_iff in Hday as [Hc' _].
    unfold PyStr.differs in Hc'. apply negb_true_iff in Hc'.
    rewrite Ascii.eqb_sym in Hc'. by rewrite Hc'.
  - simpl in Hlit, Hus.
    apply andb_true_iff in Hlit as [Hc_lit Hlit].
    apply andb_true_iff in Hus as [Hc Hus].
    unfold PyStr.differs in Hc. apply negb_true_iff in Hc.
    rewrite append_cons, glob_match_cons_literal by done.
    destruct day as [|c' day].
    + rewrite append_nil. by rewrite Hc.
    + rewrite append_cons. simpl in Hday.
      apply andb_true_iff in Hday as [_ Hday].
      intros [->%Ascii.eqb_eq Hm]%andb_true_iff. f_equal. by apply IH.
Qed.

Lemma banana_filename_other_date (today day : string) (n : Z) :
  PyStr.all_chars PyStr.is_literal today = true ->
  PyStr.all_chars (PyStr.differs "_") today = true ->
  PyStr.all_chars (PyStr.differs "_") day = true ->
  today <> day ->
  Fs.glob_match (banana_pattern today) (banana_filename day n) = false.
Proof.
  intros Hlit Hus Hday Hne.
  destruct (Fs.glob_match _ _) eqn:Hm; [|done]. destruct Hne.
  unfold banana_pattern, banana_filename in Hm.
  rewrite (glob_match_literal "banana_") in Hm by done.
  by eapply glob_match_other_date.
Qed.

(** X20. The numbering is by day: the files that the editor wrote on
    other days, whose names carry another date, are not counted. In a
    directory that holds only such files the next number of today is 1,
    and none of them has the name of a file of today, whatever its
    number: they are not overwritten. *)
Theorem numbering_restarts_each_day
    (now : clock) fs (save_dir : string) d :
  fs !! save_dir = Some d ->
  Forall (fun e : string * file =>
            exists (other : clock) (n : Z),
              e.1 = banana_filename (date_str_of other) n
              /\ date_str_of other <> date_str_of now) d ->
  get_next_file_number fs save_dir (date_str_of now) = 1
  /\ forall n : Z,
       Fs.exists_ fs (MkPath save_dir (banana_filename (date_str_of now) n))
       = false.
Proof.
  intros Hd Hother.
  assert (Hnone : forall name f,
             (name, f) ∈ d ->
             Fs.glob_match (banana_pattern (date_str_of now)) name = false).
  { intros name f Hin. rewrite Forall_forall in Hother.
    destruct (Hother _ Hin) as (other & n & Hname & Hne). simpl in Hname.
    subst name. apply banana_filename_other_date; try done.
    - apply date_str_literal.
    - apply date_str_no_underscore.
    - apply date_str_no_underscore. }
  split.
  - apply get_next_file_number_max. intros n (d' & name & f & Hd' & Hin & Hm & _).
    rewrite Hd in Hd'. injection Hd' as <-.
    by rewrite (Hnone name f Hin) in Hm.
  - intros n. unfold Fs.exists_. apply bool_decide_eq_false.
    intros [f Hf]. unfold Fs.stat in Hf. simpl in Hf.
    rewrite Hd in Hf. simpl in Hf. apply lookup_file_Some in Hf.
    pose proof (Hnone _ _ Hf) as Hm.
    rewrite banana_filename_matches in Hm by apply date_str_literal.
    done.
Qed.

End SaveTheorems.

Lemma next_number_follows_saved_files_witness :
  get_next_file_number
    (disk (auto_save_results example_parent example_png_of noon
             [blob 200; blob 50; blob 300] (init ∅)))
    "banana" (date_str_of noon)
  = 3.
Proof.
  pose proof (next_number_follows_saved_files example_parent example_png_of
                noon [blob 200; blob 50; blob 300] (init ∅) []) as H.
  cbv zeta in H. etrans; [apply H|].
  - vm_compute. discriminate.
  - vm_compute. reflexivity.
  - vm_compute. reflexivity.
Defined.

Lemma numbering_restarts_each_day_witness :
  get_next_file_number
    {[ "banana" := [(banana_filename (date_str_of (Clock 31 Aug 0)) 7,
                     File 0 [])] ]}
    "banana" (date_str_of noon)
  = 1.
Proof.
  apply (numbering_restarts_each_day noon _ "banana"
           [(banana_filename (date_str_of (Clock 31 Aug 0)) 7, File 0 [])]).
  - vm_compute. reflexivity.
  - apply Forall_singleton. exists (Clock 31 Aug 0), 7. split; [done|].
    vm_compute. discriminate.
Defined.

(** ** The temporary files of the display *)

Section DisplayFacts.

Context (parent : string -> string) (png_of : bytes -> option bytes)
  (tmp : tempfile) (rgb_png_of : bytes -> option bytes).

Implicit Types (w : BananaEditor) (now : clock) (d : directory)
  (fs : gmap string directory).

Lemma with_files_nil dir fs : with_files dir [] fs = fs.
Proof.
  unfold with_files. destruct (fs !! dir) as [d|] eqn:Hd; [|done].
  by rewrite app_nil_r, insert_id.
Qed.

Lemma with_files_app dir (a b : directory) fs :
  with_files dir b (with_files dir a fs) = with_files dir (a ++ b) fs.
Proof.
  unfold with_files. destruct (fs !! dir) as [d|] eqn:Hd.
  - by rewrite lookup_insert_eq, insert_insert_eq, app_assoc.
  - by rewrite Hd.
Qed.

Lemma with_files_lookup dir (added : directory) fs d :
  fs !! dir = Some d -> with_files dir added fs = <[dir := d ++ added]> fs.
Proof. unfold with_files. by intros ->. Qed.

Lemma mkdir_with_files dir (added : directory) fs name :
  (fs !! dir = None -> added = []) ->
  Fs.mkdir (with_files dir added fs) name
  = with_files dir added (Fs.mkdir fs name).
Proof.
  intros Hnone. destruct (fs !! dir) as [t|] eqn:Hdir.
  - rewrite (with_files_lookup dir added fs t Hdir).
    unfold Fs.mkdir. destruct (decide (name = dir)) as [->|Hne].
    + rewrite lookup_insert_eq, Hdir.
      by rewrite (with_files_lookup dir added fs t Hdir).
    + rewrite lookup_insert_ne by done.
      destruct (fs !! name) as [d|] eqn:Hname.
      * by rewrite (with_files_lookup dir added fs t Hdir).
      * rewrite (with_files_lookup dir added _ t)
          by (by rewrite lookup_insert_ne).
        by apply insert_insert_ne.
  - rewrite (Hnone eq_refl). by rewrite !with_files_nil.
Qed.

Lemma put_file_last name f f' d :
  Fs.lookup_file name d = None ->
  Fs.put_file name f' (d ++ [(name, f)]) = d ++ [(name, f')].
Proof.
  induction d as [|[n g] r IH]; simpl.
  - intros _. by rewrite decide_True.
  - case_decide; [done|]. intros Hr. by rewrite IH.
Qed.

(** A temporary file is created under a name that is free, at the end
    of the directory of the temporary files. *)
Lemma mkstemp_created budget now fs k k' file fs' :
  mkstemp tmp budget now fs k = (k', Some (file, fs')) ->
  exists t r,
    fs !! gettempdir tmp = Some t
    /\ file = MkPath (gettempdir tmp) ("tmp" +:+ r +:+ ".png")
    /\ Fs.lookup_file (path_name file) t = None
    /\ fs' = <[gettempdir tmp :=
                 t ++ [(path_name file, File (now_time now) [])]]> fs.
Proof.
  revert k. induction budget as [|budget IH]; intros k; [done|].
  cbn [mkstemp]. cbv zeta.
  set (file0 := MkPath (gettempdir tmp)
                  ("tmp" +:+ candidate_name tmp k +:+ ".png")).
  destruct (Fs.exists_ fs file0) eqn:Hex; [apply IH|].
  unfold Fs.write. simpl.
  destruct (fs !! gettempdir tmp) as [t|] eqn:Ht; [|done].
  simpl. intros [= <- <- <-].
  assert (Hfree : Fs.lookup_file (path_name file0) t = None).
  { apply bool_decide_eq_false in Hex. unfold Fs.stat in Hex.
    simpl in Hex. rewrite Ht in Hex. simpl in Hex.
    by apply eq_None_not_Some. }
  exists t, (candidate_name tmp k).
  split; [done|]. split; [done|]. split; [done|].
  by rewrite put_file_fresh.
Qed.

Lemma disk_save_temp_result_image now image_data w :
  exists added : directory,
    disk (save_temp_result_image tmp rgb_png_of now image_data w).2
    = with_files (gettempdir tmp) added (disk w)
    /\ (length added <= 1)%nat
    /\ Forall (temp_entry now) added
    /\ (disk w !! gettempdir tmp = None -> added = []).
Proof.
  unfold save_temp_result_image.
  destruct (mkstemp tmp (TMP_MAX tmp) now (disk w) (names_drawn w))
    as [k [[temp_file fs]|]] eqn:Hmk.
  2:{ exists []. rewrite with_files_nil. simpl.
      split; [done|]. split; [lia|]. split; [done|done]. }
  apply mkstemp_created in Hmk as (t & r & Ht & -> & Hfree & ->).
  simpl in Hfree.
  destruct (rgb_png_of image_data) as [png|].
  - cbn [disk set_disk set_names_drawn]. unfold Fs.write. simpl.
    rewrite lookup_insert_eq. cbn [snd disk set_temp_result_files set_disk].
    rewrite insert_insert_eq, put_file_last by done.
    exists [("tmp" +:+ r +:+ ".png", File (now_time now) png)].
    rewrite (with_files_lookup _ _ _ t Ht).
    split; [done|]. split; [simpl; lia|]. split.
    + apply Forall_singleton. split; [by exists r|done].
    + intros Hnone. congruence.
  - cbn [snd disk set_disk set_names_drawn].
    exists [("tmp" +:+ r +:+ ".png", File (now_time now) [])].
    rewrite (with_files_lookup _ _ _ t Ht).
    split; [done|]. split; [simpl; lia|]. split.
    + apply Forall_singleton. split; [by exists r|done].
    + intros Hnone. congruence.
Qed.

Lemma with_files_dir_None dir (added : directory) fs :
  fs !! dir = None -> with_files dir added fs !! dir = None.
Proof. unfold with_files. intros Hdir. by rewrite Hdir. Qed.

Lemma disk_grid_loop now rs w :
  exists added : directory,
    disk (grid_loop tmp rgb_png_of now rs w).2
    = with_files (gettempdir tmp) added (disk w)
    /\ (length added <= length rs)%nat
    /\ Forall (temp_entry now) added
    /\ (disk w !! gettempdir tmp = None -> added = []).
Proof.
  revert w. induction rs as [|image_data rs IH]; intros w.
  - exists []. rewrite with_files_nil. simpl. split; [done|].
    split; [lia|]. by split.
  - cbn [grid_loop]. destruct (rgb_png_of image_data) as [png|] eqn:Hpng.
    2:{ exists []. rewrite with_files_nil. simpl. split; [done|].
        split; [lia|]. by split. }
    destruct (disk_save_temp_result_image now image_data w)
      as (a & Ha & Hla & Hfa & Hna).
    destruct (IH (save_temp_result_image tmp rgb_png_of now image_data w).2)
      as (a' & Hb & Hlb & Hfb & Hnb).
    exists (a ++ a'). rewrite Hb, Ha, with_files_app.
    split; [done|]. split; [rewrite length_app; simpl; lia|].
    split; [by apply Forall_app|].
    intros Hnone. rewrite (Hna Hnone), Hnb; [done|].
    rewrite Ha. by apply with_files_dir_None.
Qed.

(** What the display of results does to the disk: it adds files, at
    most four, to the directory of the temporary files. *)
Lemma disk_display_results now rs w :
  exists added : directory,
    disk (display_results tmp rgb_png_of now rs w)
    = with_files (gettempdir tmp) added (disk w)
    /\ (length added <= Nat.min 4 (length rs))%nat
    /\ Forall (temp_entry now) added
    /\ (disk w !! gettempdir tmp = None -> added = []).
Proof.
  destruct rs as [|r [|r' rs]].
  - exists []. rewrite with_files_nil. simpl. split; [done|].
    split; [lia|]. by split.
  - unfold display_results, _display_single_result.
    destruct (rgb_png_of r).
    + destruct (disk_save_temp_result_image now r
                  (set_current_results [r] w))
        as (a & Ha & Hla & Hfa & Hna).
      exists a. split; [exact Ha|]. split; [simpl; lia|]. by split.
    + exists []. rewrite with_files_nil. simpl. split; [done|].
      split; [lia|]. by split.
  - unfold display_results, _display_grid_results.
    destruct (disk_grid_loop now (take 4 (r :: r' :: rs))
                (set_current_results (r :: r' :: rs) w))
      as (a & Ha & Hla & Hfa & Hna).
    exists a. rewrite length_take in Hla.
    destruct (grid_loop _ _ _ _ _) as [[] w1]; by repeat split.
Qed.

Lemma temp_entry_not_of_day now now' (e : string * file) :
  temp_entry now e ->
  Fs.glob_match (banana_pattern (date_str_of now')) e.1 = false.
Proof. intros [[r ->] _]. reflexivity. Qed.

Lemma glob_with_files dir (added : directory) fs dir' pattern :
  Forall (fun e => Fs.glob_match pattern e.1 = false) added ->
  Fs.glob (with_files dir added fs) dir' pattern = Fs.glob fs dir' pattern.
Proof.
  intros Hadded. unfold Fs.glob, with_files.
  destruct (fs !! dir) as [d|] eqn:Hd; [|done].
  destruct (decide (dir' = dir)) as [->|Hne].
  - rewrite lookup_insert_eq, Hd, filter_app.
    replace (filter _ added) with (@nil (string * file));
      [by rewrite app_nil_r|].
    symmetry. clear Hd. induction Hadded as [|e l He _ IH]; [done|].
    rewrite filter_cons_False by (by rewrite He). exact IH.
  - by rewrite lookup_insert_ne.
Qed.

Lemma next_number_with_temp_files now now' (added : directory) fs save_dir :
  Forall (temp_entry now) added ->
  get_next_file_number (with_files (gettempdir tmp) added fs) save_dir
    (date_str_of now')
  = get_next_file_number fs save_dir (date_str_of now').
Proof.
  intros Hadded. unfold get_next_file_number.
  rewrite glob_with_files; [done|].
  eapply Forall_impl; [exact Hadded|].
  intros e He. by eapply temp_entry_not_of_day.
Qed.

(** The disk after a batch that brought images: the one that the
    automatic save leaves, started on the disk of the display. *)
Lemma disk_on_all_batch_workers_complete now w :
  batch_results w <> [] ->
  disk (on_all_batch_workers_complete parent png_of tmp rgb_png_of now w)
  = disk (auto_save_results parent png_of now (batch_results w)
            (display_results tmp rgb_png_of now (batch_results w) w)).
Proof.
  intros Hne. unfold on_all_batch_workers_complete. cbv zeta.
  set (w1 := set_results (batch_results w) w).
  change (batch_results w1) with (batch_results w).
  destruct (batch_results w) as [|b bs] eqn:Hbr; [done|].
  cbn [disk set_total_workers set_completed_workers set_batch_results
       update_status].
  pose proof (batch_frame_display_results tmp rgb_png_of now (b :: bs) w1)
    as (_ & Hs1 & Ho1 & Hb1 & _).
  pose proof (batch_frame_display_results tmp rgb_png_of now (b :: bs) w)
    as (_ & Hs & Ho & _).
  rewrite Hb1. change (batch_results w1) with (batch_results w).
  rewrite Hbr.
  apply disk_auto_save_results_frame.
  - by rewrite Ho1, Ho.
  - by rewrite Hs1, Hs.
  - unfold w1. by rewrite display_results_set_results.
Qed.

(** X21. What a batch leaves on the disk. When the [N] workers of a
    batch have reported and some image of more than 100 bytes was
    delivered, the disk has gained two runs of files, and nothing else
    has changed. The display has added temporary files, named
    [tmp....png], at most four and at most one for each image, to the
    directory of the temporary files, if it exists. The automatic save
    has then added to the save directory, if it exists, the delivered
    images of more than 100 bytes, in the order of delivery, numbered
    from the next number of the directory on, which the temporary files
    do not change, up to the first image that PIL cannot read. All these
    files bear the time of the last delivery. *)
Theorem batch_writes_delivered_images
    (N : nat) (ds : list (clock * signal)) w d now sg :
  (1 <= N)%nat -> length ds = N ->
  last ds = Some (now, sg) ->
  let valid_results :=
    filter (fun b => (100 < length b)%nat) (accumulated ds) in
  let save_dir :=
    if uses_original w then original_dir parent w else "banana" in
  let fs0 :=
    if uses_original w then disk w else Fs.mkdir (disk w) "banana" in
  valid_results <> [] ->
  fs0 !! save_dir = Some d ->
  exists temp_files : directory,
    (length temp_files <= Nat.min 4 (length (accumulated ds)))%nat
    /\ Forall (temp_entry now) temp_files
    /\ disk (deliver_all parent png_of tmp rgb_png_of ds (start_batch N w))
       = with_files save_dir
           (numbered_files now (date_str_of now)
              (get_next_file_number fs0 save_dir (date_str_of now))
              (readable_prefix png_of valid_results))
           (with_files (gettempdir tmp) temp_files fs0).
Proof.
  intros HN Hlen Hlast valid_results save_dir fs0 Hne Hd.
  destruct (deliver_all_finished parent png_of tmp rgb_png_of N ds w HN Hlen)
    as (now' & sg' & wc & Hlast' & Hc & ->).
  rewrite Hlast in Hlast'. injection Hlast' as <- <-.
  apply collected_start_batch in Hc as (_ & _ & Hbr & _ & Hdisk & Hsel & Hso).
  assert (Hvalid :
    filter (fun b => valid_image_data b = true) (accumulated ds)
    = valid_results).
  { apply list_filter_iff. intros b. apply valid_image_data_length. }
  assert (Hsome : accumulated ds <> []).
  { intros Hnil. apply Hne. unfold valid_results. by rewrite Hnil. }
  rewrite disk_on_all_batch_workers_complete by (by rewrite Hbr).
  rewrite Hbr.
  set (wd := display_results tmp rgb_png_of now (accumulated ds) wc).
  destruct (disk_display_results now (accumulated ds) wc)
    as (temp_files & Hshown & Hcount & Htemp & Hnone).
  fold wd in Hshown. rewrite Hdisk in Hshown, Hnone.
  pose proof (batch_frame_display_results tmp rgb_png_of now
                (accumulated ds) wc) as (_ & Hs & Ho & _).
  fold wd in Hs, Ho.
  assert (Huses : uses_original wd = uses_original w).
  { unfold uses_original. by rewrite Hs, Ho, Hsel, Hso. }
  assert (Horig : original_dir parent wd = original_dir parent w).
  { unfold original_dir. by rewrite Hs, Hsel. }
  exists temp_files. split; [done|]. split; [done|].
  rewrite disk_auto_save_results by (by rewrite Hvalid).
  rewrite Hvalid, Huses, Horig. fold save_dir.
  set (fsd := if uses_original w then disk wd else Fs.mkdir (disk wd) "banana").
  assert (Hfsd : fsd = with_files (gettempdir tmp) temp_files fs0).
  { unfold fsd, fs0. rewrite Hshown.
    destruct (uses_original w); [done|].
    apply mkdir_with_files. exact Hnone. }
  rewrite Hfsd.
  rewrite (next_number_with_temp_files now now temp_files fs0 save_dir Htemp).
  set (start := get_next_file_number fs0 save_dir (date_str_of now)).
  assert (exists d', with_files (gettempdir tmp) temp_files fs0 !! save_dir
                     = Some d') as [d' Hd'].
  { unfold with_files. destruct (fs0 !! gettempdir tmp) as [t|] eqn:Ht;
      [|by exists d].
    destruct (decide (save_dir = gettempdir tmp)) as [->|Hne'].
    - rewrite lookup_insert_eq. eauto.
    - rewrite lookup_insert_ne by done. eauto. }
  rewrite (save_loop_disk_without_collision png_of now save_dir
             (date_str_of now) start 0 valid_results []
             (with_files (gettempdir tmp) temp_files fs0) d'
             (date_str_no_underscore now) Hd').
  - rewrite Z.add_0_r. by rewrite (with_files_lookup _ _ _ d' Hd').
  - intros n Hn.
    pose proof (next_number_fresh
                  (with_files (gettempdir tmp) temp_files fs0) save_dir
                  (date_str_of now) n
                  (date_str_no_underscore now) (date_str_literal now))
      as Hfresh.
    rewrite (next_number_with_temp_files now now temp_files fs0 save_dir
               Htemp) in Hfresh.
    specialize (Hfresh ltac:(fold start; lia)).
    unfold Fs.stat in Hfresh. simpl in Hfresh.
    by rewrite Hd' in Hfresh.
Qed.

End DisplayFacts.

Lemma batch_writes_delivered_images_witness :
  exists temp_files : directory,
    (length temp_files <= 2)%nat
    /\ Forall (temp_entry noon) temp_files
    /\ disk (deliver_all example_parent example_png_of example_tempfile
               example_rgb_png_of three_deliveries
               (start_batch 3 (init {[ "/tmp" := [] ]})))
       = with_files "banana"
           [("banana_1sep_001.png", File 1000 (blob 200));
            ("banana_1sep_002.png", File 1000 (blob 300))]
           (with_files "/tmp" temp_files
              {[ "/tmp" := []; "banana" := [] ]}).
Proof.
  pose proof (batch_writes_delivered_images example_parent example_png_of
                example_tempfile example_rgb_png_of
                3 three_deliveries (init {[ "/tmp" := [] ]}) [] noon
                (Succeeded [blob 300])) as H.
  cbv zeta in H.
  destruct H as (temp_files & Hcount & Htemp & Hdisk).
  - lia.
  - reflexivity.
  - reflexivity.
  - vm_compute. discriminate.
  - vm_compute. reflexivity.
  - exists temp_files. split; [exact Hcount|]. split; [exact Htemp|].
    exact Hdisk.
Defined.

(** The disk of the witness: the two temporary files of the grid and
    the two numbered files. *)
Example batch_disk_values :
  disk (deliver_all example_parent example_png_of example_tempfile
          example_rgb_png_of three_deliveries
          (start_batch 3 (init {[ "/tmp" := [] ]})))
  = {[ "/tmp" := [("tmp00000000.png", File 1000 (blob 200));
                  ("tmp00000001.png", File 1000 (blob 300))];
       "banana" := [("banana_1sep_001.png", File 1000 (blob 200));
                    ("banana_1sep_002.png", File 1000 (blob 300))] ]}.
Proof. vm_compute. reflexivity. Qed.

Section WorkerFacts.

Context (parent : string -> string) (png_of : bytes -> option bytes)
  (tmp : tempfile) (rgb_png_of : bytes -> option bytes)
  (error_text : worker_error -> string).

Lemma run_obtained (k : worker) :
  match run k with
  | EmitImages results_ => results_ = obtained k /\ results_ <> []
  | EmitError _ => obtained k = []
  end.
Proof.
  destruct k as [api_key [[|b bs]|message]|api_key [[|b bs]|message]];
    simpl; unfold TextToImageWorker_run, ImageEditWorker_run;
    destruct (PyStr.truthy api_key); simpl; try done;
    by destruct (str_in _ message); [|destruct (str_in _ message)].
Qed.

Lemma payload_batch_deliveries (k : clock * worker) :
  payload (k.1, to_signal error_text (run k.2)) = obtained k.2.
Proof.
  pose proof (run_obtained k.2) as Hrun. unfold payload. simpl.
  destruct (run k.2) as [results_|err]; simpl; [by destruct Hrun|done].
Qed.

Lemma accumulated_batch_deliveries (workers : list (clock * worker)) :
  accumulated (batch_deliveries error_text workers)
  = mjoin ((fun k => obtained k.2) <$> workers).
Proof.
  unfold accumulated, batch_deliveries.
  induction workers as [|k workers IH]; [done|].
  simpl. f_equal; [apply payload_batch_deliveries|exact IH].
Qed.

Lemma mjoin_not_nil {A : Type} (ls : list (list A)) :
  (exists l, l ∈ ls /\ l <> []) <-> mjoin ls <> [].
Proof.
  induction ls as [|x ls IH]; simpl.
  - split; [by intros (l & ?%elem_of_nil & _)|done].
  - split.
    + intros (l & [->|Hin]%elem_of_cons & Hl) [Hx Hrest]%app_eq_nil;
        [done|]. apply IH; [by exists l|done].
    + intros Hsome. destruct x as [|a x].
      * destruct IH as [_ (l & Hin & Hl)]; [done|].
        exists l. split; [by right|done].
      * exists (a :: x). split; [left|done].
Qed.

End WorkerFacts.

(** X22. A worker ends with one signal: with the images, and then at
    least one, or with an error. So a batch of [N] workers, whatever the
    key and the answers of the API, makes [N] deliveries, and when the
    last worker has ended the batch is finalized once; [results] is then
    the images the workers obtained, in the order in which the workers
    ended, and the batch is reported as a success, with their number,
    exactly when one worker at least obtained an image. *)
Theorem workers_batch_succeeds_iff_some_image
    (parent : string -> string) (png_of : bytes -> option bytes)
    (tmp : tempfile) (rgb_png_of : bytes -> option bytes)
    (error_text : worker_error -> string)
    (workers : list (clock * worker)) (w : BananaEditor) :
  workers <> [] ->
  let ds := batch_deliveries error_text workers in
  let w' :=
    deliver_all parent png_of tmp rgb_png_of ds
      (start_batch (length workers) w) in
  let images := mjoin ((fun k => obtained k.2) <$> workers) in
  length ds = length workers
  /\ Forall (fun d => succeeded d = true -> payload d <> []) ds
  /\ finalize_count w' = S (finalize_count w)
  /\ results w' = images
  /\ ((exists k, k ∈ workers /\ obtained k.2 <> []) <-> images <> [])
  /\ (images <> [] <->
      exists location_,
        head (final_reports w')
        = Some (BatchSuccess (length images) location_)).
Proof.
  intros Hne ds w' images.
  assert (Hlen : length ds = length workers).
  { unfold ds, batch_deliveries. by rewrite length_fmap. }
  assert (HN : (1 <= length workers)%nat).
  { destruct workers; [done|simpl; lia]. }
  destruct (deliver_all_finished parent png_of tmp rgb_png_of
              (length workers) ds w HN Hlen)
    as (now & sg & wc & _ & Hc & Heq).
  apply collected_start_batch in Hc as (_ & Htw & Hbr & Hfr & _).
  pose proof (on_all_batch_workers_complete_run parent png_of tmp
                rgb_png_of now wc)
    as (_ & _ & _ & Hres & _ & _ & _ & Hfin).
  cbv zeta in Hfin. rewrite <- Heq in Hres, Hfin. fold w' in Hres, Hfin.
  rewrite Hbr in Hres, Hfin.
  unfold ds in Hres, Hfin. rewrite accumulated_batch_deliveries in Hres, Hfin.
  fold images in Hres, Hfin.
  split; [done|]. split; [|split; [|split; [done|split]]].
  - unfold ds, batch_deliveries. apply Forall_fmap, Forall_forall.
    intros k _. simpl. intros Hok.
    pose proof (run_obtained k.2) as Hrun. unfold payload. simpl.
    destruct (run k.2) as [results_|err]; simpl in *; [by destruct Hrun|done].
  - unfold finalize_count. by rewrite Hfin, Hfr.
  - unfold images. rewrite <- mjoin_not_nil. split.
    + intros (k & Hin & Hk). exists (obtained k.2). split; [|done].
      by apply (list_elem_of_fmap_2 (fun k => obtained k.2)).
    + intros (l & (k & -> & Hin)%list_elem_of_fmap & Hl). by exists k.
  - rewrite Hfin. destruct images as [|b bs].
    + split; [done|]. intros [location_ Hhead]. simpl in Hhead.
      by destruct (if PyStr.truthy _ then _ else _).
    + split; [|done]. intros _. by eexists.
Qed.

Lemma workers_batch_succeeds_iff_some_image_witness :
  [(noon, TextToImageWorker (Some "key") (Generated [blob 200]));
   (noon, ImageEditWorker None (Generated [blob 300]))] <> []
  /\ results
       (deliver_all example_parent example_png_of
           example_tempfile example_rgb_png_of
          (batch_deliveries (fun _ => "error")
             [(noon, TextToImageWorker (Some "key") (Generated [blob 200]));
              (noon, ImageEditWorker None (Generated [blob 300]))])
          (start_batch 2 (init ∅)))
     = [blob 200].
Proof.
  split; [done|].
  apply (workers_batch_succeeds_iff_some_image example_parent example_png_of
                example_tempfile example_rgb_png_of
           (fun _ => "error")
           [(noon, TextToImageWorker (Some "key") (Generated [blob 200]));
            (noon, ImageEditWorker None (Generated [blob 300]))] (init ∅)).
  done.
Defined.

Section MiscFacts.

Context (name_of : string -> string) (png_of : bytes -> option bytes).

Lemma str_from_append s t : str_from (String.length s) (s +:+ t) = t.
Proof. induction s as [|c s IH]; simpl; [by destruct t|done]. Qed.

Lemma suffix_last_dot s x :
  s <> EmptyString -> x <> EmptyString ->
  PyStr.all_chars (PyStr.differs ".") x = true ->
  suffix (s +:+ String "." x) = String "." x.
Proof.
  intros Hs Hx Hdots. unfold suffix.
  rewrite (rfind_last "." s x) by done.
  rewrite length_append. simpl String.length.
  destruct s as [|c s]; [done|]. destruct x as [|c' x]; [done|].
  simpl String.length.
  replace ((0 <? S (String.length s))
           && (S (String.length s)
               <? S (String.length s) + S (S (String.length x)) - 1))%nat
    with true by (symmetry; apply andb_true_iff;
                  split; apply Nat.ltb_lt; lia).
  apply (str_from_append (String c s)).
Qed.

Lemma suffix_no_dot s :
  PyStr.all_chars (PyStr.differs ".") s = true -> suffix s = EmptyString.
Proof. intros Hs. unfold suffix. by rewrite rfind_absent. Qed.

Lemma int_pretty (n : N) : PyStr.int (pretty n) = Some (Z.of_N n).
Proof.
  rewrite int_digits.
  - apply digits_pretty.
  - apply pretty_nonempty.
  - apply all_digits_pretty.
Qed.

Lemma save_loop_unreadable now save_dir date_str (start_number i : Z)
    (valid_results : list bytes) (saved_files : list Path)
    (fs : gmap string directory) :
  ~ Forall (fun image_data => is_Some (png_of image_data)) valid_results ->
  is_Some (fs !! save_dir) ->
  (save_loop png_of now save_dir date_str start_number i valid_results
     saved_files fs).2
  = Raise UnidentifiedImageError.
Proof.
  revert i saved_files fs.
  induction valid_results as [|image_data rest IH];
    intros i saved_files fs Hbad Hdir.
  - by destruct Hbad.
  - cbn [save_loop]. destruct (png_of image_data) as [png|] eqn:Hpng; [|done].
    cbv zeta.
    set (counter := collision_counter 1000 fs save_dir date_str
                      (start_number + i) 0).
    destruct (write_is_Some fs
                (MkPath save_dir
                   (banana_filename date_str (start_number + i + counter)))
                (File (now_time now) png) Hdir) as [fs' Hw].
    rewrite Hw. apply IH.
    + intros Hrest. apply Hbad. constructor; [by rewrite Hpng|done].
    + by eapply write_keeps_dir.
Qed.

End MiscFacts.

(** X23. [get_batch_count] reads the number back from the text of the
    combo box: for every number [n] the text [n-img] gives [n]. The four
    items of the box give 1 to 4, so that a batch started from the box
    has at least one worker. *)
Theorem get_batch_count_reads_item (n : N) :
  get_batch_count (pretty n +:+ "-img") = Some (Z.of_N n)
  /\ Forall (fun item => exists k, get_batch_count item = Some k
                                   /\ 1 <= k <= 4) batch_items.
Proof.
  split.
  - unfold get_batch_count.
    change (pretty n +:+ "-img") with (pretty n +:+ String "-" "img").
    rewrite split_append_sep.
    + simpl. apply int_pretty.
    + eapply all_chars_impl; [|apply all_digits_pretty].
      intros c Hc. by apply is_digit_differs.
  - repeat constructor; eexists; (split; [vm_compute; reflexivity|lia]).
Qed.

(** X24. [is_image_file] goes by the last extension of the file name,
    letter case apart. A name with something before its last dot and
    something after it is taken exactly when the part from that dot on,
    in lower case, is one of the seven extensions; a name without a dot,
    and one whose only dot comes first, is refused. Every name under
    which the editor saves a result is taken. *)
Theorem is_image_file_by_last_extension
    (name_of : string -> string) (file_path s x : string) :
  file_path <> EmptyString ->
  PyStr.all_chars (PyStr.differs ".") x = true ->
  (name_of file_path = s +:+ String "." x ->
   s <> EmptyString -> x <> EmptyString ->
   is_image_file name_of file_path
   = bool_decide (PyStr.lower (String "." x) ∈ image_extensions))
  /\ (name_of file_path = x -> is_image_file name_of file_path = false)
  /\ (name_of file_path = String "." x ->
      is_image_file name_of file_path = false)
  /\ (forall date_str n,
        name_of file_path = banana_filename date_str n ->
        is_image_file name_of file_path = true).
Proof.
  intros Hpath Hdots.
  assert (His : forall name,
             name_of file_path = name ->
             is_image_file name_of file_path
             = bool_decide (PyStr.lower (suffix name) ∈ image_extensions)).
  { intros name <-. unfold is_image_file. by destruct file_path. }
  split; [|split; [|split]].
  - intros Hname Hs Hx. rewrite (His _ Hname).
    by rewrite suffix_last_dot.
  - intros Hname. rewrite (His _ Hname). by rewrite suffix_no_dot.
  - intros Hname. rewrite (His _ Hname). unfold suffix.
    change (String "." x) with (EmptyString +:+ String "." x).
    by rewrite (rfind_last "." EmptyString x).
  - intros date_str n Hname. rewrite (His _ Hname).
    unfold banana_filename.
    replace ("banana_" +:+ date_str +:+ "_" +:+ PyStr.fmt03d n +:+ ".png")
      with (("banana_" +:+ date_str +:+ "_" +:+ PyStr.fmt03d n)
            +:+ String "." "png")
      by (by rewrite !append_assoc).
    by rewrite suffix_last_dot.
Qed.

Lemma is_image_file_by_last_extension_witness :
  ("shots/Cat.JPG" <> EmptyString
   /\ PyStr.all_chars (PyStr.differs ".") "JPG" = true)
  /\ is_image_file (fun _ => "Cat.JPG") "shots/Cat.JPG" = true.
Proof.
  split; [by split|].
  destruct (is_image_file_by_last_extension (fun _ => "Cat.JPG")
              "shots/Cat.JPG" "Cat" "JPG") as [Hext _]; [done..|].
  by rewrite Hext.
Defined.

Lemma get_batch_count_reads_item_witness :
  get_batch_count "12-img" = Some 12.
Proof. apply (get_batch_count_reads_item 12). Defined.

(** X25. [save_results], the manual save, writes every result shown,
    also those of at most 100 bytes that the automatic save leaves out.
    Into a folder that exists it adds the results, in their order,
    numbered from the next number of the folder on, up to the first one
    that PIL cannot read; it reports the number of files when all were
    written and a failure otherwise, the files written before the failure
    staying. Without a result or without a folder chosen it changes
    nothing. The error thumbnails that a failed batch shows are results
    as any other: the manual save writes them. *)
Theorem save_results_writes_every_result
    (png_of : bytes -> option bytes) (now : clock) (save_dir : string)
    (w : BananaEditor) (d : directory) :
  disk w !! save_dir = Some d ->
  let r := save_results png_of now save_dir w in
  let pngs := readable_prefix png_of (current_results w) in
  ((current_results w = [] \/ save_dir = EmptyString) -> r.2 = w)
  /\ (current_results w <> [] -> save_dir <> EmptyString ->
      disk r.2
      = <[save_dir :=
            d ++ numbered_files now (date_str_of now)
                   (get_next_file_number (disk w) save_dir (date_str_of now))
                   pngs]> (disk w)
      /\ (Forall (fun b => is_Some (png_of b)) (current_results w) ->
          length pngs = length (current_results w)
          /\ r.1 = SavedFiles (length (current_results w)))
      /\ (~ Forall (fun b => is_Some (png_of b)) (current_results w) ->
          r.1 = SaveFailed UnidentifiedImageError)).
Proof.
  intros Hd r pngs. split.
  - intros Hnothing. unfold r, save_results.
    destruct (current_results w) as [|b bs]; [done|].
    destruct save_dir; [done|]. by destruct Hnothing.
  - intros Hsome Hdir.
    set (start := get_next_file_number (disk w) save_dir (date_str_of now)).
    assert (Hfresh : forall n, start + 0 <= n ->
              Fs.lookup_file (banana_filename (date_str_of now) n) d = None).
    { intros n Hn.
      pose proof (next_number_fresh (disk w) save_dir (date_str_of now) n
                    (date_str_no_underscore now) (date_str_literal now)
                    ltac:(fold start; lia)) as Hfresh.
      unfold Fs.stat in Hfresh. simpl in Hfresh.
      by rewrite Hd in Hfresh. }
    assert (Hrun : r = let '(fs', res) :=
                         save_loop png_of now save_dir (date_str_of now)
                           start 0 (current_results w) [] (disk w) in
                       match res with
                       | Return saved_files =>
                           (SavedFiles (length saved_files), set_disk fs' w)
                       | Raise e => (SaveFailed e, set_disk fs' w)
                       end).
    { unfold r, save_results.
      destruct (current_results w) as [|b bs]; [done|].
      by destruct save_dir. }
    pose proof (save_loop_disk_without_collision png_of now save_dir
                  (date_str_of now) start 0 (current_results w) [] (disk w)
                  d (date_str_no_underscore now) Hd Hfresh) as Hdisk.
    rewrite Z.add_0_r in Hdisk. fold pngs in Hdisk.
    split; [|split].
    + rewrite Hrun. destruct (save_loop _ _ _ _ _ _ _ _ _) as [fs' [sf|e]];
        simpl in *; by rewrite Hdisk.
    + intros Hall.
      pose proof (readable_prefix_all png_of _ Hall) as Hpngs.
      fold pngs in Hpngs.
      assert (Hlen : length pngs = length (current_results w)).
      { symmetry. by eapply length_mapM. }
      split; [done|].
      rewrite Hrun.
      rewrite (save_loop_without_collision png_of now save_dir
                 (date_str_of now) start 0 (current_results w) pngs []
                 (disk w) d (date_str_no_underscore now) Hd Hfresh Hpngs).
      simpl. rewrite length_fmap. f_equal.
      rewrite <- Hlen. clear. generalize (start + 0).
      induction pngs as [|q ps IH]; intros n; simpl; [done|].
      by rewrite IH.
    + intros Hbad. rewrite Hrun.
      pose proof (save_loop_unreadable png_of now save_dir (date_str_of now)
                    start 0 (current_results w) [] (disk w) Hbad
                    ltac:(by rewrite Hd)) as Hraise.
      destruct (save_loop _ _ _ _ _ _ _ _ _) as [fs' [sf|e]];
        simpl in *; [done|]. by injection Hraise as ->.
Qed.

Lemma save_results_writes_every_result_witness :
  let w :=
    deliver_all example_parent example_png_of example_tempfile
      example_rgb_png_of two_failures
      (start_batch 2 (init disk_with_error_png)) in
  current_results w = [blob 7; blob 7]
  /\ (save_results example_png_of noon "banana" w).1 = SavedFiles 2
  /\ disk (save_results example_png_of noon "banana" w).2 !! "banana"
     = Some [("banana_1sep_001.png", File 990 (blob 200));
             ("banana_1sep_002.png", File 1000 (blob 7));
             ("banana_1sep_003.png", File 1000 (blob 7))].
Proof.
  intros w. split; [vm_compute; reflexivity|].
  destruct (save_results_writes_every_result example_png_of noon "banana" w
              [("banana_1sep_001.png", File 990 (blob 200))])
    as [_ Hsave]; [vm_compute; reflexivity|].
  destruct Hsave as (Hdisk & Hall & _);
    [vm_compute; discriminate|discriminate|].
  split.
  - apply Hall. apply Forall_forall. intros b _. by eexists.
  - rewrite Hdisk. vm_compute. reflexivity.
Defined.

(** X26. The wheel keeps the font size within its bounds. With Control
    held, a size between [min_font_size] and [max_font_size] moves by one
    point in the direction of the wheel and stops at the bound; without
    Control, or with a wheel that has not turned, the size stays. A size
    above the maximum, which only the settings file can bring, is
    lowered by one point at a time by the wheel turned down, and set to
    the maximum at once by the wheel turned up. *)
Theorem wheelEvent_keeps_font_size_within_bounds
    (min_font_size max_font_size : Z) (ctrl : bool) (delta size : Z) :
  min_font_size <= max_font_size ->
  let size' := wheelEvent min_font_size max_font_size ctrl delta size in
  (min_font_size <= size <= max_font_size ->
   min_font_size <= size' <= max_font_size
   /\ (ctrl = true -> 0 < delta -> size < max_font_size -> size' = size + 1)
   /\ (ctrl = true -> delta < 0 -> min_font_size < size -> size' = size - 1))
  /\ (ctrl = false \/ delta = 0 -> size' = size)
  /\ (max_font_size < size -> ctrl = true ->
      (delta < 0 -> size' = size - 1)
      /\ (0 < delta -> size' = max_font_size)).
Proof.
  intros Hbounds size'. unfold size', wheelEvent.
  destruct ctrl; destruct (Z.ltb_spec 0 delta); destruct (Z.ltb_spec delta 0);
    repeat split; intros; try lia; try done; try (by destruct_or!; try lia).
Qed.

Lemma wheelEvent_keeps_font_size_within_bounds_witness :
  (8 <= 30 /\ 8 <= 30 <= 30)
  /\ 8 <= wheelEvent 8 30 true 120 30 <= 30.
Proof.
  split; [lia|].
  destruct (wheelEvent_keeps_font_size_within_bounds 8 30 true 120 30)
    as [Hin _]; [lia|].
  destruct Hin as [Hrange _]; [lia|]. exact Hrange.
Defined.

Section OpenViewerFacts.

Context (path_exists : string -> bool).

Lemma viewer_at_consistent (cs : list string) (ci : Z) :
  0 <= ci < Z.of_nat (length cs) ->
  exists p first v,
    cs !! Z.to_nat ci = Some p
    /\ cs !! 0%nat = Some first
    /\ (match Viewer.init (inr cs) with
        | Raise _ => None
        | Return v =>
            let loaded := Viewer.image_path v in
            if ci <? Z.of_nat (length cs) then
              match Viewer.getitem cs ci with
              | Return p =>
                  Some (Viewer.Viewer (Viewer.image_paths v) ci p, loaded)
              | Raise _ => None
              end
            else Some (v, loaded)
        end) = Some (v, first)
    /\ v = Viewer.Viewer cs ci p
    /\ Viewer.consistent v.
Proof.
  intros Hci.
  destruct (getitem_in_range cs ci Hci) as (p & Hp & Hget).
  destruct cs as [|c cs]; [simpl in Hci; lia|].
  exists p, c, (Viewer.Viewer (c :: cs) ci p).
  split; [done|]. split; [done|].
  change (Viewer.init (inr (c :: cs)))
    with (Return (Viewer.Viewer (c :: cs) 0 c)).
  cbv iota beta zeta.
  replace (ci <? Z.of_nat (length (c :: cs))) with true
    by (symmetry; apply Z.ltb_lt; lia).
  rewrite Hget. split; [done|]. split; [done|]. split; [done|exact Hp].
Qed.

End OpenViewerFacts.

(** X27. [open_floating_viewer] opens the viewer with attributes in
    which the index is one of the list and the path is the one at the
    index, for every image path that exists: the list is either the
    temporary result files that exist, when the clicked image is among
    them, also when they are those of the error thumbnails, or the
    clicked image alone. With no thumbnail index given the path is the
    clicked one; with an index of the list given the index is that one.
    The picture in the window is not read from that path: it is the
    first image of the list, whatever was clicked, and so the image of
    the index only when both are the same file. For an empty path, or
    one that does not exist, no viewer is opened. *)
Theorem open_floating_viewer_starts_consistent
    (path_exists : string -> bool)
    (temp_result_files : option (list string))
    (image_path : string) (thumbnail_index : option Z) :
  let opened :=
    open_floating_viewer path_exists temp_result_files image_path
      thumbnail_index in
  (image_path = EmptyString \/ path_exists image_path = false ->
   opened = None)
  /\ (image_path <> EmptyString -> path_exists image_path = true ->
      exists v loaded,
        opened = Some (v, loaded)
        /\ Viewer.consistent v
        /\ image_path ∈ Viewer.image_paths v
        /\ (Viewer.image_paths v = [image_path]
            \/ exists files,
                 temp_result_files = Some files
                 /\ Viewer.image_paths v
                    = filter (fun path => path_exists path = true) files)
        /\ (thumbnail_index = None -> Viewer.image_path v = image_path)
        /\ (forall ti,
              thumbnail_index = Some ti ->
              0 <= ti < Z.of_nat (length (Viewer.image_paths v)) ->
              Viewer.current_index v = ti)
        /\ Viewer.image_paths v !! 0%nat = Some loaded
        /\ (loaded = Viewer.image_path v <->
            Viewer.image_paths v !! Z.to_nat (Viewer.current_index v)
            = Viewer.image_paths v !! 0%nat)).
Proof.
  intros opened. unfold opened, open_floating_viewer. split.
  - intros [->|Hmissing]; [done|]. rewrite Hmissing.
    by rewrite andb_false_r.
  - intros Hpath Hexists.
    replace (PyStr.truthy (Some image_path)) with true
      by (by destruct image_path).
    rewrite Hexists. cbn [andb negb].
    assert (Hsingle : exists v loaded,
      (match Viewer.init (inr [image_path]) with
       | Raise _ => None
       | Return v =>
           let loaded := Viewer.image_path v in
           if 0 <? Z.of_nat (length [image_path]) then
             match Viewer.getitem [image_path] 0 with
             | Return p =>
                 Some (Viewer.Viewer (Viewer.image_paths v) 0 p, loaded)
             | Raise _ => None
             end
           else Some (v, loaded)
       end) = Some (v, loaded)
      /\ Viewer.consistent v
      /\ image_path ∈ Viewer.image_paths v
      /\ (Viewer.image_paths v = [image_path]
          \/ exists files,
               temp_result_files = Some files
               /\ Viewer.image_paths v
                  = filter (fun path => path_exists path = true) files)
      /\ (thumbnail_index = None -> Viewer.image_path v = image_path)
      /\ (forall ti,
            thumbnail_index = Some ti ->
            0 <= ti < Z.of_nat (length (Viewer.image_paths v)) ->
            Viewer.current_index v = ti)
      /\ Viewer.image_paths v !! 0%nat = Some loaded
      /\ (loaded = Viewer.image_path v <->
          Viewer.image_paths v !! Z.to_nat (Viewer.current_index v)
          = Viewer.image_paths v !! 0%nat)).
    { exists (Viewer.Viewer [image_path] 0 image_path), image_path.
      split; [done|]. split; [by split|]. simpl.
      split; [by left|]. split; [by left|]. split; [done|].
      split; [intros ti _ Hti; lia|]. done. }
    destruct temp_result_files as [[|file files]|];
      [exact Hsingle| |exact Hsingle].
    cbv zeta.
    remember (filter (fun path => path_exists path = true) (file :: files))
      as valid eqn:Hvalid.
    destruct valid as [|a valid']; [exact Hsingle|].
    cbn [fst snd]. cbv beta iota.
    set (valid := a :: valid') in *.
    case_bool_decide as Hin; [|exact Hsingle].
    destruct (list_find_elem_of (fun p => p = image_path) valid image_path
                Hin eq_refl) as [[i q] Hfind].
    rewrite Hfind.
    apply list_find_Some in Hfind as (Hi & -> & _).
    pose proof (lookup_lt_Some _ _ _ Hi) as Hlt.
    set (ci := match thumbnail_index with
               | Some ti =>
                   if (0 <=? ti) && (ti <? Z.of_nat (length valid))
                   then ti else Z.of_nat i
               | None => Z.of_nat i
               end).
    assert (Hci : 0 <= ci < Z.of_nat (length valid)).
    { unfold ci. destruct thumbnail_index as [ti|]; [|lia].
      destruct ((0 <=? ti) && (ti <? Z.of_nat (length valid))) eqn:Hti;
        [|lia].
      apply andb_true_iff in Hti as [?%Z.leb_le ?%Z.ltb_lt]. lia. }
    destruct (viewer_at_consistent valid ci Hci)
      as (p & first & v & Hp & Hfirst & Hrun & -> & Hv).
    cbv zeta in Hrun. rewrite Hrun.
    eexists _, _. split; [done|]. split; [done|]. simpl.
    split; [done|]. split.
    { right. by exists (file :: files). }
    split; [|split; [|split]].
    + intros ->. unfold ci in Hp. rewrite Nat2Z.id in Hp. congruence.
    + intros ti -> [Hlo Hhi]. unfold ci.
      replace ((0 <=? ti) && (ti <? Z.of_nat (length valid))) with true;
        [done|].
      symmetry. apply andb_true_iff.
      split; [by apply Z.leb_le|by apply Z.ltb_lt].
    + exact Hfirst.
    + rewrite Hp. unfold valid in Hfirst. injection Hfirst as ->.
      split; [by intros ->|by intros [= ->]].
Qed.

Lemma open_floating_viewer_starts_consistent_witness :
  exists v,
    open_floating_viewer (fun _ => true) (Some ["t1.png"; "t2.png"])
      "t2.png" (Some 1) = Some (v, "t1.png")
    /\ Viewer.image_path v = "t2.png"
    /\ Viewer.current_index v = 1.
Proof.
  destruct (open_floating_viewer_starts_consistent (fun _ => true)
              (Some ["t1.png"; "t2.png"]) "t2.png" (Some 1))
    as [_ Hopen].
  destruct Hopen
    as (v & loaded & Hrun & Hv & _ & _ & _ & Hindex & Hloaded & _);
    [done..|].
  assert (Hpaths : Viewer.image_paths v = ["t1.png"; "t2.png"]).
  { vm_compute in Hrun. by injection Hrun as <- <-. }
  assert (Hci : Viewer.current_index v = 1).
  { apply Hindex; [done|]. rewrite Hpaths. simpl. lia. }
  rewrite Hpaths in Hloaded. injection Hloaded as <-.
  exists v. split; [exact Hrun|]. split; [|exact Hci].
  destruct Hv as [_ Hat]. rewrite Hpaths, Hci in Hat.
  by injection Hat as <-.
Defined.
